(** * Customer-service contact analysis: a shallow embedding

    The development follows [customer_service_analysis.py].  The class
    [CustomerServiceAnalysis] keeps one merged table, built by
    [_preprocess_data] and then read (and, in places, written) by eight
    analysis methods that [generate_all_analyses] calls in sequence inside a
    single [try] block.

    Modelling conventions.
    - A data frame is a list of column labels together with a list of typed
      rows.  Reading a column whose label is missing raises [KeyError], as
      [df['label']] does.  The two input frames carry disjoint labels, a
      timestamp is a number of seconds since the epoch and is never missing,
      and an [order_id] is loaded as an integer or as a string.
    - Strings are ASCII text.  [int(x, 36)] follows CPython's parser on such
      text; the interpreter's configurable limit on the length of integer
      strings is not modelled.
    - A float is an exact rational or one of the IEEE special values
      [NaN], [+inf], [-inf]; division by zero yields a special value and
      never raises, as in numpy.  Binary rounding error is outside the model.
    - The argsort behind [sort_values] is the library's, selected by the
      [kind] argument that the code leaves at its default; it enters the model
      as a section variable.
    - [value_counts] counts labels in order of first appearance before it
      sorts them; [groupby] lists its keys in ascending order, and on the
      categorical [day_of_week] it lists every category ([observed=False],
      the default of pandas 2).
    - Chart rendering ([plt.*], [Series.plot]) and file loading are outside
      the model. *)

From Stdlib Require Import List String Ascii ZArith QArith Qround Qabs Bool Lia.
From Stdlib Require Import Permutation Sorted DecimalString DecimalZ DecimalPos.
Import ListNotations.
Local Open Scope string_scope.
Local Open Scope Z_scope.

Set Implicit Arguments.

(** ** Python built-ins used by the normalizer *)

Module Py.

(** Exceptions that the modelled code can let escape. *)
Inductive exn : Type :=
| ValueError (msg : string)
| KeyError (label : string).

Definition exn_str (e : exn) : string :=
  match e with
  | ValueError m => m
  | KeyError l => "'" ++ l ++ "'"
  end.

(** [Py_ISSPACE] on an ASCII code point. *)
Definition is_space (c : ascii) : bool :=
  let n := nat_of_ascii c in
  ((9 <=? n) && (n <=? 13))%nat || (n =? 32)%nat.

(** [_PyLong_DigitValue], restricted to the values below 36. *)
Definition digit_value (c : ascii) : option Z :=
  let n := Z.of_nat (nat_of_ascii c) in
  if (48 <=? n) && (n <=? 57) then Some (n - 48)
  else if (97 <=? n) && (n <=? 122) then Some (n - 87)
  else if (65 <=? n) && (n <=? 90) then Some (n - 55)
  else None.

Definition is_digit36 (c : ascii) : bool :=
  match digit_value c with Some _ => true | None => false end.

Definition underscore : ascii := "_"%char.

Fixpoint lstrip (s : list ascii) : list ascii :=
  match s with
  | c :: r => if is_space c then lstrip r else s
  | [] => []
  end.

(** The digit scan of [PyLong_FromString]: digits, with single
    underscores allowed between two digits; [prev_us] records that the
    previous character was an underscore.  Returns the accumulated value
    and the unread rest. *)
Fixpoint scan_digits (acc : Z) (prev_us : bool) (s : list ascii)
  : option (Z * list ascii) :=
  match s with
  | [] => if prev_us then None else Some (acc, [])
  | c :: r =>
      if Ascii.eqb c underscore then
        if prev_us then None else scan_digits acc true r
      else
        match digit_value c with
        | Some d => scan_digits (36 * acc + d) false r
        | None => if prev_us then None else Some (acc, s)
        end
  end.

Definition starts_with_digit (s : list ascii) : bool :=
  match s with
  | c :: _ => is_digit36 c
  | [] => false
  end.

Definition invalid_literal (x : string) : exn :=
  ValueError ("invalid literal for int() with base 36: '" ++ x ++ "'").

(** [int(x, 36)] on a [str] argument. *)
Definition int36 (x : string) : exn + Z :=
  let s := lstrip (list_ascii_of_string x) in
  let '(sign, s) :=
    match s with
    | c :: r =>
        if Ascii.eqb c "+"%char then (1, r)
        else if Ascii.eqb c "-"%char then (-1, r)
        else (1, s)
    | [] => (1, s)
    end in
  if starts_with_digit s then
    match scan_digits 0 false s with
    | Some (v, rest) =>
        match lstrip rest with
        | [] => inr (sign * v)
        | _ :: _ => inl (invalid_literal x)
        end
    | None => inl (invalid_literal x)
    end
  else inl (invalid_literal x).

(** [str(n)] on an [int]. *)
Definition str (n : Z) : string := NilZero.string_of_int (Z.to_int n).

End Py.

(** [lambda x: str(int(x, 36))], applied to each [order_number]. *)
Definition decode_order_number (x : string) : Py.exn + string :=
  match Py.int36 x with
  | inl e => inl e
  | inr n => inr (Py.str n)
  end.




(** ** Floats

    A finite float is an exact rational kept in lowest terms; the three
    special values behave as in IEEE 754 arithmetic (zero is unsigned). *)

Inductive float : Type :=
| Fin (q : Q)
| PInf
| NInf
| NaN.

Definition of_int (n : Z) : float := Fin (inject_Z n).

Definition is_nan (x : float) : bool :=
  match x with NaN => true | _ => false end.

Definition inf_of_sign (c : comparison) : float :=
  match c with
  | Gt => PInf
  | Lt => NInf
  | Eq => NaN
  end.

Definition sign (x : float) : comparison :=
  match x with
  | Fin q => (q ?= 0)%Q
  | PInf => Gt
  | NInf => Lt
  | NaN => Eq
  end.

Definition sign_mul (a b : comparison) : comparison :=
  match a, b with
  | Eq, _ | _, Eq => Eq
  | Gt, Gt | Lt, Lt => Gt
  | _, _ => Lt
  end.

Definition fadd (x y : float) : float :=
  match x, y with
  | NaN, _ | _, NaN => NaN
  | Fin a, Fin b => Fin (Qred (a + b))
  | PInf, NInf | NInf, PInf => NaN
  | PInf, _ | _, PInf => PInf
  | NInf, _ | _, NInf => NInf
  end.

Definition fmul (x y : float) : float :=
  match x, y with
  | NaN, _ | _, NaN => NaN
  | Fin a, Fin b => Fin (Qred (a * b))
  | _, _ => inf_of_sign (sign_mul (sign x) (sign y))
  end.

(** True division.  A zero divisor gives [NaN] for a zero dividend and an
    infinity otherwise; nothing is raised. *)
Definition fdiv (x y : float) : float :=
  match x, y with
  | NaN, _ | _, NaN => NaN
  | Fin a, Fin b =>
      if Qeq_bool b 0 then inf_of_sign (a ?= 0)%Q else Fin (Qred (a / b))
  | Fin _, _ => Fin 0
  | _, Fin b => inf_of_sign (sign_mul (sign x) (if Qeq_bool b 0 then Gt else (b ?= 0)%Q))
  | _, _ => NaN
  end.

(** Round half to even, on an exact rational. *)
Definition rint (q : Q) : Z :=
  let f := Qfloor q in
  let r := (q - inject_Z f)%Q in
  match (r ?= 1 # 2)%Q with
  | Lt => f
  | Gt => f + 1
  | Eq => if Z.even f then f else f + 1
  end.

(** [round(2)]: scale by 100, round to the nearest integer, scale back. *)
Definition round2 (x : float) : float :=
  match x with
  | Fin q => Fin (Qred (inject_Z (rint (q * 100)) / 100))
  | _ => x
  end.

(** [counts / base * 100] on one entry. *)
Definition pct (count base : float) : float :=
  fmul (fdiv count base) (of_int 100).

(** The order used by sorting, on values that are not [NaN]. *)
Definition fleb (x y : float) : bool :=
  match x, y with
  | NInf, _ => true
  | _, PInf => true
  | Fin a, Fin b => Qle_bool a b
  | _, _ => false
  end.

Definition feqb (x y : float) : bool :=
  match x, y with
  | Fin a, Fin b => Qeq_bool a b
  | PInf, PInf | NInf, NInf => true
  | _, _ => false
  end.

(** Sum with [skipna=True]. *)
Definition fsum (l : list float) : float :=
  fold_left fadd (filter (fun x => negb (is_nan x)) l) (Fin 0).

(** ** Index labels

    Labels of a [Series] index are compared for equality (hashing) and for
    order (group keys come out sorted). *)

Class Key (K : Type) : Type := {
  key_eqb : K -> K -> bool;
  key_leb : K -> K -> bool;
  key_eqb_eq : forall a b, key_eqb a b = true <-> a = b
}.

#[export] Program Instance string_Key : Key string :=
  {| key_eqb := String.eqb; key_leb := String.leb |}.
Next Obligation. apply String.eqb_eq. Qed.

#[export] Program Instance Z_Key : Key Z :=
  {| key_eqb := Z.eqb; key_leb := Z.leb |}.
Next Obligation. apply Z.eqb_eq. Qed.

#[export] Program Instance pair_Key (A B : Type) `{Key A} `{Key B} : Key (A * B) :=
  {| key_eqb := fun p q => key_eqb (fst p) (fst q) && key_eqb (snd p) (snd q);
     key_leb := fun p q =>
       if key_eqb (fst p) (fst q) then key_leb (snd p) (snd q)
       else key_leb (fst p) (fst q) |}.
Next Obligation.
  rewrite andb_true_iff, !key_eqb_eq. simpl. split.
  - intros [-> ->]. reflexivity.
  - intros E. inversion E. auto.
Qed.

(** The fixed category domain of [day_of_week]. *)
Inductive day : Type :=
| Monday | Tuesday | Wednesday | Thursday | Friday | Saturday | Sunday.

Definition day_order : list day :=
  [Monday; Tuesday; Wednesday; Thursday; Friday; Saturday; Sunday].

Definition day_code (d : day) : Z :=
  match d with
  | Monday => 0 | Tuesday => 1 | Wednesday => 2 | Thursday => 3
  | Friday => 4 | Saturday => 5 | Sunday => 6
  end.

#[export] Program Instance day_Key : Key day :=
  {| key_eqb := fun a b => day_code a =? day_code b;
     key_leb := fun a b => day_code a <=? day_code b |}.
Next Obligation.
  rewrite Z.eqb_eq. split; [ | intros ->; reflexivity ].
  destruct a, b; simpl; intros E; try reflexivity; discriminate E.
Qed.

(** ** Series

    A [Series] is its list of (label, value) entries, in order. *)

Definition Series (K V : Type) : Type := list (K * V).

Definition head (A : Type) (n : nat) (l : list A) : list A := firstn n l.

Definition dropna (A : Type) (l : list (option A)) : list A :=
  flat_map (fun o => match o with Some a => [a] | None => [] end) l.

(** One more occurrence of [k] in a table of counts kept in order of first
    appearance. *)
Fixpoint bump (K : Type) `{Key K} (k : K) (acc : Series K Z) : Series K Z :=
  match acc with
  | [] => [(k, 1)]
  | (k', n) :: r =>
      if key_eqb k k' then (k', n + 1) :: r else (k', n) :: bump k r
  end.

Definition count_keys (K : Type) `{Key K} (l : list K) : Series K Z :=
  fold_left (fun acc k => bump k acc) l [].

(** Stable insertion sort; the library routines whose result order is fixed
    (sorted group keys, [kind='stable']) are expressed with it. *)
Fixpoint insert_by (A : Type) (le : A -> A -> bool) (x : A) (l : list A)
  : list A :=
  match l with
  | [] => [x]
  | y :: r => if le x y then x :: l else y :: insert_by le x r
  end.

Definition sort_by (A : Type) (le : A -> A -> bool) (l : list A) : list A :=
  fold_right (insert_by le) [] l.

(** [sort_index()] and the key order of [groupby(...)]: ascending labels. *)
Definition sort_index (K V : Type) `{Key K} (s : Series K V) : Series K V :=
  sort_by (fun p q => key_leb (fst p) (fst q)) s.

(** [groupby(key).size()] with the default [sort=True, dropna=True]. *)
Definition group_sizes (K : Type) `{Key K} (l : list (option K)) : Series K Z :=
  sort_index (count_keys (dropna l)).

Definition total (K : Type) (s : Series K Z) : Z :=
  fold_right Z.add 0 (map snd s).

(** [s / base * 100] and [.round(2)], entry by entry. *)
Definition percent_of (K : Type) (s : Series K float) (base : float)
  : Series K float :=
  map (fun p => (fst p, pct (snd p) base)) s.

Definition to_float (K : Type) (s : Series K Z) : Series K float :=
  map (fun p => (fst p, of_int (snd p))) s.

Definition round_2 (K : Type) (s : Series K float) : Series K float :=
  map (fun p => (fst p, round2 (snd p))) s.

Definition values (K V : Type) (s : Series K V) : list V := map snd s.

(** An argsort on values that are not [NaN] returns its input rearranged in
    ascending order of the sort value. *)
Definition ascending (A : Type) (val : A -> float) (l : list A) : Prop :=
  StronglySorted (fun a b => fleb (val a) (val b) = true) l.

Definition descending (A : Type) (val : A -> float) (l : list A) : Prop :=
  StronglySorted (fun a b => fleb (val b) (val a) = true) l.

Definition sort_contract
  (kind : forall A : Type, (A -> float) -> list A -> list A) : Prop :=
  forall (A : Type) (val : A -> float) (l : list A),
    Permutation (kind A val l) l /\
    (Forall (fun a => is_nan (val a) = false) l -> ascending val (kind A val l)).

(** A sort is stable when the entries of any one value keep their input
    order. *)
Definition stable_kind
  (kind : forall A : Type, (A -> float) -> list A -> list A) : Prop :=
  forall (A : Type) (val : A -> float) (l : list A) (x : float),
    filter (fun a => feqb (val a) x) (kind A val l) =
    filter (fun a => feqb (val a) x) l.

(** The ranking of [sort_values(ascending=False)]: [a] may precede [b] when
    [b] is [NaN], or when neither is and [b] is not larger. *)
Definition ranks_before (A : Type) (val : A -> float) (a b : A) : Prop :=
  is_nan (val b) = true \/
  (is_nan (val a) = false /\ fleb (val b) (val a) = true).

Definition insertion_kind (A : Type) (val : A -> float) (l : list A) : list A :=
  sort_by (fun a b => fleb (val a) (val b)) l.


Section Sorting.

(** The argsort selected by [kind], abstracted to "rearrange by sort
    value". *)
Variable kind : forall A : Type, (A -> float) -> list A -> list A.

(** [nargsort(..., ascending=False, na_position='last')]: the entries that
    are not [NaN] are reversed, sorted ascending and reversed again; the
    [NaN] entries follow in input order. *)
Definition sort_values_desc (A : Type) (val : A -> float) (l : list A)
  : list A :=
  let non_nans := filter (fun a => negb (is_nan (val a))) l in
  let nans := filter (fun a => is_nan (val a)) l in
  rev (kind val (rev non_nans)) ++ nans.

(** [value_counts()]: occurrences of each present label, largest first. *)
Definition value_counts (K : Type) `{Key K} (l : list (option K))
  : Series K Z :=
  sort_values_desc (fun p => of_int (snd p)) (count_keys (dropna l)).

(** [s.sort_values(ascending=False).head(n)] on a float series. *)
Definition top_n (K : Type) (n : nat) (s : Series K float) : Series K float :=
  head n (sort_values_desc (fun p => snd p) s).

End Sorting.

(** ** Data frames *)

(** An [order_id] cell: an integer as loaded, a string after
    [astype(str)]. *)
Inductive Id : Type :=
| IdInt (n : Z)
| IdStr (s : string).

Definition astype_str (i : Id) : Id :=
  match i with
  | IdInt n => IdStr (Py.str n)
  | IdStr s => IdStr s
  end.

Inductive dtype : Type :=
| object | int32 | int64 | float64 | datetime64 | category.

(** One row over all the labels the code ever reads or writes.  Timestamps
    are seconds since the epoch; a missing cell of an object column is
    [None], of [Revenue] is [NaN].  A cell under a label that the frame does
    not list is never read. *)
Record Row : Type := {
  order_number : string;
  created : Z;
  errand_channel : option string;
  errand_category : option string;
  errand_type : option string;
  errand_action : option string;
  errand_created_at : Z;
  day_of_week : day;
  order_id : Id;
  order_created_at : Z;
  Origin_Country : option string;
  Destination_Country : option string;
  Journey_Type_ID : option string;
  booking_system_source_type : option string;
  Is_Canceled : Z;
  cancel_reason : option string;
  Is_Changed : Z;
  change_reason : option string;
  Revenue : float;
  Customer_Group_Type : option string;
  errand_action_category : option string;
  hour_of_day : Z
}.

Record DataFrame : Type := {
  columns : list (string * dtype);
  rows : list Row
}.

Definition len (df : DataFrame) : Z := Z.of_nat (List.length (rows df)).

Definition has_column (label : string) (df : DataFrame) : bool :=
  existsb (fun c => String.eqb (fst c) label) (columns df).

(** [df[label] = ...]: an existing label keeps its place and takes the new
    dtype, a new label is appended. *)
Fixpoint set_dtype (label : string) (dt : dtype) (cols : list (string * dtype))
  : list (string * dtype) :=
  match cols with
  | [] => [(label, dt)]
  | (l, d) :: r =>
      if String.eqb l label then (l, dt) :: r else (l, d) :: set_dtype label dt r
  end.

(** Field writers. *)
Definition with_order_number (v : string) (r : Row) : Row :=
  {| order_number := v; created := created r;
     errand_channel := errand_channel r; errand_category := errand_category r;
     errand_type := errand_type r; errand_action := errand_action r;
     errand_created_at := errand_created_at r; day_of_week := day_of_week r;
     order_id := order_id r; order_created_at := order_created_at r;
     Origin_Country := Origin_Country r;
     Destination_Country := Destination_Country r;
     Journey_Type_ID := Journey_Type_ID r;
     booking_system_source_type := booking_system_source_type r;
     Is_Canceled := Is_Canceled r; cancel_reason := cancel_reason r;
     Is_Changed := Is_Changed r; change_reason := change_reason r;
     Revenue := Revenue r; Customer_Group_Type := Customer_Group_Type r;
     errand_action_category := errand_action_category r;
     hour_of_day := hour_of_day r |}.

Definition with_errand_created_at (v : Z) (r : Row) : Row :=
  {| order_number := order_number r; created := created r;
     errand_channel := errand_channel r; errand_category := errand_category r;
     errand_type := errand_type r; errand_action := errand_action r;
     errand_created_at := v; day_of_week := day_of_week r;
     order_id := order_id r; order_created_at := order_created_at r;
     Origin_Country := Origin_Country r;
     Destination_Country := Destination_Country r;
     Journey_Type_ID := Journey_Type_ID r;
     booking_system_source_type := booking_system_source_type r;
     Is_Canceled := Is_Canceled r; cancel_reason := cancel_reason r;
     Is_Changed := Is_Changed r; change_reason := change_reason r;
     Revenue := Revenue r; Customer_Group_Type := Customer_Group_Type r;
     errand_action_category := errand_action_category r;
     hour_of_day := hour_of_day r |}.

Definition with_day_of_week (v : day) (r : Row) : Row :=
  {| order_number := order_number r; created := created r;
     errand_channel := errand_channel r; errand_category := errand_category r;
     errand_type := errand_type r; errand_action := errand_action r;
     errand_created_at := errand_created_at r; day_of_week := v;
     order_id := order_id r; order_created_at := order_created_at r;
     Origin_Country := Origin_Country r;
     Destination_Country := Destination_Country r;
     Journey_Type_ID := Journey_Type_ID r;
     booking_system_source_type := booking_system_source_type r;
     Is_Canceled := Is_Canceled r; cancel_reason := cancel_reason r;
     Is_Changed := Is_Changed r; change_reason := change_reason r;
     Revenue := Revenue r; Customer_Group_Type := Customer_Group_Type r;
     errand_action_category := errand_action_category r;
     hour_of_day := hour_of_day r |}.

Definition with_order_id (v : Id) (r : Row) : Row :=
  {| order_number := order_number r; created := created r;
     errand_channel := errand_channel r; errand_category := errand_category r;
     errand_type := errand_type r; errand_action := errand_action r;
     errand_created_at := errand_created_at r; day_of_week := day_of_week r;
     order_id := v; order_created_at := order_created_at r;
     Origin_Country := Origin_Country r;
     Destination_Country := Destination_Country r;
     Journey_Type_ID := Journey_Type_ID r;
     booking_system_source_type := booking_system_source_type r;
     Is_Canceled := Is_Canceled r; cancel_reason := cancel_reason r;
     Is_Changed := Is_Changed r; change_reason := change_reason r;
     Revenue := Revenue r; Customer_Group_Type := Customer_Group_Type r;
     errand_action_category := errand_action_category r;
     hour_of_day := hour_of_day r |}.

Definition with_Is_Canceled (v : Z) (r : Row) : Row :=
  {| order_number := order_number r; created := created r;
     errand_channel := errand_channel r; errand_category := errand_category r;
     errand_type := errand_type r; errand_action := errand_action r;
     errand_created_at := errand_created_at r; day_of_week := day_of_week r;
     order_id := order_id r; order_created_at := order_created_at r;
     Origin_Country := Origin_Country r;
     Destination_Country := Destination_Country r;
     Journey_Type_ID := Journey_Type_ID r;
     booking_system_source_type := booking_system_source_type r;
     Is_Canceled := v; cancel_reason := cancel_reason r;
     Is_Changed := Is_Changed r; change_reason := change_reason r;
     Revenue := Revenue r; Customer_Group_Type := Customer_Group_Type r;
     errand_action_category := errand_action_category r;
     hour_of_day := hour_of_day r |}.

Definition with_Is_Changed (v : Z) (r : Row) : Row :=
  {| order_number := order_number r; created := created r;
     errand_channel := errand_channel r; errand_category := errand_category r;
     errand_type := errand_type r; errand_action := errand_action r;
     errand_created_at := errand_created_at r; day_of_week := day_of_week r;
     order_id := order_id r; order_created_at := order_created_at r;
     Origin_Country := Origin_Country r;
     Destination_Country := Destination_Country r;
     Journey_Type_ID := Journey_Type_ID r;
     booking_system_source_type := booking_system_source_type r;
     Is_Canceled := Is_Canceled r; cancel_reason := cancel_reason r;
     Is_Changed := v; change_reason := change_reason r;
     Revenue := Revenue r; Customer_Group_Type := Customer_Group_Type r;
     errand_action_category := errand_action_category r;
     hour_of_day := hour_of_day r |}.

Definition with_errand_action_category (v : option string) (r : Row) : Row :=
  {| order_number := order_number r; created := created r;
     errand_channel := errand_channel r; errand_category := errand_category r;
     errand_type := errand_type r; errand_action := errand_action r;
     errand_created_at := errand_created_at r; day_of_week := day_of_week r;
     order_id := order_id r; order_created_at := order_created_at r;
     Origin_Country := Origin_Country r;
     Destination_Country := Destination_Country r;
     Journey_Type_ID := Journey_Type_ID r;
     booking_system_source_type := booking_system_source_type r;
     Is_Canceled := Is_Canceled r; cancel_reason := cancel_reason r;
     Is_Changed := Is_Changed r; change_reason := change_reason r;
     Revenue := Revenue r; Customer_Group_Type := Customer_Group_Type r;
     errand_action_category := v;
     hour_of_day := hour_of_day r |}.

Definition with_hour_of_day (v : Z) (r : Row) : Row :=
  {| order_number := order_number r; created := created r;
     errand_channel := errand_channel r; errand_category := errand_category r;
     errand_type := errand_type r; errand_action := errand_action r;
     errand_created_at := errand_created_at r; day_of_week := day_of_week r;
     order_id := order_id r; order_created_at := order_created_at r;
     Origin_Country := Origin_Country r;
     Destination_Country := Destination_Country r;
     Journey_Type_ID := Journey_Type_ID r;
     booking_system_source_type := booking_system_source_type r;
     Is_Canceled := Is_Canceled r; cancel_reason := cancel_reason r;
     Is_Changed := Is_Changed r; change_reason := change_reason r;
     Revenue := Revenue r; Customer_Group_Type := Customer_Group_Type r;
     errand_action_category := errand_action_category r;
     hour_of_day := v |}.

(** ** Computations that may raise and that update [self.merged_df] *)

Definition M (A : Type) : Type := DataFrame -> (Py.exn + A) * DataFrame.

Definition ret (A : Type) (a : A) : M A := fun df => (inr a, df).

Definition raise (A : Type) (e : Py.exn) : M A := fun df => (inl e, df).
Arguments raise {A} e.

Definition bind (A B : Type) (m : M A) (k : A -> M B) : M B :=
  fun df =>
    match m df with
    | (inr a, df') => k a df'
    | (inl e, df') => (inl e, df')
    end.

Notation "x <- m ;; k" := (bind m (fun x => k))
  (at level 61, m at next level, right associativity).
Notation "m ;;; k" := (bind m (fun _ => k))
  (at level 61, right associativity).

Definition get : M DataFrame := fun df => (inr df, df).

(** [frame[label]]: the cells of one column, or [KeyError]. *)
Definition getitem (V : Type) (frame : DataFrame) (label : string)
  (proj : Row -> V) : M (list V) :=
  if has_column label frame then ret (map proj (rows frame))
  else raise (Py.KeyError label).

(** [self.merged_df[label]]. *)
Definition column (V : Type) (label : string) (proj : Row -> V) : M (list V) :=
  df <- get ;; getitem df label proj.

(** [frame[mask]]: the rows at which the mask holds. *)
Definition where_ (frame : DataFrame) (mask : Row -> bool) : DataFrame :=
  {| columns := columns frame; rows := filter mask (rows frame) |}.

(** [self.merged_df[label] = cells], the new cell computed row by row. *)
Definition setitem (label : string) (dt : dtype) (write : Row -> Row) : M unit :=
  fun df =>
    (inr tt,
     {| columns := set_dtype label dt (columns df);
        rows := map write (rows df) |}).

(** [self.merged_df.loc[mask, label] = v] on an existing label. *)
Definition loc_set (mask : Row -> bool) (write : Row -> Row) : M unit :=
  fun df =>
    (inr tt,
     {| columns := columns df;
        rows := map (fun r => if mask r then write r else r) (rows df) |}).

(** [Series == s] on an object column: a missing cell compares unequal. *)
Definition eq_str (s : string) (c : option string) : bool :=
  match c with
  | Some x => String.eqb x s
  | None => false
  end.

Definition isin (l : list string) (c : option string) : bool :=
  existsb (fun s => eq_str s c) l.

(** ** Timestamps *)

Definition day_number (t : Z) : Z := t / 86400.

(** [.dt.day_name()]; day 0 of the epoch is a Thursday. *)
Definition day_name (t : Z) : day :=
  nth (Z.to_nat ((day_number t + 3) mod 7)) day_order Monday.

(** [.dt.hour]. *)
Definition hour (t : Z) : Z := (t mod 86400) / 3600.

Definition range (lo hi : Z) : list Z :=
  map (fun i => lo + Z.of_nat i) (seq 0 (Z.to_nat (hi - lo + 1))).

Definition count_of (d : Z) (l : list Z) : Z :=
  Z.of_nat (List.length (filter (Z.eqb d) l)).

(** [resample('D', on=...).size()]: one entry per calendar day from the
    first to the last observed day, days without a row counted 0. *)
Definition resample_daily (ts : list Z) : Series Z Z :=
  match map day_number ts with
  | [] => []
  | d :: ds =>
      let lo := fold_right Z.min d ds in
      let hi := fold_right Z.max d ds in
      map (fun x => (x, count_of x (d :: ds))) (range lo hi)
  end.

(** ** [_preprocess_data] *)

(** [errands_df['order_number'].apply(lambda x: str(int(x, 36)))]: the
    tokens are decoded in row order; the first one that does not parse
    raises. *)
Fixpoint decode_rows (rs : list Row) : Py.exn + list Row :=
  match rs with
  | [] => inr []
  | r :: rest =>
      match decode_order_number (order_number r) with
      | inl e => inl e
      | inr s =>
          match decode_rows rest with
          | inl e => inl e
          | inr rest' => inr (with_order_number s r :: rest')
          end
      end
  end.

(** The row of the merged table made of one contact and one order. *)
Definition merge_row (l r : Row) : Row :=
  {| order_number := order_number l; created := created l;
     errand_channel := errand_channel l; errand_category := errand_category l;
     errand_type := errand_type l; errand_action := errand_action l;
     errand_created_at := errand_created_at l; day_of_week := day_of_week l;
     order_id := order_id r; order_created_at := order_created_at r;
     Origin_Country := Origin_Country r;
     Destination_Country := Destination_Country r;
     Journey_Type_ID := Journey_Type_ID r;
     booking_system_source_type := booking_system_source_type r;
     Is_Canceled := Is_Canceled r; cancel_reason := cancel_reason r;
     Is_Changed := Is_Changed r; change_reason := change_reason r;
     Revenue := Revenue r; Customer_Group_Type := Customer_Group_Type r;
     errand_action_category := errand_action_category l;
     hour_of_day := hour_of_day l |}.

Definition key_match (l r : Row) : bool :=
  match order_id r with
  | IdStr s => String.eqb (order_number l) s
  | IdInt _ => false
  end.

(** [pd.merge(left, right, left_on='order_number', right_on='order_id',
    how='inner')]: every pair of a left and a right row with equal keys, in
    left order and, for one left row, in right order.  The two frames carry
    disjoint labels. *)
Definition merge (left right : DataFrame) : DataFrame :=
  {| columns := columns left ++ columns right;
     rows := flat_map (fun l =>
               map (merge_row l) (filter (key_match l) (rows right)))
               (rows left) |}.

Definition frame_set (label : string) (dt : dtype) (write : Row -> Row)
  (df : DataFrame) : DataFrame :=
  {| columns := set_dtype label dt (columns df); rows := map write (rows df) |}.

Definition _preprocess_data (errands_df orders_df : DataFrame)
  : Py.exn + DataFrame :=
  if negb (has_column "order_number" errands_df)
  then inl (Py.KeyError "order_number") else
  match decode_rows (rows errands_df) with
  | inl e => inl e
  | inr decoded =>
      let errands_df :=
        {| columns := set_dtype "order_number" object (columns errands_df);
           rows := decoded |} in
      if negb (has_column "order_id" orders_df)
      then inl (Py.KeyError "order_id") else
      let orders_df :=
        frame_set "order_id" object
          (fun r => with_order_id (astype_str (order_id r)) r) orders_df in
      if negb (has_column "created" errands_df)
      then inl (Py.KeyError "created") else
      let errands_df :=
        frame_set "errand_created_at" datetime64
          (fun r => with_errand_created_at (created r) r) errands_df in
      if negb (has_column "order_created_at" orders_df)
      then inl (Py.KeyError "order_created_at") else
      let errands_df :=
        frame_set "day_of_week" object
          (fun r => with_day_of_week (day_name (errand_created_at r)) r)
          errands_df in
      inr (merge errands_df orders_df)
  end.

(** ** Result structures *)

Module Errands.
Record t : Type := {
  category_dist : Series string float;
  type_dist : Series (string * string) float;
  action_dist : Series string float
}.
End Errands.

Module Time.
Record t : Type := {
  daily_trend : Series Z float;
  day_of_week : Series day float;
  hour_of_day : Series Z float;
  top_days : Series Z float;
  top_weekdays : Series day float;
  top_hours : Series Z float
}.
End Time.

Module Travel.
(** A row of the [route_contacts] frame. *)
Record route : Type := {
  Origin_Country : string;
  Destination_Country : string;
  route_count : Z;
  route_percentage : float
}.
Record t : Type := {
  top_routes : list route;
  journey_types : Series string float;
  booking_sources : Series string float
}.
End Travel.

(** The result of [analyze_cancellations] and of [analyze_changes]. *)
Module Flagged.
Record t : Type := {
  reasons : Series string float;
  top_routes : Series (string * string) float;
  top_journey_types : Series string float
}.
End Flagged.

Module Financial.
Record t : Type := {
  revenue_dist : Series string float;
  contact_dist : Series string float
}.
End Financial.

(** A value stored in the [analyses] dict. *)
Inductive Value : Type :=
| VFloat (x : float)
| VErrands (d : Errands.t)
| VSeries (s : Series string float)
| VTime (d : Time.t)
| VTravel (d : Travel.t)
| VFlagged (d : Flagged.t)
| VFinancial (d : Financial.t).

(** ** String helpers of [categorize_errand_action] *)

(** [s.split(sep)] for a one-character separator. *)
Fixpoint split (sep : ascii) (s : string) : list string :=
  match s with
  | EmptyString => [EmptyString]
  | String c r =>
      if Ascii.eqb c sep then EmptyString :: split sep r
      else
        match split sep r with
        | h :: t => String c h :: t
        | [] => [String c EmptyString]
        end
  end.

(** [l[0]] on the result of a split, which is never empty. *)
Definition first (l : list string) : string := hd EmptyString l.

Definition categorize_errand_action (action : option string) : option string :=
  match action with
  | None => None
  | Some a => Some (first (split "."%char (first (split ":"%char a))))
  end.

(** The part of a string before the first occurrence of a character. *)
Fixpoint before (sep : ascii) (s : string) : string :=
  match s with
  | EmptyString => EmptyString
  | String c r => if Ascii.eqb c sep then EmptyString else String c (before sep r)
  end.

(** ** The business-rule sentinels *)

Definition schedule_change_refund : string := "Schedule Change - refund".

Definition change_sentinels : list string :=
  ["Schedule change: Primary Alternative"; "Cancel part of order"].

Definition cancel_mask (r : Row) : bool :=
  (Is_Canceled r =? 0) && eq_str schedule_change_refund (cancel_reason r).

Definition change_mask (r : Row) : bool :=
  (Is_Changed r =? 0) && isin change_sentinels (change_reason r).

(** The two [loc] assignments on their own. *)
Definition reclassify_row (r : Row) : Row :=
  let r := if cancel_mask r then with_Is_Canceled 1 r else r in
  if change_mask r then with_Is_Changed 1 r else r.

Definition reclassify (df : DataFrame) : DataFrame :=
  {| columns := columns df; rows := map reclassify_row (rows df) |}.

(** ** The analysis methods *)

Definition mean (l : list Z) : float :=
  fdiv (of_int (fold_right Z.add 0 l)) (of_int (Z.of_nat (List.length l))).

(** The key of [groupby(['Origin_Country', 'Destination_Country'])]; a row
    with either cell missing belongs to no group. *)
Definition route_key (r : Row) : option (string * string) :=
  match Origin_Country r, Destination_Country r with
  | Some o, Some d => Some (o, d)
  | _, _ => None
  end.

(** [groupby(a)[b].value_counts()]: groups in ascending key order; within a
    group, larger counts first and equal counts in ascending label order. *)
Definition grouped_value_counts (l : list (option string * option string))
  : Series (string * string) Z :=
  flat_map
    (fun c =>
       let members :=
         map snd (filter (fun p => eq_str c (fst p)) l) in
       map (fun p => ((c, fst p), snd p))
         (sort_by (fun p q => snd q <=? snd p) (group_sizes members)))
    (map fst (group_sizes (map fst l))).

(** [groupby(a)[b].sum()] on a float column: groups in ascending key order,
    each summed with missing cells skipped. *)
Definition grouped_sum (l : list (option string * float)) : Series string float :=
  map
    (fun c => (c, fsum (map snd (filter (fun p => eq_str c (fst p)) l))))
    (map fst (group_sizes (map fst l))).

(** [groupby('day_of_week').size()] on the ordered categorical: every
    category of the domain, in domain order, observed or not. *)
Definition day_sizes (l : list day) : Series day Z :=
  map (fun d => (d, Z.of_nat (List.length (filter (key_eqb d) l)))) day_order.

Definition grouper_not_found (label : string) : Py.exn :=
  Py.KeyError ("The grouper name " ++ label ++ " is not found").

Definition column_not_found (label : string) : Py.exn :=
  Py.KeyError ("Column not found: " ++ label).

(** [frame.groupby(by)[label]]: the selected cells, or the [KeyError] of
    the group-by selection. *)
Definition select (V : Type) (frame : DataFrame) (label : string)
  (proj : Row -> V) : M (list V) :=
  if has_column label frame then ret (map proj (rows frame))
  else raise (column_not_found label).

Section Analysis.

Variable kind : forall A : Type, (A -> float) -> list A -> list A.

(** The [percentages] of [analyze_contacts_per_order]: how the orders divide
    by number of contacts, as a share of the orders.  The method hands them
    to the chart and returns the mean only. *)
Definition contacts_percentages (contacts_per_order : Series string Z)
  : Series Z float :=
  let distribution :=
    sort_index (value_counts kind (map Some (values contacts_per_order))) in
  percent_of (to_float distribution)
    (of_int (Z.of_nat (List.length contacts_per_order))).

Definition analyze_contacts_per_order : M float :=
  numbers <- column "order_number" order_number ;;
  let contacts_per_order := group_sizes (map Some numbers) in
  let average_contacts := mean (values contacts_per_order) in
  let percentages := contacts_percentages contacts_per_order in
  ret average_contacts.

Definition analyze_channel_distribution : M (Series string float) :=
  channel <- column "errand_channel" errand_channel ;;
  df <- get ;;
  let channel_distribution := value_counts kind channel in
  let percentages :=
    percent_of (to_float channel_distribution) (of_int (len df)) in
  ret percentages.

Definition analyze_errand_categories : M Errands.t :=
  category <- column "errand_category" errand_category ;;
  let category_distribution := value_counts kind category in
  let category_percentage :=
    percent_of (to_float category_distribution)
      (of_int (total category_distribution)) in
  df <- get ;;
  types <- select df "errand_type" errand_type ;;
  let type_distribution := grouped_value_counts (combine category types) in
  let type_percentage :=
    percent_of (to_float type_distribution)
      (of_int (total type_distribution)) in
  _ <- column "errand_action" errand_action ;;
  setitem "errand_action_category" object
    (fun r =>
       with_errand_action_category
         (categorize_errand_action (errand_action r)) r) ;;;
  action_category <- column "errand_action_category" errand_action_category ;;
  let action_counts := value_counts kind action_category in
  df <- get ;;
  let action_percentages :=
    round_2 (percent_of (to_float action_counts) (of_int (len df))) in
  ret {| Errands.category_dist := category_percentage;
         Errands.type_dist := type_percentage;
         Errands.action_dist := action_percentages |}.

Definition analyze_time_patterns : M Time.t :=
  df <- get ;;
  stamps <-
    (if has_column "errand_created_at" df
     then ret (map errand_created_at (rows df))
     else raise (grouper_not_found "errand_created_at")) ;;
  let time_series := resample_daily stamps in
  let daily_total := total time_series in
  let daily_percentages :=
    percent_of (to_float time_series) (of_int daily_total) in
  let top_days := top_n kind 2 daily_percentages in
  setitem "day_of_week" category
    (fun r => with_day_of_week (day_name (errand_created_at r)) r) ;;;
  setitem "hour_of_day" int32
    (fun r => with_hour_of_day (hour (errand_created_at r)) r) ;;;
  days <- column "day_of_week" day_of_week ;;
  let day_analysis := day_sizes days in
  let day_percentages :=
    round_2 (percent_of (to_float day_analysis) (of_int (total day_analysis))) in
  hours <- column "hour_of_day" hour_of_day ;;
  let hour_analysis := group_sizes (map Some hours) in
  let hour_percentages :=
    round_2
      (percent_of (to_float hour_analysis) (of_int (total hour_analysis))) in
  let top_weekdays := top_n kind 2 day_percentages in
  let top_hours := top_n kind 5 hour_percentages in
  ret {| Time.daily_trend := daily_percentages;
         Time.day_of_week := day_percentages;
         Time.hour_of_day := hour_percentages;
         Time.top_days := top_days;
         Time.top_weekdays := top_weekdays;
         Time.top_hours := top_hours |}.

(** [frame.groupby(['Origin_Country', 'Destination_Country']).size()]. *)
Definition route_sizes (frame : DataFrame) : M (Series (string * string) Z) :=
  _ <- getitem frame "Origin_Country" Origin_Country ;;
  _ <- getitem frame "Destination_Country" Destination_Country ;;
  ret (group_sizes (map route_key (rows frame))).

Definition analyze_travel_details : M Travel.t :=
  df <- get ;;
  sizes <- route_sizes df ;;
  let route_total := total sizes in
  let route_contacts :=
    map (fun p =>
           {| Travel.Origin_Country := fst (fst p);
              Travel.Destination_Country := snd (fst p);
              Travel.route_count := snd p;
              Travel.route_percentage :=
                round2 (pct (of_int (snd p)) (of_int route_total)) |})
      sizes in
  let route_contacts :=
    sort_values_desc kind Travel.route_percentage route_contacts in
  journey <- column "Journey_Type_ID" Journey_Type_ID ;;
  let journey_contacts := value_counts kind journey in
  let journey_percentage :=
    round_2 (percent_of (to_float journey_contacts)
               (of_int (total journey_contacts))) in
  booking <- column "booking_system_source_type" booking_system_source_type ;;
  let booking_system_contacts := value_counts kind booking in
  let booking_system_percentage :=
    round_2 (percent_of (to_float booking_system_contacts)
               (of_int (total booking_system_contacts))) in
  ret {| Travel.top_routes := head 10 route_contacts;
         Travel.journey_types := journey_percentage;
         Travel.booking_sources := booking_system_percentage |}.

(** What both flag analyses compute on the rows whose flag equals 1:
    reasons, routes and journey types, each as a percentage of the number
    of flagged rows. *)
Definition flagged_distribution (flagged : DataFrame)
  (reason_label : string) (reason : Row -> option string) : M Flagged.t :=
  cells <- getitem flagged reason_label reason ;;
  let counts := value_counts kind cells in
  let base := of_int (len flagged) in
  let percentages := round_2 (percent_of (to_float counts) base) in
  routes <- route_sizes flagged ;;
  let routes_percentages :=
    sort_values_desc kind (fun p => snd p)
      (round_2 (percent_of (to_float routes) base)) in
  journey <- getitem flagged "Journey_Type_ID" Journey_Type_ID ;;
  let journeytype := group_sizes journey in
  let journeytype_percentages :=
    sort_values_desc kind (fun p => snd p)
      (round_2 (percent_of (to_float journeytype) base)) in
  ret {| Flagged.reasons := percentages;
         Flagged.top_routes := head 3 routes_percentages;
         Flagged.top_journey_types := head 2 journeytype_percentages |}.

Definition analyze_cancellations : M Flagged.t :=
  _ <- column "Is_Canceled" Is_Canceled ;;
  _ <- column "cancel_reason" cancel_reason ;;
  loc_set cancel_mask (with_Is_Canceled 1) ;;;
  df <- get ;;
  flagged_distribution (where_ df (fun r => Is_Canceled r =? 1))
    "cancel_reason" cancel_reason.

Definition analyze_changes : M Flagged.t :=
  _ <- column "Is_Changed" Is_Changed ;;
  _ <- column "change_reason" change_reason ;;
  loc_set change_mask (with_Is_Changed 1) ;;;
  df <- get ;;
  flagged_distribution (where_ df (fun r => Is_Changed r =? 1))
    "change_reason" change_reason.

Definition analyze_financial_patterns : M Financial.t :=
  groups <- column "Customer_Group_Type" Customer_Group_Type ;;
  let customer_group_contacts := value_counts kind groups in
  let customer_group_percentages :=
    sort_values_desc kind (fun p => snd p)
      (percent_of (to_float customer_group_contacts)
         (of_int (total customer_group_contacts))) in
  df <- get ;;
  revenue <- select df "Revenue" Revenue ;;
  let revenue_by_group := grouped_sum (combine groups revenue) in
  let revenue_percentages :=
    sort_values_desc kind (fun p => snd p)
      (percent_of revenue_by_group (fsum (values revenue_by_group))) in
  ret {| Financial.revenue_dist := revenue_percentages;
         Financial.contact_dist := customer_group_percentages |}.

(** ** [generate_all_analyses] *)

Definition fmap (A B : Type) (f : A -> B) (m : M A) : M B :=
  a <- m ;; ret (f a).

(** The entries of the dict display, in the order in which Python
    evaluates them. *)
Definition entries : list (string * M Value) :=
  [ ("avg_contacts", fmap VFloat analyze_contacts_per_order);
    ("errand_dist", fmap VErrands analyze_errand_categories);
    ("channel_dist", fmap VSeries analyze_channel_distribution);
    ("time_patterns", fmap VTime analyze_time_patterns);
    ("travel_details", fmap VTravel analyze_travel_details);
    ("cancellation_dist", fmap VFlagged analyze_cancellations);
    ("change_dist", fmap VFlagged analyze_changes);
    ("financial_patterns", fmap VFinancial analyze_financial_patterns) ].

Fixpoint build_dict (es : list (string * M Value)) : M (list (string * Value)) :=
  match es with
  | [] => ret []
  | (key, m) :: rest =>
      v <- m ;;
      d <- build_dict rest ;;
      ret ((key, v) :: d)
  end.

(** What a call leaves behind: the returned dict or [None], the lines
    printed, and the merged table. *)
Record Outcome : Type := {
  returned : option (list (string * Value));
  printed : list string;
  merged_df : DataFrame
}.

(** No method returns [None], so the validation loop prints nothing. *)
Definition generate_all_analyses (df : DataFrame) : Outcome :=
  match build_dict entries df with
  | (inr analyses, df') =>
      {| returned := Some analyses; printed := []; merged_df := df' |}
  | (inl e, df') =>
      {| returned := None;
         printed := ["Error generating analyses: " ++ Py.exn_str e];
         merged_df := df' |}
  end.

End Analysis.

(** ** The writes of the methods, as frame transformers *)

(** [loc[(Is_Canceled == 0) & (cancel_reason == ...), 'Is_Canceled'] = 1]. *)
Definition cancel_update (df : DataFrame) : DataFrame :=
  {| columns := columns df;
     rows := map (fun r => if cancel_mask r then with_Is_Canceled 1 r else r)
               (rows df) |}.

(** [loc[(Is_Changed == 0) & change_reason.isin([...]), 'Is_Changed'] = 1]. *)
Definition change_update (df : DataFrame) : DataFrame :=
  {| columns := columns df;
     rows := map (fun r => if change_mask r then with_Is_Changed 1 r else r)
               (rows df) |}.

(** [merged_df['errand_action_category'] = ...]. *)
Definition action_category_update (df : DataFrame) : DataFrame :=
  frame_set "errand_action_category" object
    (fun r =>
       with_errand_action_category (categorize_errand_action (errand_action r)) r)
    df.

(** The [day_of_week] and [hour_of_day] assignments. *)
Definition time_update (df : DataFrame) : DataFrame :=
  frame_set "hour_of_day" int32
    (fun r => with_hour_of_day (hour (errand_created_at r)) r)
    (frame_set "day_of_week" category
       (fun r => with_day_of_week (day_name (errand_created_at r)) r) df).

(** ** Sums of percentages *)


(** The exact percentage of an integer count in a non-zero integer base. *)
Definition exact_pct (n B : Z) : Q :=
  Qred (Qred (inject_Z n / inject_Z B) * 100)%Q.





(** The number of cells of a column that are present. *)
Definition present (A : Type) (cells : list (option A)) : Z :=
  Z.of_nat (List.length (dropna cells)).

(** ** Sample data

    Three contacts that refer to order 1001 (token [rt]), as in the
    scenario of the specification, and one contact and one order without a
    partner. *)

Definition blank_row : Row :=
  {| order_number := ""; created := 0;
     errand_channel := None; errand_category := None;
     errand_type := None; errand_action := None;
     errand_created_at := 0; day_of_week := Monday;
     order_id := IdInt 0; order_created_at := 0;
     Origin_Country := None; Destination_Country := None;
     Journey_Type_ID := None; booking_system_source_type := None;
     Is_Canceled := 0; cancel_reason := None;
     Is_Changed := 0; change_reason := None;
     Revenue := NaN; Customer_Group_Type := None;
     errand_action_category := None; hour_of_day := 0 |}.

Definition contact (token : string) (t : Z)
  (channel category type action : option string) : Row :=
  {| order_number := token; created := t;
     errand_channel := channel; errand_category := category;
     errand_type := type; errand_action := action;
     errand_created_at := 0; day_of_week := Monday;
     order_id := IdInt 0; order_created_at := 0;
     Origin_Country := None; Destination_Country := None;
     Journey_Type_ID := None; booking_system_source_type := None;
     Is_Canceled := 0; cancel_reason := None;
     Is_Changed := 0; change_reason := None;
     Revenue := NaN; Customer_Group_Type := None;
     errand_action_category := None; hour_of_day := 0 |}.

Definition order (id : Z) (origin destination journey booking : option string)
  (canceled : Z) (why_canceled : option string)
  (changed : Z) (why_changed : option string)
  (revenue : float) (group : option string) : Row :=
  {| order_number := ""; created := 0;
     errand_channel := None; errand_category := None;
     errand_type := None; errand_action := None;
     errand_created_at := 0; day_of_week := Monday;
     order_id := IdInt id; order_created_at := 0;
     Origin_Country := origin; Destination_Country := destination;
     Journey_Type_ID := journey; booking_system_source_type := booking;
     Is_Canceled := canceled; cancel_reason := why_canceled;
     Is_Changed := changed; change_reason := why_changed;
     Revenue := revenue; Customer_Group_Type := group;
     errand_action_category := None; hour_of_day := 0 |}.

Definition errand_labels : list (string * dtype) :=
  [ ("order_number", object); ("created", datetime64);
    ("errand_channel", object); ("errand_category", object);
    ("errand_type", object); ("errand_action", object) ].

Definition order_labels : list (string * dtype) :=
  [ ("order_id", int64); ("order_created_at", datetime64);
    ("Origin_Country", object); ("Destination_Country", object);
    ("Journey_Type_ID", object); ("booking_system_source_type", object);
    ("Is_Canceled", int64); ("cancel_reason", object);
    ("Is_Changed", int64); ("change_reason", object);
    ("Revenue", float64); ("Customer_Group_Type", object) ].

(** Monday 2024-01-01 00:00:00. *)
Definition monday_0h : Z := 1704067200.

Definition scenario_contacts : list Row :=
  [ contact "rt" (monday_0h + 9 * 3600)
      (Some "chat") (Some "booking") (Some "change")
      (Some "booking.modify:upgrade");
    contact "rt" (monday_0h + 2 * 86400 + 14 * 3600)
      (Some "chat") (Some "booking") (Some "cancel") None;
    contact "rt" (monday_0h + 2 * 86400 + 15 * 3600)
      (Some "email") (Some "payment") (Some "refund") (Some "refund:full") ].

Definition scenario_order : Row :=
  order 1001 (Some "SE") (Some "DE") (Some "Round trip") (Some "GDS")
    0 (Some schedule_change_refund) 0 (Some "Cancel part of order")
    (Fin (241 # 2)) (Some "STANDARD").

Definition scenario_errands : DataFrame :=
  {| columns := errand_labels; rows := scenario_contacts |}.

Definition scenario_orders : DataFrame :=
  {| columns := order_labels; rows := [scenario_order] |}.

(** The scenario after normalization: decoded tokens, string order ids. *)
Definition normalized_errands : DataFrame :=
  {| columns := errand_labels;
     rows := map (with_order_number "1001") scenario_contacts |}.

Definition normalized_orders : DataFrame :=
  {| columns := order_labels;
     rows := [with_order_id (IdStr "1001") scenario_order] |}.

(** The same inputs with a contact and an order that have no partner. *)
Definition wider_errands : DataFrame :=
  {| columns := errand_labels;
     rows := scenario_contacts ++
             [ contact "zz" monday_0h (Some "phone") None None None ] |}.

Definition wider_orders : DataFrame :=
  {| columns := order_labels;
     rows := [ scenario_order;
               order 2002 (Some "NO") None (Some "One way") (Some "API")
                 1 (Some "Customer request") 0 None (Fin 80) (Some "VIP") ] |}.


(** The errands input without its [errand_channel] column. *)
Definition errands_without_channel : DataFrame :=
  {| columns := filter (fun c => negb (String.eqb (fst c) "errand_channel"))
                  errand_labels;
     rows := scenario_contacts |}.

(** The labels that the eight methods read from the merged table. *)
Definition analysis_labels : list string :=
  [ "order_number"; "errand_channel"; "errand_category"; "errand_type";
    "errand_action"; "errand_created_at"; "Origin_Country";
    "Destination_Country"; "Journey_Type_ID"; "booking_system_source_type";
    "Is_Canceled"; "cancel_reason"; "Is_Changed"; "change_reason";
    "Revenue"; "Customer_Group_Type" ].




(** ** The settled form of a row

    A row with every cell that the methods write brought to its final
    value: both flags reclassified and the three derived columns computed.
    Two merged tables are alike when they agree on the presence of the labels
    the methods read and their rows have the same settled form. *)

Definition settle_row (r : Row) : Row :=
  with_hour_of_day (hour (errand_created_at r))
    (with_day_of_week (day_name (errand_created_at r))
       (with_errand_action_category (categorize_errand_action (errand_action r))
          (reclassify_row r))).

Definition alike (df df' : DataFrame) : Prop :=
  (forall l, In l analysis_labels -> has_column l df = has_column l df') /\
  map settle_row (rows df) = map settle_row (rows df').



(** The merged table of a successful [_preprocess_data], or an empty frame. *)
Definition merged_of (errands_df orders_df : DataFrame) : DataFrame :=
  match _preprocess_data errands_df orders_df with
  | inr df => df
  | inl _ => {| columns := []; rows := [] |}
  end.

(** ** Reading a result *)

(** [s[k]] on a series: the value under the first label equal to [k]. *)
Fixpoint lookup (K V : Type) `{Key K} (k : K) (s : Series K V) : option V :=
  match s with
  | [] => None
  | (k', v) :: r => if key_eqb k k' then Some v else lookup k r
  end.

(** The number of cells of a column that hold [k]. *)
Definition occurrences (K : Type) `{Key K} (k : K) (cells : list (option K))
  : Z :=
  Z.of_nat (List.length (filter (key_eqb k) (dropna cells))).

(** A finite float between 0 and 100. *)
Definition is_percentage (x : float) : Prop :=
  exists q, x = Fin q /\ (0 <= q <= 100)%Q.


(** ** The labels that [generate_all_analyses] reads *)



(** ** The constructor and the command-line driver *)


(** The [analyses] dict with its eight keys as fields. *)
Module Analyses.
Record t : Type := {
  avg_contacts : float;
  errand_dist : Errands.t;
  channel_dist : Series string float;
  time_patterns : Time.t;
  travel_details : Travel.t;
  cancellation_dist : Flagged.t;
  change_dist : Flagged.t;
  financial_patterns : Financial.t
}.
End Analyses.

Definition as_dict (a : Analyses.t) : list (string * Value) :=
  [ ("avg_contacts", VFloat (Analyses.avg_contacts a));
    ("errand_dist", VErrands (Analyses.errand_dist a));
    ("channel_dist", VSeries (Analyses.channel_dist a));
    ("time_patterns", VTime (Analyses.time_patterns a));
    ("travel_details", VTravel (Analyses.travel_details a));
    ("cancellation_dist", VFlagged (Analyses.cancellation_dist a));
    ("change_dist", VFlagged (Analyses.change_dist a));
    ("financial_patterns", VFinancial (Analyses.financial_patterns a)) ].











Section Driver.

Variable kind : forall A : Type, (A -> float) -> list A -> list A.

(** The dict display of [generate_all_analyses], evaluated key by key. *)
Definition analyses : M Analyses.t :=
  avg_contacts <- analyze_contacts_per_order kind ;;
  errand_dist <- analyze_errand_categories kind ;;
  channel_dist <- analyze_channel_distribution kind ;;
  time_patterns <- analyze_time_patterns kind ;;
  travel_details <- analyze_travel_details kind ;;
  cancellation_dist <- analyze_cancellations kind ;;
  change_dist <- analyze_changes kind ;;
  financial_patterns <- analyze_financial_patterns kind ;;
  ret {| Analyses.avg_contacts := avg_contacts;
         Analyses.errand_dist := errand_dist;
         Analyses.channel_dist := channel_dist;
         Analyses.time_patterns := time_patterns;
         Analyses.travel_details := travel_details;
         Analyses.cancellation_dist := cancellation_dist;
         Analyses.change_dist := change_dist;
         Analyses.financial_patterns := financial_patterns |}.


End Driver.

(** * Properties *)

Unset Implicit Arguments.

(** * Decoding of order tokens *)









(** The decimal string written by [str] reads back as the same integer. *)
Lemma str_reads_back n :
  option_map Z.of_int (NilZero.int_of_string (Py.str n)) = Some n.
Proof.
  unfold Py.str. rewrite NilZero.isi.
  - simpl. f_equal. apply DecimalZ.of_to.
  - destruct n; simpl; try discriminate.
    intros E. inversion E as [E']. revert E'. apply DecimalPos.Unsigned.to_uint_nonnil.
  - destruct n; simpl; try discriminate.
    intros E. inversion E as [E']. revert E'. apply DecimalPos.Unsigned.to_uint_nonnil.
Qed.




Example decode_1z : decode_order_number "1z" = inr "71".
Proof. reflexivity. Qed.

Example decode_mixed_case : decode_order_number "Rs" = inr "1000".
Proof. reflexivity. Qed.

Example decode_empty : decode_order_number "" = inl (Py.invalid_literal "").
Proof. reflexivity. Qed.

Example decode_padded : decode_order_number " 1_0 " = inr "36".
Proof. reflexivity. Qed.

Example decode_doubled_underscore :
  decode_order_number "1__0" = inl (Py.invalid_literal "1__0").
Proof. reflexivity. Qed.

(** * Sorting *)

Lemma fleb_total x y :
  is_nan x = false -> is_nan y = false -> fleb x y = true \/ fleb y x = true.
Proof.
  destruct x as [a| | |], y as [b| | |]; simpl; intros; try discriminate; auto.
  rewrite !Qle_bool_iff.
  destruct (Qlt_le_dec a b) as [L|L]; [ left; apply Qlt_le_weak; exact L | auto ].
Qed.

Lemma fleb_trans x y z :
  fleb x y = true -> fleb y z = true -> fleb x z = true.
Proof.
  destruct x as [a| | |], y as [b| | |], z as [c| | |]; simpl; intros;
    try discriminate; auto.
  rewrite Qle_bool_iff in *. eapply Qle_trans; eauto.
Qed.

Lemma feqb_fleb v x y :
  feqb x v = true -> feqb y v = true -> fleb x y = true.
Proof.
  destruct x as [a| | |], y as [b| | |], v as [c| | |]; simpl; intros E1 E2;
    try discriminate; auto.
  apply Qeq_bool_iff in E1, E2. apply Qle_bool_iff.
  rewrite E1, E2. apply Qle_refl.
Qed.


Section SortBy.

Variables (A : Type) (val : A -> float).

Lemma insert_by_perm x l :
  Permutation (insert_by (fun a b => fleb (val a) (val b)) x l) (x :: l).
Proof.
  induction l as [|y l IH]; simpl; [ reflexivity | ].
  destruct (fleb (val x) (val y)); [ reflexivity | ].
  rewrite IH. apply perm_swap.
Qed.

Lemma sort_by_perm l :
  Permutation (sort_by (fun a b => fleb (val a) (val b)) l) l.
Proof.
  induction l as [|x l IH]; simpl; [ reflexivity | ].
  rewrite insert_by_perm. constructor. exact IH.
Qed.

Lemma insert_by_sorted x l :
  is_nan (val x) = false ->
  Forall (fun a => is_nan (val a) = false) l ->
  ascending val l ->
  ascending val (insert_by (fun a b => fleb (val a) (val b)) x l).
Proof.
  unfold ascending. intros Hx Hl Hs.
  induction Hs as [|y l Hs IH Hy]; simpl.
  - repeat constructor.
  - inversion Hl as [|? ? Oy Ol]; subst.
    destruct (fleb (val x) (val y)) eqn:E.
    + constructor; [ constructor; assumption | ].
      constructor; [ exact E | ].
      eapply Forall_impl; [ | exact Hy ].
      intros b Hb. eapply fleb_trans; eauto.
    + constructor; [ apply IH; assumption | ].
      assert (Eyx : fleb (val y) (val x) = true).
      { destruct (fleb_total (val x) (val y) Hx Oy) as [T|T]; [ | exact T ].
        congruence. }
      eapply Permutation_Forall.
      * symmetry. apply insert_by_perm.
      * constructor; assumption.
Qed.

Lemma sort_by_sorted l :
  Forall (fun a => is_nan (val a) = false) l ->
  ascending val (sort_by (fun a b => fleb (val a) (val b)) l).
Proof.
  induction l as [|x l IH]; simpl; intros H.
  - constructor.
  - inversion H; subst. apply insert_by_sorted; auto.
    eapply Permutation_Forall; [ symmetry; apply sort_by_perm | assumption ].
Qed.

Lemma insert_by_stable v x l :
  filter (fun a => feqb (val a) v)
    (insert_by (fun a b => fleb (val a) (val b)) x l) =
  filter (fun a => feqb (val a) v) (x :: l).
Proof.
  induction l as [|y l IH]; [ reflexivity | ].
  cbn [insert_by]. destruct (fleb (val x) (val y)) eqn:E; [ reflexivity | ].
  cbn [filter] in *. rewrite IH.
  destruct (feqb (val x) v) eqn:Ex; [ | reflexivity ].
  destruct (feqb (val y) v) eqn:Ey; [ | reflexivity ].
  rewrite (feqb_fleb v _ _ Ex Ey) in E. discriminate E.
Qed.

Lemma sort_by_stable v l :
  filter (fun a => feqb (val a) v)
    (sort_by (fun a b => fleb (val a) (val b)) l) =
  filter (fun a => feqb (val a) v) l.
Proof.
  induction l as [|x l IH]; [ reflexivity | ].
  cbn [sort_by fold_right]. rewrite insert_by_stable.
  cbn [filter]. fold (sort_by (fun a b => fleb (val a) (val b)) l).
  rewrite IH. reflexivity.
Qed.

End SortBy.

Lemma insertion_kind_contract : sort_contract insertion_kind.
Proof.
  intros A val l. split.
  - apply sort_by_perm.
  - apply sort_by_sorted.
Qed.

Lemma insertion_kind_stable : stable_kind insertion_kind.
Proof. intros A val l x. apply sort_by_stable. Qed.



Lemma filter_split (A : Type) (f : A -> bool) l :
  Permutation (filter (fun a => negb (f a)) l ++ filter f l) l.
Proof.
  induction l as [|x l IH]; simpl; [ reflexivity | ].
  destruct (f x); simpl.
  - rewrite <- Permutation_middle. constructor. exact IH.
  - constructor. exact IH.
Qed.

Lemma StronglySorted_snoc (A : Type) (R : A -> A -> Prop) l x :
  StronglySorted R l -> Forall (fun a => R a x) l -> StronglySorted R (l ++ [x]).
Proof.
  induction 1 as [|y l Hs IH Hy]; simpl; intros F.
  - repeat constructor.
  - inversion F; subst. constructor; [ apply IH; assumption | ].
    apply Forall_app. split; [ exact Hy | repeat constructor; assumption ].
Qed.

Lemma StronglySorted_rev (A : Type) (R : A -> A -> Prop) l :
  StronglySorted R l -> StronglySorted (fun a b => R b a) (rev l).
Proof.
  induction 1 as [|x l Hs IH Hx]; simpl; [ constructor | ].
  apply StronglySorted_snoc; [ exact IH | ].
  apply Forall_forall. intros a Ha. apply in_rev in Ha.
  exact (proj1 (Forall_forall _ _) Hx a Ha).
Qed.

Lemma StronglySorted_app (A : Type) (R : A -> A -> Prop) l m :
  StronglySorted R l -> StronglySorted R m ->
  (forall a b, In a l -> In b m -> R a b) -> StronglySorted R (l ++ m).
Proof.
  induction 1 as [|x l Hs IH Hx]; simpl; intros Hm Hlm; [ exact Hm | ].
  constructor.
  - apply IH; [ exact Hm | ]. intros a b Ha Hb. apply Hlm; simpl; auto.
  - apply Forall_app. split; [ exact Hx | ].
    apply Forall_forall. intros b Hb. apply Hlm; simpl; auto.
Qed.

Lemma StronglySorted_split (A : Type) (R : A -> A -> Prop) l m :
  StronglySorted R (l ++ m) ->
  StronglySorted R l /\ forall a b, In a l -> In b m -> R a b.
Proof.
  induction l as [|x l IH]; simpl; intros H.
  - split; [ constructor | intros a b [] ].
  - inversion H as [|? ? Hs Hx]; subst.
    destruct (IH Hs) as [Sl Hlm].
    apply Forall_app in Hx. destruct Hx as [Hxl Hxm].
    split; [ constructor; assumption | ].
    intros a b [<- | Ha] Hb.
    + exact (proj1 (Forall_forall _ _) Hxm b Hb).
    + apply Hlm; assumption.
Qed.

Section SortValues.

Variable kind : forall A : Type, (A -> float) -> list A -> list A.
Hypothesis kind_ok : sort_contract kind.
Variables (A : Type) (val : A -> float).

Lemma sort_values_desc_perm l : Permutation (sort_values_desc kind val l) l.
Proof.
  unfold sort_values_desc.
  rewrite <- Permutation_rev.
  rewrite (proj1 (kind_ok A val _)).
  rewrite <- Permutation_rev.
  apply (filter_split A (fun a => is_nan (val a))).
Qed.

Lemma sort_values_desc_ranked l :
  StronglySorted (ranks_before val) (sort_values_desc kind val l).
Proof.
  unfold sort_values_desc.
  set (nn := filter (fun a => negb (is_nan (val a))) l).
  assert (Hnn : Forall (fun a => is_nan (val a) = false) (rev nn)).
  { apply Forall_forall. intros a Ha. apply in_rev in Ha.
    apply filter_In in Ha. destruct Ha as [_ Ha].
    apply negb_true_iff in Ha. exact Ha. }
  destruct (kind_ok A val (rev nn)) as [P S].
  specialize (S Hnn).
  assert (Hk : Forall (fun a => is_nan (val a) = false) (kind A val (rev nn))).
  { eapply Permutation_Forall; [ symmetry; exact P | exact Hnn ]. }
  apply StronglySorted_app.
  - apply StronglySorted_rev in S.
    assert (Hr : Forall (fun a => is_nan (val a) = false)
                   (rev (kind A val (rev nn)))).
    { apply Forall_forall. intros a Ha. apply in_rev in Ha.
      exact (proj1 (Forall_forall _ _) Hk a Ha). }
    revert S Hr. generalize (rev (kind A val (rev nn))).
    induction 1 as [|x m Hs IH Hx]; intros F; [ constructor | ].
    inversion F; subst.
    constructor; [ apply IH; assumption | ].
    apply Forall_forall. intros b Hb. right. split; [ assumption | ].
    exact (proj1 (Forall_forall _ _) Hx b Hb).
  - clear. induction l as [|x l IH]; simpl; [ constructor | ].
    destruct (is_nan (val x)) eqn:E; [ | exact IH ].
    constructor; [ exact IH | ].
    apply Forall_forall. intros b Hb. apply filter_In in Hb.
    left. apply Hb.
  - intros a b _ Hb. apply filter_In in Hb. left. apply Hb.
Qed.


End SortValues.

(** * Top-N selection *)




(** * The join *)

Lemma length_flat_map_le (A B : Type) (f : A -> list B) (n : nat) l :
  (forall a, In a l -> (List.length (f a) <= n)%nat) ->
  (List.length (flat_map f l) <= List.length l * n)%nat.
Proof.
  induction l as [|a l IH]; simpl; intros H; [ lia | ].
  rewrite length_app.
  pose proof (H a (or_introl eq_refl)).
  assert (List.length (flat_map f l) <= List.length l * n)%nat
    by (apply IH; intros; apply H; auto).
  lia.
Qed.

Lemma filter_nil_iff (A : Type) (f : A -> bool) l :
  (forall a, In a l -> f a = false) -> filter f l = [].
Proof.
  induction l as [|a l IH]; simpl; intros H; [ reflexivity | ].
  rewrite (H a (or_introl eq_refl)). apply IH. intros; apply H; auto.
Qed.

(** At most one order matches a contact when the order ids are distinct. *)
Lemma matches_at_most_one l rs :
  NoDup (map order_id rs) -> (List.length (filter (key_match l) rs) <= 1)%nat.
Proof.
  induction rs as [|r rs IH]; simpl; intros N; [ lia | ].
  inversion N as [|? ? Hnot N']; subst.
  specialize (IH N').
  destruct (key_match l r) eqn:E; [ | lia ].
  assert (Z : filter (key_match l) rs = []).
  { apply filter_nil_iff. intros a Ha.
    destruct (key_match l a) eqn:Ea; [ | reflexivity ].
    exfalso. apply Hnot. unfold key_match in E, Ea.
    destruct (order_id r) as [|s] eqn:Er; [ discriminate | ].
    destruct (order_id a) as [|s'] eqn:Ea'; [ discriminate | ].
    apply String.eqb_eq in E, Ea.
    rewrite <- E, Ea, <- Ea'. apply in_map. exact Ha. }
  rewrite Z. simpl. lia.
Qed.

(** C5 (as stated, refuted).  In the scenario of the specification three
    contacts refer to one order; the merged table has three rows, more than
    [min 3 1]. *)
Lemma merge_cardinality_counterexample :
  exists df,
    _preprocess_data scenario_errands scenario_orders = inr df /\
    List.length (rows df) = 3%nat /\
    ~ (List.length (rows df) <=
         Nat.min (List.length (rows scenario_errands))
                 (List.length (rows scenario_orders)))%nat.
Proof.
  eexists. split; [ vm_compute; reflexivity | ].
  split; [ reflexivity | ]. simpl. lia.
Qed.

(** C5 (amended).  The join is inner: the merged rows are exactly the pairs
    of a contact and an order with equal keys, so a contact without a
    matching order and an order without a matching contact produce no row.
    A contact produces one row for each order that matches it: the
    cardinality is at most the product of the two sizes, at most the number
    of contacts when the order ids are pairwise distinct, and 0 when no key
    is shared. *)
Theorem merge_inner_join (left right : DataFrame) :
  let merged := rows (merge left right) in
  (forall m, In m merged <->
     exists l r, In l (rows left) /\ In r (rows right) /\
                 key_match l r = true /\ m = merge_row l r) /\
  (List.length merged <=
     List.length (rows left) * List.length (rows right))%nat /\
  (NoDup (map order_id (rows right)) ->
     (List.length merged <= List.length (rows left))%nat) /\
  ((forall l r, In l (rows left) -> In r (rows right) ->
      key_match l r = false) -> merged = []).
Proof.
  unfold merge. cbn [rows]. repeat split.
  - intros Hm. apply in_flat_map in Hm. destruct Hm as (l & Hl & Hm).
    apply in_map_iff in Hm. destruct Hm as (r & <- & Hr).
    apply filter_In in Hr. destruct Hr as [Hr Hk].
    exists l, r. auto.
  - intros (l & r & Hl & Hr & Hk & ->).
    apply in_flat_map. exists l. split; [ exact Hl | ].
    apply in_map. apply filter_In. auto.
  - apply length_flat_map_le. intros l _.
    rewrite length_map. apply filter_length_le.
  - intros N.
    rewrite <- (Nat.mul_1_r (List.length (rows left))).
    apply length_flat_map_le. intros l _.
    rewrite length_map. apply matches_at_most_one. exact N.
  - intros H. induction (rows left) as [|l ls IH]; [ reflexivity | ].
    simpl. rewrite filter_nil_iff.
    + simpl. apply IH. intros; apply H; simpl; auto.
    + intros r Hr. apply H; simpl; auto.
Qed.

Lemma merge_inner_join_witness :
  NoDup (map order_id (rows normalized_orders)) /\
  List.length (rows (merge normalized_errands normalized_orders)) = 3%nat /\
  (List.length (rows (merge normalized_errands normalized_orders)) <=
     List.length (rows normalized_errands))%nat.
Proof.
  assert (N : NoDup (map order_id (rows normalized_orders))).
  { simpl. constructor; [ intros [] | constructor ]. }
  split; [ exact N | ]. split; [ reflexivity | ].
  exact (proj1 (proj2 (proj2 (merge_inner_join normalized_errands
                                 normalized_orders))) N).
Defined.

(** * Effects of the analysis methods on the merged table *)

Lemma has_column_set_same label dt cols :
  existsb (fun c => String.eqb (fst c) label) (set_dtype label dt cols) = true.
Proof.
  induction cols as [|[l d] cols IH]; simpl.
  - rewrite String.eqb_refl. reflexivity.
  - destruct (String.eqb l label) eqn:E; simpl; rewrite E; [ reflexivity | exact IH ].
Qed.

Lemma has_column_set_other label label' dt cols :
  existsb (fun c => String.eqb (fst c) label') (set_dtype label dt cols) =
  String.eqb label label' ||
  existsb (fun c => String.eqb (fst c) label') cols.
Proof.
  induction cols as [|[l d] cols IH]; simpl.
  - rewrite orb_false_r. reflexivity.
  - destruct (String.eqb l label) eqn:E; simpl.
    + apply String.eqb_eq in E. subst l.
      destruct (String.eqb label label'); reflexivity.
    + rewrite IH. destruct (String.eqb l label'), (String.eqb label label');
        reflexivity.
Qed.

(** ** Running a method step by step *)

Section Steps.

Variables (A B : Type).

Lemma run_ret (a : A) (k : A -> M B) df : bind (ret a) k df = k a df.
Proof. reflexivity. Qed.

Lemma run_raise e (k : A -> M B) df : bind (raise e) k df = (inl e, df).
Proof. reflexivity. Qed.

Lemma run_get (k : DataFrame -> M B) df : bind get k df = k df df.
Proof. reflexivity. Qed.

Lemma run_getitem frame label (proj : Row -> A) (k : list A -> M B) df :
  bind (getitem frame label proj) k df =
  if has_column label frame then k (map proj (rows frame)) df
  else (inl (Py.KeyError label), df).
Proof. unfold getitem. destruct (has_column label frame); reflexivity. Qed.

Lemma run_select frame label (proj : Row -> A) (k : list A -> M B) df :
  bind (select frame label proj) k df =
  if has_column label frame then k (map proj (rows frame)) df
  else (inl (column_not_found label), df).
Proof. unfold select. destruct (has_column label frame); reflexivity. Qed.

Lemma run_column label (proj : Row -> A) (k : list A -> M B) df :
  bind (column label proj) k df =
  if has_column label df then k (map proj (rows df)) df
  else (inl (Py.KeyError label), df).
Proof.
  unfold column. unfold bind at 1. unfold get, bind, getitem.
  destruct (has_column label df); reflexivity.
Qed.

Lemma run_bind (C : Type) (m : M C) (f : C -> M A) (k : A -> M B) df :
  bind (bind m f) k df = bind m (fun c => bind (f c) k) df.
Proof. unfold bind. destruct (m df) as [[e|c] df']; reflexivity. Qed.

End Steps.

Lemma run_setitem (B : Type) label dt write (k : unit -> M B) df :
  bind (setitem label dt write) k df = k tt (frame_set label dt write df).
Proof. reflexivity. Qed.

Lemma run_loc_set (B : Type) mask write (k : unit -> M B) df :
  bind (loc_set mask write) k df =
  k tt {| columns := columns df;
          rows := map (fun r => if mask r then write r else r) (rows df) |}.
Proof. reflexivity. Qed.

Lemma has_column_frame_set_same label dt write df :
  has_column label (frame_set label dt write df) = true.
Proof. apply has_column_set_same. Qed.

Lemma has_column_frame_set label label' dt write df :
  has_column label' (frame_set label dt write df) =
  String.eqb label label' || has_column label' df.
Proof. apply has_column_set_other. Qed.

Lemma has_column_where label df mask :
  has_column label (where_ df mask) = has_column label df.
Proof. reflexivity. Qed.

Ltac run :=
  repeat (cbv zeta;
          first [ rewrite run_bind | rewrite run_ret | rewrite run_raise
                | rewrite run_get | rewrite run_column | rewrite run_getitem
                | rewrite run_select | rewrite run_setitem
                | rewrite run_loc_set ]).

Lemma has_column_rows label df rs :
  has_column label {| columns := columns df; rows := rs |} = has_column label df.
Proof. reflexivity. Qed.

Ltac eval_labels :=
  repeat match goal with
    | |- context [String.eqb ?a ?b] =>
        let v := eval vm_compute in (String.eqb a b) in
        match v with
        | true => change (String.eqb a b) with true
        | false => change (String.eqb a b) with false
        end
    end;
  cbn [orb].

Ltac norm_cols :=
  rewrite ?has_column_frame_set_same, ?has_column_frame_set,
    ?has_column_where, ?has_column_rows;
  eval_labels.

(** Decide the next column test, in every branch. *)
Ltac step :=
  run; norm_cols;
  match goal with
  | H : has_column ?l ?d = _ |- context [if has_column ?l ?d then _ else _] =>
      rewrite H
  | |- context [if has_column ?l ?d then _ else _] =>
      destruct (has_column l d) eqn:?
  end.

Ltac steps := repeat step; run; norm_cols.

Lemma analyze_contacts_per_order_frame kind df :
  snd (analyze_contacts_per_order kind df) = df.
Proof. unfold analyze_contacts_per_order. steps; reflexivity. Qed.

Lemma analyze_channel_distribution_frame kind df :
  snd (analyze_channel_distribution kind df) = df.
Proof. unfold analyze_channel_distribution. steps; reflexivity. Qed.

Lemma route_sizes_frame frame B (k : _ -> M B) df :
  bind (route_sizes frame) k df =
  if has_column "Origin_Country" frame then
    if has_column "Destination_Country" frame then
      k (group_sizes (map route_key (rows frame))) df
    else (inl (Py.KeyError "Destination_Country"), df)
  else (inl (Py.KeyError "Origin_Country"), df).
Proof. unfold route_sizes. steps; reflexivity. Qed.

Lemma analyze_travel_details_frame kind df :
  snd (analyze_travel_details kind df) = df.
Proof.
  unfold analyze_travel_details. run. rewrite route_sizes_frame.
  steps; reflexivity.
Qed.

Lemma analyze_financial_patterns_frame kind df :
  snd (analyze_financial_patterns kind df) = df.
Proof. unfold analyze_financial_patterns. steps; reflexivity. Qed.

Lemma flagged_distribution_frame kind flagged label reason df :
  snd (flagged_distribution kind flagged label reason df) = df.
Proof.
  unfold flagged_distribution. run.
  destruct (has_column label flagged); [ | reflexivity ].
  run. rewrite route_sizes_frame. steps; reflexivity.
Qed.

Lemma analyze_errand_categories_frame kind df :
  let out := analyze_errand_categories kind df in
  match fst out with
  | inr _ => snd out = action_category_update df
  | inl _ => snd out = df
  end.
Proof. unfold analyze_errand_categories. steps; reflexivity. Qed.

Lemma analyze_time_patterns_frame kind df :
  let out := analyze_time_patterns kind df in
  match fst out with
  | inr _ => snd out = time_update df
  | inl _ => snd out = df
  end.
Proof. unfold analyze_time_patterns. steps; reflexivity. Qed.

Lemma analyze_cancellations_frame kind df :
  let out := analyze_cancellations kind df in
  (snd out = cancel_update df \/ snd out = df) /\
  match fst out with
  | inr _ => snd out = cancel_update df
  | inl _ => True
  end.
Proof.
  unfold analyze_cancellations. cbv zeta.
  run. destruct (has_column "Is_Canceled" df); [ | simpl; auto ].
  run. destruct (has_column "cancel_reason" df); [ | simpl; auto ].
  run. fold (cancel_update df).
  match goal with
  | |- context [flagged_distribution ?k ?f ?l ?r ?d] =>
      pose proof (flagged_distribution_frame k f l r d) as E;
      destruct (flagged_distribution k f l r d) as [[e|v] d']
  end; simpl in *; subst; auto.
Qed.

Lemma analyze_changes_frame kind df :
  let out := analyze_changes kind df in
  (snd out = change_update df \/ snd out = df) /\
  match fst out with
  | inr _ => snd out = change_update df
  | inl _ => True
  end.
Proof.
  unfold analyze_changes. cbv zeta.
  run. destruct (has_column "Is_Changed" df); [ | simpl; auto ].
  run. destruct (has_column "change_reason" df); [ | simpl; auto ].
  run. fold (change_update df).
  match goal with
  | |- context [flagged_distribution ?k ?f ?l ?r ?d] =>
      pose proof (flagged_distribution_frame k f l r d) as E;
      destruct (flagged_distribution k f l r d) as [[e|v] d']
  end; simpl in *; subst; auto.
Qed.

Lemma Forall2_map_self (A : Type) (P : A -> A -> Prop) (f : A -> A) l :
  (forall a, P a (f a)) -> Forall2 P l (map f l).
Proof. intros H. induction l; simpl; constructor; auto. Qed.

(** C8 (as stated, refuted).  On the merged table of the scenario,
    [analyze_errand_categories] leaves a table with one more column than it
    was given. *)
Lemma errand_categories_writes_counterexample :
  let df := merged_of scenario_errands scenario_orders in
  snd (analyze_errand_categories insertion_kind df) <> df /\
  List.length (columns (snd (analyze_errand_categories insertion_kind df))) =
  S (List.length (columns df)).
Proof.
  cbv zeta. split; [ | vm_compute; reflexivity ].
  intros E. apply (f_equal (fun d => List.length (columns d))) in E.
  vm_compute in E. discriminate E.
Qed.

(** C8 (amended).  Four methods only read the merged table:
    [analyze_contacts_per_order], [analyze_channel_distribution],
    [analyze_travel_details] and [analyze_financial_patterns].  The other four
    write it, each in its own columns and in no other cell:
    [analyze_errand_categories] sets [errand_action_category];
    [analyze_time_patterns] sets [day_of_week] and [hour_of_day];
    [analyze_cancellations] and [analyze_changes] perform the
    reclassification themselves, on [Is_Canceled] and on [Is_Changed].  No
    method adds, removes or reorders rows. *)
Theorem methods_write_set kind (df : DataFrame) :
  snd (analyze_contacts_per_order kind df) = df /\
  snd (analyze_channel_distribution kind df) = df /\
  snd (analyze_travel_details kind df) = df /\
  snd (analyze_financial_patterns kind df) = df /\
  (let out := analyze_errand_categories kind df in
   match fst out with
   | inr _ => snd out = action_category_update df
   | inl _ => snd out = df
   end) /\
  (let out := analyze_time_patterns kind df in
   match fst out with
   | inr _ => snd out = time_update df
   | inl _ => snd out = df
   end) /\
  (let out := analyze_cancellations kind df in
   (snd out = cancel_update df \/ snd out = df) /\
   match fst out with inr _ => snd out = cancel_update df | inl _ => True end) /\
  (let out := analyze_changes kind df in
   (snd out = change_update df \/ snd out = df) /\
   match fst out with inr _ => snd out = change_update df | inl _ => True end) /\
  Forall2 (fun r r' => r' = with_errand_action_category (errand_action_category r') r)
    (rows df) (rows (action_category_update df)) /\
  Forall2 (fun r r' =>
             r' = with_hour_of_day (hour_of_day r')
                    (with_day_of_week (day_of_week r') r))
    (rows df) (rows (time_update df)) /\
  Forall2 (fun r r' => r' = with_Is_Canceled (Is_Canceled r') r)
    (rows df) (rows (cancel_update df)) /\
  Forall2 (fun r r' => r' = with_Is_Changed (Is_Changed r') r)
    (rows df) (rows (change_update df)).
Proof.
  split; [ apply analyze_contacts_per_order_frame | ].
  split; [ apply analyze_channel_distribution_frame | ].
  split; [ apply analyze_travel_details_frame | ].
  split; [ apply analyze_financial_patterns_frame | ].
  split; [ apply analyze_errand_categories_frame | ].
  split; [ apply analyze_time_patterns_frame | ].
  split; [ apply analyze_cancellations_frame | ].
  split; [ apply analyze_changes_frame | ].
  unfold action_category_update, time_update, cancel_update, change_update,
    frame_set. cbn [rows]. rewrite map_map.
  repeat split; apply Forall2_map_self; intros r.
  - reflexivity.
  - reflexivity.
  - destruct (cancel_mask r); [ reflexivity | destruct r; reflexivity ].
  - destruct (change_mask r); [ reflexivity | destruct r; reflexivity ].
Qed.

(** * Reclassification *)

Lemma reclassify_updates df : reclassify df = change_update (cancel_update df).
Proof.
  unfold reclassify, change_update, cancel_update. cbn [rows columns].
  rewrite map_map. reflexivity.
Qed.

Lemma eq_str_iff s c : eq_str s c = true <-> c = Some s.
Proof.
  destruct c as [x|]; simpl.
  - rewrite String.eqb_eq. split; [ intros ->; reflexivity | intros E; inversion E; reflexivity ].
  - split; discriminate.
Qed.

Lemma isin_change_sentinels c :
  isin change_sentinels c = true <->
  c = Some "Schedule change: Primary Alternative" \/
  c = Some "Cancel part of order".
Proof.
  unfold isin, change_sentinels. cbn [existsb].
  rewrite orb_false_r, orb_true_iff, !eq_str_iff. reflexivity.
Qed.

Lemma reclassify_row_fields r :
  let r' := reclassify_row r in
  Is_Canceled r' = (if cancel_mask r then 1 else Is_Canceled r) /\
  Is_Changed r' = (if change_mask r then 1 else Is_Changed r) /\
  cancel_reason r' = cancel_reason r /\
  change_reason r' = change_reason r.
Proof.
  unfold reclassify_row. cbv zeta.
  destruct (cancel_mask r) eqn:C.
  - change (change_mask (with_Is_Canceled 1 r)) with (change_mask r).
    destruct (change_mask r); repeat split; reflexivity.
  - destruct (change_mask r); repeat split; reflexivity.
Qed.

Lemma cancel_mask_settled r : cancel_mask (reclassify_row r) = false.
Proof.
  destruct (reclassify_row_fields r) as (E1 & _ & E3 & _).
  unfold cancel_mask at 1. rewrite E1, E3.
  destruct (cancel_mask r) eqn:M; [ reflexivity | exact M ].
Qed.

Lemma change_mask_settled r : change_mask (reclassify_row r) = false.
Proof.
  destruct (reclassify_row_fields r) as (_ & E2 & _ & E4).
  unfold change_mask at 1. rewrite E2, E4.
  destruct (change_mask r) eqn:M; [ reflexivity | exact M ].
Qed.

Lemma reclassify_row_idempotent r :
  reclassify_row (reclassify_row r) = reclassify_row r.
Proof.
  pose proof (cancel_mask_settled r) as C.
  pose proof (change_mask_settled r) as D.
  set (r' := reclassify_row r) in *.
  unfold reclassify_row. rewrite C, D. reflexivity.
Qed.

Lemma reclassify_idempotent df : reclassify (reclassify df) = reclassify df.
Proof.
  unfold reclassify. cbn [rows columns]. f_equal.
  rewrite map_map. apply map_ext. apply reclassify_row_idempotent.
Qed.

(** Once the table is reclassified, neither [loc] assignment selects a
    row. *)
Lemma updates_settled df :
  cancel_update (reclassify df) = reclassify df /\
  change_update (reclassify df) = reclassify df.
Proof.
  unfold cancel_update, change_update, reclassify. cbn [rows columns].
  split; f_equal; rewrite map_map; apply map_ext; intros r.
  - rewrite cancel_mask_settled. reflexivity.
  - rewrite change_mask_settled. reflexivity.
Qed.

(** C1.  The two [loc] assignments, which [analyze_cancellations] and
    [analyze_changes] perform on the merged table, amount to [reclassify].
    After it, every row whose [cancel_reason] is the sentinel has a true
    [Is_Canceled] (equal to 1 when the flag was 0 or 1), every row whose
    [change_reason] is one of the two sentinels has a true [Is_Changed];
    applying it again changes nothing, in the model and in the two
    methods; and a flag that was true keeps its value. *)
Theorem reclassification_invariant kind (df : DataFrame) :
  (forall a b df1 df2,
     analyze_cancellations kind df = (inr a, df1) ->
     analyze_changes kind df1 = (inr b, df2) -> df2 = reclassify df) /\
  Forall (fun r => cancel_reason r = Some schedule_change_refund ->
                   Is_Canceled r <> 0)
    (rows (reclassify df)) /\
  Forall (fun r => change_reason r = Some "Schedule change: Primary Alternative"
                   \/ change_reason r = Some "Cancel part of order" ->
                   Is_Changed r <> 0)
    (rows (reclassify df)) /\
  Forall2 (fun r r' =>
             (cancel_reason r = Some schedule_change_refund ->
              Is_Canceled r = 0 \/ Is_Canceled r = 1 -> Is_Canceled r' = 1) /\
             (change_reason r = Some "Schedule change: Primary Alternative"
              \/ change_reason r = Some "Cancel part of order" ->
              Is_Changed r = 0 \/ Is_Changed r = 1 -> Is_Changed r' = 1))
    (rows df) (rows (reclassify df)) /\
  reclassify (reclassify df) = reclassify df /\
  snd (analyze_cancellations kind (reclassify df)) = reclassify df /\
  snd (analyze_changes kind (reclassify df)) = reclassify df /\
  Forall2 (fun r r' =>
             (Is_Canceled r <> 0 -> Is_Canceled r' = Is_Canceled r) /\
             (Is_Changed r <> 0 -> Is_Changed r' = Is_Changed r))
    (rows df) (rows (reclassify df)).
Proof.
  split.
  { intros a b df1 df2 E1 E2.
    pose proof (proj2 (analyze_cancellations_frame kind df)) as F1.
    cbv zeta in F1. rewrite E1 in F1. cbn [fst snd] in F1. subst df1.
    pose proof (proj2 (analyze_changes_frame kind (cancel_update df))) as F2.
    cbv zeta in F2. rewrite E2 in F2. cbn [fst snd] in F2. subst df2.
    symmetry. apply reclassify_updates. }
  split.
  { unfold reclassify. cbn [rows]. apply Forall_map, Forall_forall.
    intros r _ Hs.
    destruct (reclassify_row_fields r) as (E1 & _ & E3 & _).
    rewrite E1. rewrite E3 in Hs.
    destruct (cancel_mask r) eqn:M; [ discriminate | ].
    unfold cancel_mask in M. rewrite (proj2 (eq_str_iff _ _) Hs) in M.
    rewrite andb_true_r in M. apply Z.eqb_neq in M. exact M. }
  split.
  { unfold reclassify. cbn [rows]. apply Forall_map, Forall_forall.
    intros r _ Hs.
    destruct (reclassify_row_fields r) as (_ & E2 & _ & E4).
    rewrite E2. rewrite E4 in Hs.
    destruct (change_mask r) eqn:M; [ discriminate | ].
    unfold change_mask in M. rewrite (proj2 (isin_change_sentinels _) Hs) in M.
    rewrite andb_true_r in M. apply Z.eqb_neq in M. exact M. }
  split.
  { unfold reclassify. cbn [rows]. apply Forall2_map_self. intros r.
    destruct (reclassify_row_fields r) as (E1 & E2 & _ & _).
    rewrite E1, E2. unfold cancel_mask, change_mask. split; intros Hs Hf.
    - rewrite (proj2 (eq_str_iff _ _) Hs), andb_true_r.
      destruct Hf as [-> | ->]; reflexivity.
    - rewrite (proj2 (isin_change_sentinels _) Hs), andb_true_r.
      destruct Hf as [-> | ->]; reflexivity. }
  split; [ apply reclassify_idempotent | ].
  destruct (updates_settled df) as [U1 U2].
  split.
  { destruct (proj1 (analyze_cancellations_frame kind (reclassify df)))
      as [E | E]; rewrite E; [ exact U1 | reflexivity ]. }
  split.
  { destruct (proj1 (analyze_changes_frame kind (reclassify df)))
      as [E | E]; rewrite E; [ exact U2 | reflexivity ]. }
  unfold reclassify. cbn [rows]. apply Forall2_map_self. intros r.
  destruct (reclassify_row_fields r) as (E1 & E2 & _ & _).
  rewrite E1, E2. unfold cancel_mask, change_mask. split; intros Hf.
  - apply Z.eqb_neq in Hf. rewrite Hf. reflexivity.
  - apply Z.eqb_neq in Hf. rewrite Hf. reflexivity.
Qed.

Lemma reclassification_invariant_witness :
  let df := merged_of scenario_errands scenario_orders in
  exists a b df1 df2,
    analyze_cancellations insertion_kind df = (inr a, df1) /\
    analyze_changes insertion_kind df1 = (inr b, df2) /\
    df2 = reclassify df /\
    map Is_Canceled (rows df2) = [1; 1; 1] /\
    map Is_Changed (rows df2) = [1; 1; 1].
Proof.
  cbv zeta.
  destruct (analyze_cancellations insertion_kind
              (merged_of scenario_errands scenario_orders))
    as [[e|a] df1] eqn:E1; [ vm_compute in E1; discriminate E1 | ].
  destruct (analyze_changes insertion_kind df1)
    as [[e|b] df2] eqn:E2.
  { exfalso. assert (X : df1 = snd (analyze_cancellations insertion_kind
              (merged_of scenario_errands scenario_orders))) by (rewrite E1; reflexivity).
    subst df1. vm_compute in E2. discriminate E2. }
  exists a, b, df1, df2.
  pose proof (proj1 (reclassification_invariant insertion_kind
                      (merged_of scenario_errands scenario_orders))
                a b df1 df2 E1 E2) as R.
  split; [ reflexivity | ]. split; [ exact E2 | ].
  split; [ exact R | ]. rewrite R. split; vm_compute; reflexivity.
Defined.

(** * The orchestrator *)

Lemma build_dict_app pre post df :
  build_dict (pre ++ post) df =
  match build_dict pre df with
  | (inr ds, df1) =>
      match build_dict post df1 with
      | (inr ds', df2) => (inr (ds ++ ds')%list, df2)
      | (inl e, df2) => (inl e, df2)
      end
  | (inl e, df1) => (inl e, df1)
  end.
Proof.
  revert df. induction pre as [|[key m] pre IH]; intros df.
  - simpl. unfold ret. destruct (build_dict post df) as [[e|d] df2]; reflexivity.
  - cbn [build_dict app]. unfold bind, ret.
    destruct (m df) as [[e|v] df0]; [ reflexivity | ].
    rewrite IH.
    destruct (build_dict pre df0) as [[e|ds] df1]; [ reflexivity | ].
    destruct (build_dict post df1) as [[e|ds'] df2]; reflexivity.
Qed.

(** The entry whose method raises ends the evaluation of the display:
    whatever follows it is not run. *)
Lemma build_dict_raises pre key (m : M Value) post df ds df1 e df2 :
  build_dict pre df = (inr ds, df1) ->
  m df1 = (inl e, df2) ->
  build_dict (pre ++ (key, m) :: post) df = (inl e, df2).
Proof.
  intros Hpre Hm. rewrite build_dict_app, Hpre.
  cbn [build_dict]. unfold bind. rewrite Hm. reflexivity.
Qed.

Lemma build_dict_cases es df :
  (exists d df', build_dict es df = (inr d, df') /\ map fst d = map fst es) \/
  (exists pre key (m : M Value) post ds df1 e df2,
     es = (pre ++ (key, m) :: post)%list /\
     build_dict pre df = (inr ds, df1) /\
     m df1 = (inl e, df2) /\
     build_dict es df = (inl e, df2)).
Proof.
  revert df. induction es as [|[key m] es IH]; intros df.
  - left. exists [], df. split; reflexivity.
  - destruct (m df) as [[e|v] df0] eqn:Em.
    + right. exists [], key, m, es, [], df, e, df0.
      repeat split; [ exact Em | ].
      cbn [build_dict]. unfold bind. rewrite Em. reflexivity.
    + destruct (IH df0) as [(d & df' & E & K) | H].
      * left. exists ((key, v) :: d), df'. split.
        -- cbn [build_dict]. unfold bind. rewrite Em, E. reflexivity.
        -- simpl. f_equal. exact K.
      * destruct H as (pre & k & m' & post & ds & df1 & e & df2 & -> & Hp & Hm & Hb).
        right. exists ((key, m) :: pre), k, m', post, ((key, v) :: ds), df1, e, df2.
        repeat split.
        -- cbn [build_dict]. unfold bind. rewrite Em, Hp. reflexivity.
        -- exact Hm.
        -- cbn [build_dict app]. unfold bind. rewrite Em, Hb. reflexivity.
Qed.

(** C3 (as stated, refuted).  Without the [errand_channel] column the third
    method raises.  The two methods before it had returned and the five after
    it would return on the same table, yet [None] is returned, one line
    without a method name is printed, and the later methods have not run:
    there is no [hour_of_day] column and no flag is reclassified. *)
Lemma one_failure_discards_bundle :
  let df := merged_of errands_without_channel scenario_orders in
  let out := generate_all_analyses insertion_kind df in
  fst (analyze_contacts_per_order insertion_kind df) = inr (Fin 3) /\
  fst (analyze_channel_distribution insertion_kind df) =
    inl (Py.KeyError "errand_channel") /\
  (exists v, fst (analyze_time_patterns insertion_kind df) = inr v) /\
  (exists v, fst (analyze_financial_patterns insertion_kind df) = inr v) /\
  returned out = None /\
  printed out = ["Error generating analyses: 'errand_channel'"] /\
  has_column "hour_of_day" (merged_df out) = false /\
  map Is_Canceled (rows (merged_df out)) = [0; 0; 0].
Proof.
  cbv zeta. repeat split; try (vm_compute; reflexivity).
  - eexists. vm_compute. reflexivity.
  - eexists. vm_compute. reflexivity.
Qed.

(** C3 (amended).  [generate_all_analyses] evaluates the eight methods in
    order inside one [try].  When all return, it returns the dict of the
    eight results and prints nothing.  When one raises after the methods
    before it have returned, no later method runs, the results obtained so
    far are discarded, one line [Error generating analyses: <exception>] is
    printed and [None] is returned; the merged table is left as the raising
    method left it.  One of the two cases always applies. *)
Theorem generate_all_analyses_all_or_nothing kind (df : DataFrame) :
  (forall d df', build_dict (entries kind) df = (inr d, df') ->
     generate_all_analyses kind df =
       {| returned := Some d; printed := []; merged_df := df' |} /\
     map fst d =
       [ "avg_contacts"; "errand_dist"; "channel_dist"; "time_patterns";
         "travel_details"; "cancellation_dist"; "change_dist";
         "financial_patterns" ]) /\
  (forall pre key (m : M Value) post ds df1 e df2,
     entries kind = (pre ++ (key, m) :: post)%list ->
     build_dict pre df = (inr ds, df1) ->
     m df1 = (inl e, df2) ->
     generate_all_analyses kind df =
       {| returned := None;
          printed := ["Error generating analyses: " ++ Py.exn_str e];
          merged_df := df2 |}) /\
  ((exists d, returned (generate_all_analyses kind df) = Some d) \/
   (exists pre key (m : M Value) post ds df1 e df2,
      entries kind = (pre ++ (key, m) :: post)%list /\
      build_dict pre df = (inr ds, df1) /\
      m df1 = (inl e, df2))).
Proof.
  split; [ | split ].
  - intros d df' E. unfold generate_all_analyses. rewrite E.
    split; [ reflexivity | ].
    destruct (build_dict_cases (entries kind) df)
      as [(d0 & df0 & E0 & K) | H].
    + rewrite E in E0. inversion E0; subst. exact K.
    + destruct H as (? & ? & ? & ? & ? & ? & ? & ? & _ & _ & _ & Hb).
      rewrite E in Hb. discriminate Hb.
  - intros pre key m post ds df1 e df2 Es Hp Hm.
    unfold generate_all_analyses. rewrite Es.
    rewrite (build_dict_raises pre key m post df ds df1 e df2 Hp Hm).
    reflexivity.
  - destruct (build_dict_cases (entries kind) df)
      as [(d0 & df0 & E0 & K) | H].
    + left. exists d0. unfold generate_all_analyses. rewrite E0. reflexivity.
    + right.
      destruct H as (pre & key & m & post & ds & df1 & e & df2 & Es & Hp & Hm & _).
      exists pre, key, m, post, ds, df1, e, df2. auto.
Qed.

Lemma generate_all_analyses_all_or_nothing_witness :
  let df := merged_of errands_without_channel scenario_orders in
  exists ds df1 df2,
    build_dict (firstn 2 (entries insertion_kind)) df = (inr ds, df1) /\
    fmap VSeries (analyze_channel_distribution insertion_kind) df1 =
      (inl (Py.KeyError "errand_channel"), df2) /\
    generate_all_analyses insertion_kind df =
      {| returned := None;
         printed := ["Error generating analyses: 'errand_channel'"];
         merged_df := df2 |}.
Proof.
  cbv zeta.
  destruct (build_dict (firstn 2 (entries insertion_kind))
              (merged_of errands_without_channel scenario_orders))
    as [[e|ds] df1] eqn:E1; [ vm_compute in E1; discriminate E1 | ].
  assert (X : df1 = snd (build_dict (firstn 2 (entries insertion_kind))
              (merged_of errands_without_channel scenario_orders)))
    by (rewrite E1; reflexivity).
  destruct (fmap VSeries (analyze_channel_distribution insertion_kind) df1)
    as [[e|v] df2] eqn:E2.
  - assert (Y : e = Py.KeyError "errand_channel").
    { subst df1. vm_compute in E2. inversion E2. reflexivity. }
    subst e. exists ds, df1, df2.
    split; [ reflexivity | ]. split; [ exact E2 | ].
    exact (proj1 (proj2 (generate_all_analyses_all_or_nothing insertion_kind
              (merged_of errands_without_channel scenario_orders)))
             (firstn 2 (entries insertion_kind)) "channel_dist"
             (fmap VSeries (analyze_channel_distribution insertion_kind))
             (skipn 3 (entries insertion_kind)) ds df1
             (Py.KeyError "errand_channel") df2 eq_refl E1 E2).
  - exfalso. subst df1. vm_compute in E2. discriminate E2.
Defined.

(** * Counting *)

Lemma total_app (K : Type) (s t : Series K Z) :
  total (s ++ t)%list = total s + total t.
Proof.
  unfold total. rewrite map_app.
  induction (map snd s) as [|x l IH]; simpl; [ reflexivity | ].
  rewrite IH. lia.
Qed.

Lemma total_perm (K : Type) (s t : Series K Z) :
  Permutation s t -> total s = total t.
Proof.
  unfold total. induction 1; simpl; lia.
Qed.

Lemma total_bump (K : Type) `{Key K} (k : K) (acc : Series K Z) :
  total (bump k acc) = total acc + 1.
Proof.
  induction acc as [|[k' n] acc IH]; [ reflexivity | ].
  cbn [bump]. destruct (key_eqb k k').
  - unfold total. simpl. lia.
  - unfold total in *. simpl. rewrite IH. lia.
Qed.

Lemma total_count_keys (K : Type) `{Key K} (l : list K) :
  total (count_keys l) = Z.of_nat (List.length l).
Proof.
  unfold count_keys.
  assert (G : forall acc, total (fold_left (fun a k => bump k a) l acc) =
                          total acc + Z.of_nat (List.length l)).
  { induction l as [|k l IH]; intros acc; cbn [fold_left List.length].
    - lia.
    - rewrite IH, total_bump. lia. }
  rewrite G. reflexivity.
Qed.

(** Every entry of a table of counts is positive. *)
Lemma bump_positive (K : Type) `{Key K} (k : K) (acc : Series K Z) :
  Forall (fun p => 0 < snd p) acc -> Forall (fun p => 0 < snd p) (bump k acc).
Proof.
  induction acc as [|[k' n] acc IH]; intros F; cbn [bump].
  - repeat constructor.
  - inversion F; subst. destruct (key_eqb k k'); constructor; simpl in *;
      auto; lia.
Qed.

Lemma count_keys_positive (K : Type) `{Key K} (l : list K) :
  Forall (fun p => 0 < snd p) (count_keys l).
Proof.
  unfold count_keys.
  assert (G : forall acc, Forall (fun p => 0 < snd p) acc ->
     Forall (fun p => 0 < snd p) (fold_left (fun a k => bump k a) l acc)).
  { induction l as [|k l IH]; intros acc F; cbn [fold_left]; auto.
    apply IH. apply bump_positive. exact F. }
  apply G. constructor.
Qed.

Lemma insert_by_permutation (A : Type) (le : A -> A -> bool) x l :
  Permutation (insert_by le x l) (x :: l).
Proof.
  induction l as [|y l IH]; simpl; [ reflexivity | ].
  destruct (le x y); [ reflexivity | ].
  rewrite IH. apply perm_swap.
Qed.

Lemma sort_by_permutation (A : Type) (le : A -> A -> bool) l :
  Permutation (sort_by le l) l.
Proof.
  induction l as [|x l IH]; simpl; [ reflexivity | ].
  rewrite insert_by_permutation. constructor. exact IH.
Qed.

Lemma total_group_sizes (K : Type) `{Key K} (l : list (option K)) :
  total (group_sizes l) = Z.of_nat (List.length (dropna l)).
Proof.
  unfold group_sizes, sort_index.
  rewrite (total_perm _ _ _ (sort_by_permutation _ _ _)). apply total_count_keys.
Qed.

Lemma total_value_counts kind (K : Type) `{Key K} (l : list (option K)) :
  sort_contract kind ->
  total (value_counts kind l) = Z.of_nat (List.length (dropna l)).
Proof.
  intros Hk. unfold value_counts.
  rewrite (total_perm _ _ _ (sort_values_desc_perm kind Hk _ _ _)).
  apply total_count_keys.
Qed.

(** * Sums of percentages *)

Local Open Scope Q_scope.






Lemma pct_of_int n B :
  B <> 0%Z -> pct (of_int n) (of_int B) = Fin (exact_pct n B).
Proof.
  intros HB. unfold pct, of_int, fdiv, fmul.
  destruct (Qeq_bool (inject_Z B) 0) eqn:E.
  - apply Qeq_bool_iff in E. exfalso. apply HB.
    unfold Qeq in E. simpl in E. lia.
  - reflexivity.
Qed.

Lemma exact_pct_eq n B : exact_pct n B == inject_Z n * 100 / inject_Z B.
Proof.
  unfold exact_pct. rewrite !Qred_correct. unfold Qdiv. ring.
Qed.






(** ** Rounding *)

Lemma rint_bound x : Qabs (inject_Z (rint x) - x) <= 1 # 2.
Proof.
  unfold rint.
  pose proof (Qfloor_le x) as L.
  pose proof (Qlt_floor x) as U.
  set (f := Qfloor x) in *.
  rewrite inject_Z_plus in U. change (inject_Z 1) with 1 in U.
  destruct (Qcompare_spec (x - inject_Z f) (1 # 2)) as [E | E | E].
  - assert (C : Qabs (inject_Z f - x) <= 1 # 2).
    { apply Qabs_Qle_condition. split.
      - apply Qle_minus_iff. setoid_replace (inject_Z f - x + - - (1 # 2))
          with ((1 # 2) - (x - inject_Z f)) by ring.
        rewrite E. setoid_replace ((1 # 2) - (1 # 2)) with 0 by ring.
        apply Qle_refl.
      - apply Qle_minus_iff.
        setoid_replace ((1 # 2) + - (inject_Z f - x))
          with ((1 # 2) + (x - inject_Z f)) by ring.
        rewrite E. discriminate. }
    assert (D : Qabs (inject_Z (f + 1) - x) <= 1 # 2).
    { rewrite inject_Z_plus. change (inject_Z 1) with 1.
      apply Qabs_Qle_condition. split.
      - apply Qle_minus_iff.
        setoid_replace (inject_Z f + 1 - x + - - (1 # 2))
          with ((3 # 2) - (x - inject_Z f)) by ring.
        rewrite E. discriminate.
      - apply Qle_minus_iff.
        setoid_replace ((1 # 2) + - (inject_Z f + 1 - x))
          with ((x - inject_Z f) - (1 # 2)) by ring.
        rewrite E. setoid_replace ((1 # 2) - (1 # 2)) with 0 by ring.
        apply Qle_refl. }
    destruct (Z.even f); assumption.
  - apply Qabs_Qle_condition. split.
    + apply Qle_minus_iff.
      setoid_replace (inject_Z f - x + - - (1 # 2))
        with ((1 # 2) - (x - inject_Z f)) by ring.
      apply Qlt_le_weak. apply (proj1 (Qlt_minus_iff _ _)) in E. exact E.
    + apply Qle_minus_iff.
      setoid_replace ((1 # 2) + - (inject_Z f - x))
        with ((x - inject_Z f) + (1 # 2)) by ring.
      apply (proj1 (Qle_minus_iff _ _)) in L.
      setoid_replace (x - inject_Z f + (1 # 2))
        with ((x + - inject_Z f) + (1 # 2)) by ring.
      apply Qle_trans with (0 + (1 # 2)); [ discriminate | ].
      apply Qplus_le_compat; [ exact L | apply Qle_refl ].
  - rewrite inject_Z_plus. change (inject_Z 1) with 1.
    apply Qabs_Qle_condition. split.
    + apply Qle_minus_iff.
      setoid_replace (inject_Z f + 1 - x + - - (1 # 2))
        with ((1 # 2) + (inject_Z f + 1 + - x)) by ring.
      apply (proj1 (Qlt_minus_iff _ _)) in U. apply Qlt_le_weak in U.
      apply Qle_trans with ((1 # 2) + 0); [ discriminate | ].
      apply Qplus_le_compat; [ apply Qle_refl | exact U ].
    + apply Qle_minus_iff.
      setoid_replace ((1 # 2) + - (inject_Z f + 1 - x))
        with (x - inject_Z f + - (1 # 2)) by ring.
      apply Qlt_le_weak. apply (proj1 (Qlt_minus_iff _ _)) in E. exact E.
Qed.







(** ** The series of the methods *)

Lemma total_positive (K : Type) (s : Series K Z) :
  Forall (fun p => (0 < snd p)%Z) s -> s <> [] -> (0 < total s)%Z.
Proof.
  intros F N. destruct s as [|p s]; [ congruence | ].
  inversion F as [|? ? Hp Hs]; subst.
  assert (G : (0 <= total s)%Z).
  { clear -Hs. unfold total. induction Hs; simpl; lia. }
  unfold total in *. simpl. lia.
Qed.

Lemma value_counts_positive kind (K : Type) `{Key K} (l : list (option K)) :
  sort_contract kind ->
  Forall (fun p => (0 < snd p)%Z) (value_counts kind l).
Proof.
  intros Hk. unfold value_counts.
  eapply Permutation_Forall.
  - symmetry. apply (sort_values_desc_perm kind Hk).
  - apply count_keys_positive.
Qed.

Lemma group_sizes_positive (K : Type) `{Key K} (l : list (option K)) :
  Forall (fun p => (0 < snd p)%Z) (group_sizes l).
Proof.
  unfold group_sizes, sort_index.
  eapply Permutation_Forall.
  - symmetry. apply sort_by_permutation.
  - apply count_keys_positive.
Qed.

Lemma grouped_value_counts_positive l :
  Forall (fun p => (0 < snd p)%Z) (grouped_value_counts l).
Proof.
  unfold grouped_value_counts. apply Forall_flat_map, Forall_forall.
  intros c _. apply Forall_map.
  eapply Permutation_Forall.
  - symmetry. apply sort_by_permutation.
  - eapply Forall_impl; [ | apply group_sizes_positive ].
    intros p Hp. exact Hp.
Qed.






Lemma total_day_sizes l : total (day_sizes l) = Z.of_nat (List.length l).
Proof.
  induction l as [|d l IH]; [ reflexivity | ].
  unfold total, day_sizes in *. cbn [day_order map snd fold_right] in *.
  assert (S : forall d0,
    Z.of_nat (List.length (filter (key_eqb d0) (d :: l))) =
    ((if key_eqb d0 d then 1 else 0) +
     Z.of_nat (List.length (filter (key_eqb d0) l)))%Z).
  { intros d0. cbn [filter]. destruct (key_eqb d0 d); cbn [List.length]; lia. }
  rewrite !S. clear S.
  remember (Z.of_nat (List.length (filter (key_eqb Monday) l))) as a1.
  remember (Z.of_nat (List.length (filter (key_eqb Tuesday) l))) as a2.
  remember (Z.of_nat (List.length (filter (key_eqb Wednesday) l))) as a3.
  remember (Z.of_nat (List.length (filter (key_eqb Thursday) l))) as a4.
  remember (Z.of_nat (List.length (filter (key_eqb Friday) l))) as a5.
  remember (Z.of_nat (List.length (filter (key_eqb Saturday) l))) as a6.
  remember (Z.of_nat (List.length (filter (key_eqb Sunday) l))) as a7.
  clear Heqa1 Heqa2 Heqa3 Heqa4 Heqa5 Heqa6 Heqa7.
  cbn [List.length]. rewrite Nat2Z.inj_succ.
  destruct d; cbv [key_eqb day_Key day_code Z.eqb Pos.eqb]; lia.
Qed.

Lemma total_ge_entry (K : Type) (s : Series K Z) p :
  Forall (fun q => (0 <= snd q)%Z) s -> In p s -> (snd p <= total s)%Z.
Proof.
  unfold total. induction 1 as [|q s Hq F IH]; intros I; [ destruct I | ].
  assert (G : (0 <= fold_right Z.add 0 (map snd s))%Z).
  { clear -F. induction F; simpl; lia. }
  simpl. destruct I as [-> | I]; [ lia | ]. specialize (IH I). lia.
Qed.

Lemma fold_min_le d ds : (fold_right Z.min d ds <= d)%Z.
Proof. induction ds; simpl; lia. Qed.

Lemma fold_max_ge d ds : (d <= fold_right Z.max d ds)%Z.
Proof. induction ds; simpl; lia. Qed.

Lemma in_range lo hi d : (lo <= d <= hi)%Z -> In d (range lo hi).
Proof.
  intros H. unfold range. apply in_map_iff.
  exists (Z.to_nat (d - lo)). split; [ lia | ].
  apply in_seq. lia.
Qed.

(** Every contact falls on one of the days of the daily series. *)
Lemma total_resample_daily ts :
  ts <> [] -> (0 < total (resample_daily ts))%Z.
Proof.
  intros N. unfold resample_daily.
  destruct ts as [|t ts]; [ congruence | ]. cbn [map].
  set (d := day_number t). set (ds := map day_number ts).
  set (s := map (fun x => (x, count_of x (d :: ds)))
              (range (fold_right Z.min d ds) (fold_right Z.max d ds))).
  assert (I : In (d, count_of d (d :: ds)) s).
  { unfold s. apply in_map_iff. exists d. split; [ reflexivity | ].
    apply in_range. split; [ apply fold_min_le | apply fold_max_ge ]. }
  assert (F : Forall (fun q => (0 <= snd q)%Z) s).
  { unfold s. apply Forall_map, Forall_forall. intros x _. cbn [snd].
    unfold count_of. lia. }
  pose proof (total_ge_entry _ s _ F I) as G. cbn [snd] in G.
  assert (C : (1 <= count_of d (d :: ds))%Z).
  { unfold count_of. cbn [filter]. rewrite Z.eqb_refl. cbn [List.length]. lia. }
  lia.
Qed.

(** *** What the methods return *)

Lemma analyze_channel_distribution_returns kind df s df' :
  analyze_channel_distribution kind df = (inr s, df') ->
  s = percent_of (to_float (value_counts kind (map errand_channel (rows df))))
        (of_int (len df)).
Proof.
  unfold analyze_channel_distribution. steps; intros E; try discriminate E.
  inversion E. reflexivity.
Qed.

Lemma analyze_errand_categories_returns kind df d df' :
  analyze_errand_categories kind df = (inr d, df') ->
  let categories := value_counts kind (map errand_category (rows df)) in
  let types :=
    grouped_value_counts
      (combine (map errand_category (rows df)) (map errand_type (rows df))) in
  Errands.category_dist d =
    percent_of (to_float categories) (of_int (total categories)) /\
  Errands.type_dist d = percent_of (to_float types) (of_int (total types)).
Proof.
  unfold analyze_errand_categories. steps; intros E; try discriminate E.
  inversion E. split; reflexivity.
Qed.


Lemma analyze_travel_details_returns kind df d df' :
  analyze_travel_details kind df = (inr d, df') ->
  let journeys := value_counts kind (map Journey_Type_ID (rows df)) in
  let sources := value_counts kind (map booking_system_source_type (rows df)) in
  Travel.journey_types d =
    round_2 (percent_of (to_float journeys) (of_int (total journeys))) /\
  Travel.booking_sources d =
    round_2 (percent_of (to_float sources) (of_int (total sources))).
Proof.
  unfold analyze_travel_details. run. rewrite route_sizes_frame.
  steps; intros E; try discriminate E.
  inversion E. split; reflexivity.
Qed.




Lemma analyze_financial_patterns_returns kind df d df' :
  analyze_financial_patterns kind df = (inr d, df') ->
  let groups := value_counts kind (map Customer_Group_Type (rows df)) in
  Financial.contact_dist d =
    sort_values_desc kind (fun p => snd p)
      (percent_of (to_float groups) (of_int (total groups))).
Proof.
  unfold analyze_financial_patterns. steps; intros E; try discriminate E.
  inversion E. reflexivity.
Qed.

Local Close Scope Q_scope.

(** * Action categories *)

Lemma split_first sep s : first (split sep s) = before sep s.
Proof.
  induction s as [|c s IH]; [ reflexivity | ].
  cbn [split before]. destruct (Ascii.eqb c sep); [ reflexivity | ].
  destruct (split sep s) as [|h t].
  - simpl in IH. rewrite <- IH. reflexivity.
  - simpl in *. rewrite IH. reflexivity.
Qed.

Lemma categorize_errand_action_prefix a :
  categorize_errand_action (Some a) =
  Some (before "."%char (before ":"%char a)).
Proof. unfold categorize_errand_action. rewrite !split_first. reflexivity. Qed.

(** What [analyze_errand_categories] returns as [action_dist] and leaves
    in the [errand_action_category] column. *)
Lemma analyze_errand_categories_action kind df d df' :
  analyze_errand_categories kind df = (inr d, df') ->
  df' = action_category_update df /\
  Errands.action_dist d =
    round_2 (percent_of
               (to_float (value_counts kind
                            (map (fun r => categorize_errand_action (errand_action r))
                               (rows df))))
               (of_int (len df))).
Proof.
  unfold analyze_errand_categories. steps; intros E; try discriminate E.
  unfold ret in E. inversion E; subst. split; [ reflexivity | ].
  cbn [Errands.action_dist]. unfold action_category_update, frame_set, len.
  cbn [rows]. rewrite map_map, length_map. reflexivity.
Qed.

(** C6 (as stated, refuted).  In the scenario one of the three contacts has
    no [errand_action].  The two action categories are reported at 33.33
    each, a share of all three rows; with the absent action left out of the
    base they would be 50 each. *)
Lemma action_base_counterexample :
  let df := merged_of scenario_errands scenario_orders in
  let cells := map (fun r => categorize_errand_action (errand_action r)) (rows df) in
  exists d df',
    analyze_errand_categories insertion_kind df = (inr d, df') /\
    cells = [Some "booking"; None; Some "refund"] /\
    Errands.action_dist d =
      [("booking", Fin (3333 # 100)); ("refund", Fin (3333 # 100))] /\
    Errands.action_dist d <>
      round_2 (percent_of (to_float (value_counts insertion_kind cells))
                 (of_int (Z.of_nat (List.length (dropna cells))))).
Proof.
  cbv zeta. eexists. eexists.
  split; [ vm_compute; reflexivity | ].
  split; [ vm_compute; reflexivity | ].
  split; [ vm_compute; reflexivity | ].
  vm_compute. discriminate.
Qed.

(** C6 (amended).  [action_category] is the part of [errand_action] before
    the first [:] and then before the first [.] of that part
    ([booking.modify:upgrade] gives [booking]); an absent action gives an
    absent category.  The method stores it in [errand_action_category] and
    reports, for each category, its row count as a percentage of all merged
    rows, rounded to two places: a row with an absent action is counted
    under no category but stays in the base. *)
Theorem action_category_spec kind (df : DataFrame) :
  (forall a, categorize_errand_action (Some a) =
             Some (before "."%char (before ":"%char a))) /\
  categorize_errand_action None = None /\
  categorize_errand_action (Some "booking.modify:upgrade") = Some "booking" /\
  (forall d df',
     analyze_errand_categories kind df = (inr d, df') ->
     let cells :=
       map (fun r => categorize_errand_action (errand_action r)) (rows df) in
     map errand_action_category (rows df') = cells /\
     Errands.action_dist d =
       round_2 (percent_of (to_float (value_counts kind cells))
                  (of_int (len df))) /\
     (sort_contract kind ->
      total (value_counts kind cells) =
      Z.of_nat (List.length (filter (fun r => match errand_action r with
                                              | Some _ => true
                                              | None => false
                                              end) (rows df))))).
Proof.
  split; [ apply categorize_errand_action_prefix | ].
  split; [ reflexivity | ]. split; [ reflexivity | ].
  intros d df' E cells.
  destruct (analyze_errand_categories_action kind df d df' E) as [-> A].
  split; [ | split ].
  - unfold action_category_update, frame_set. cbn [rows].
    rewrite map_map. reflexivity.
  - exact A.
  - intros Hk. rewrite (total_value_counts kind _ _ Hk). f_equal.
    unfold cells. clear. induction (rows df) as [|r rs IH]; [ reflexivity | ].
    cbn [map dropna flat_map filter] in *.
    destruct (errand_action r); cbn [categorize_errand_action];
      cbn [app List.length]; [ f_equal | ]; exact IH.
Qed.

Lemma action_category_spec_witness :
  let df := merged_of scenario_errands scenario_orders in
  exists d df',
    analyze_errand_categories insertion_kind df = (inr d, df') /\
    map errand_action_category (rows df') =
      [Some "booking"; None; Some "refund"] /\
    Errands.action_dist d =
      [("booking", Fin (3333 # 100)); ("refund", Fin (3333 # 100))].
Proof.
  cbv zeta.
  destruct (analyze_errand_categories insertion_kind
              (merged_of scenario_errands scenario_orders))
    as [[e|d] df'] eqn:E; [ vm_compute in E; discriminate E | ].
  exists d, df'. split; [ reflexivity | ].
  destruct (proj2 (proj2 (proj2 (action_category_spec insertion_kind
              (merged_of scenario_errands scenario_orders)))) d df' E)
    as (C & A & _).
  split.
  - rewrite C. vm_compute. reflexivity.
  - rewrite A. vm_compute. reflexivity.
Defined.

(** * A merged table without rows *)

Section EmptyTable.

Variable kind : forall A : Type, (A -> float) -> list A -> list A.
Hypothesis kind_ok : sort_contract kind.




Variable df : DataFrame.
Hypothesis no_rows : rows df = [].










End EmptyTable.






(** * Percentage distributions *)

Local Open Scope Q_scope.

Lemma dropna_map_Some (A : Type) (l : list A) : dropna (map Some l) = l.
Proof. induction l; simpl; [ reflexivity | f_equal; assumption ]. Qed.

Lemma dropna_map_present (A B : Type) (f : A -> B) (l : list A) :
  dropna (map (fun a => Some (f a)) l) = map f l.
Proof. induction l; simpl; [ reflexivity | f_equal; assumption ]. Qed.

Lemma len_nonzero df : rows df <> [] -> len df <> 0%Z.
Proof. unfold len. destruct (rows df); [ congruence | simpl; lia ]. Qed.









Local Close Scope Q_scope.

(** * Determinism *)

Lemma alike_refl df : alike df df.
Proof. split; reflexivity. Qed.

Lemma alike_sym df df' : alike df df' -> alike df' df.
Proof. intros [H R]. split; [ intros l I; symmetry; auto | symmetry; exact R ]. Qed.

Lemma alike_trans a b c : alike a b -> alike b c -> alike a c.
Proof.
  intros [H1 R1] [H2 R2]. split.
  - intros l I. rewrite (H1 l I). auto.
  - rewrite R1. exact R2.
Qed.

(** A cell that does not change when the row is settled is the same in
    tables that are alike. *)
Lemma alike_map (A : Type) (f : Row -> A) df df' :
  (forall r, f r = f (settle_row r)) ->
  alike df df' -> map f (rows df) = map f (rows df').
Proof.
  intros F [_ R].
  rewrite (map_ext _ _ F (rows df)), (map_ext _ _ F (rows df')).
  rewrite <- !(map_map settle_row f), R. reflexivity.
Qed.

Lemma settle_cancel_mask r : cancel_mask (settle_row r) = false.
Proof. exact (cancel_mask_settled r). Qed.

Lemma settle_change_mask r : change_mask (settle_row r) = false.
Proof. exact (change_mask_settled r). Qed.

Lemma reclassify_row_normal r :
  reclassify_row r =
  with_Is_Changed (if change_mask r then 1 else Is_Changed r)
    (with_Is_Canceled (if cancel_mask r then 1 else Is_Canceled r) r).
Proof.
  unfold reclassify_row.
  destruct (cancel_mask r);
    [ change (change_mask (with_Is_Canceled 1 r)) with (change_mask r) | ];
    destruct (change_mask r); destruct r; reflexivity.
Qed.

Lemma settle_row_normal r :
  settle_row r =
  with_hour_of_day (hour (errand_created_at r))
    (with_day_of_week (day_name (errand_created_at r))
       (with_errand_action_category (categorize_errand_action (errand_action r))
          (with_Is_Changed (if change_mask r then 1 else Is_Changed r)
             (with_Is_Canceled (if cancel_mask r then 1 else Is_Canceled r)
                r)))).
Proof. unfold settle_row. rewrite reclassify_row_normal. reflexivity. Qed.

Ltac settled :=
  let r := fresh "r" in
  intros r; rewrite !settle_row_normal; reflexivity.

Lemma in_analysis_labels_ne l :
  In l analysis_labels ->
  String.eqb "errand_action_category" l = false /\
  String.eqb "day_of_week" l = false /\
  String.eqb "hour_of_day" l = false.
Proof.
  unfold analysis_labels. cbn [In].
  intros H.
  repeat (destruct H as [<- | H]; [ repeat split; reflexivity | ]).
  destruct H.
Qed.

(** Each write of a method leaves a table that is like the one it was
    given. *)
Lemma alike_action_category_update df : alike df (action_category_update df).
Proof.
  split.
  - intros l I. unfold action_category_update.
    rewrite has_column_frame_set.
    destruct (in_analysis_labels_ne l I) as (-> & _ & _). reflexivity.
  - unfold action_category_update, frame_set. cbn [rows].
    rewrite map_map. apply map_ext. settled.
Qed.

Lemma alike_time_update df : alike df (time_update df).
Proof.
  split.
  - intros l I. unfold time_update.
    rewrite !has_column_frame_set.
    destruct (in_analysis_labels_ne l I) as (_ & -> & ->). reflexivity.
  - unfold time_update, frame_set. cbn [rows].
    rewrite !map_map. apply map_ext. settled.
Qed.

Lemma alike_cancel_update df : alike df (cancel_update df).
Proof.
  split; [ reflexivity | ].
  unfold cancel_update. cbn [rows]. rewrite map_map. apply map_ext.
  intros r. destruct (cancel_mask r) eqn:C; [ | reflexivity ].
  rewrite !settle_row_normal, C. reflexivity.
Qed.

Lemma alike_change_update df : alike df (change_update df).
Proof.
  split; [ reflexivity | ].
  unfold change_update. cbn [rows]. rewrite map_map. apply map_ext.
  intros r. destruct (change_mask r) eqn:C; [ | reflexivity ].
  rewrite !settle_row_normal, C. reflexivity.
Qed.

Lemma alike_len df df' : alike df df' -> len df = len df'.
Proof.
  intros [_ R]. unfold len. f_equal.
  apply (f_equal (@List.length Row)) in R. rewrite !length_map in R. exact R.
Qed.

Lemma len_frame_set label dt write df : len (frame_set label dt write df) = len df.
Proof. unfold len, frame_set. cbn [rows]. rewrite length_map. reflexivity. Qed.

Lemma rows_frame_set label dt write df :
  rows (frame_set label dt write df) = map write (rows df).
Proof. reflexivity. Qed.

(** In the goal, bring every reference to the second table back to the
    first. *)
Ltac same_columns HC d' :=
  repeat match goal with
    | |- context [has_column ?l d'] =>
        rewrite <- (HC l) by (unfold analysis_labels; cbn [In]; tauto)
    end.

Ltac same_cells A d d' :=
  rewrite ?len_frame_set, ?rows_frame_set, ?map_map;
  rewrite <- ?(alike_len d d' A);
  repeat match goal with
    | |- context [map ?f (rows d')] =>
        rewrite <- (alike_map _ f d d' ltac:(settled) A)
    end.

Lemma analyze_contacts_per_order_alike kind df df' :
  alike df df' ->
  fst (analyze_contacts_per_order kind df) =
  fst (analyze_contacts_per_order kind df').
Proof.
  intros A. pose proof (proj1 A) as HC.
  unfold analyze_contacts_per_order. run. same_columns HC df'.
  destruct (has_column "order_number" df); [ | reflexivity ].
  same_cells A df df'. reflexivity.
Qed.

Lemma analyze_channel_distribution_alike kind df df' :
  alike df df' ->
  fst (analyze_channel_distribution kind df) =
  fst (analyze_channel_distribution kind df').
Proof.
  intros A. pose proof (proj1 A) as HC.
  unfold analyze_channel_distribution. run. same_columns HC df'.
  destruct (has_column "errand_channel" df); [ | reflexivity ].
  run. same_cells A df df'. reflexivity.
Qed.

Lemma analyze_errand_categories_alike kind df df' :
  alike df df' ->
  fst (analyze_errand_categories kind df) =
  fst (analyze_errand_categories kind df').
Proof.
  intros A. pose proof (proj1 A) as HC.
  unfold analyze_errand_categories. run. same_columns HC df'.
  destruct (has_column "errand_category" df); [ | reflexivity ].
  run. same_columns HC df'.
  destruct (has_column "errand_type" df); [ | reflexivity ].
  run. same_columns HC df'.
  destruct (has_column "errand_action" df); [ | reflexivity ].
  run. norm_cols. run. same_cells A df df'. reflexivity.
Qed.

Lemma analyze_time_patterns_alike kind df df' :
  alike df df' ->
  fst (analyze_time_patterns kind df) = fst (analyze_time_patterns kind df').
Proof.
  intros A. pose proof (proj1 A) as HC.
  unfold analyze_time_patterns. run. same_columns HC df'.
  destruct (has_column "errand_created_at" df); [ | reflexivity ].
  run. norm_cols. run. norm_cols. run. same_cells A df df'. reflexivity.
Qed.

Lemma analyze_travel_details_alike kind df df' :
  alike df df' ->
  fst (analyze_travel_details kind df) = fst (analyze_travel_details kind df').
Proof.
  intros A. pose proof (proj1 A) as HC.
  unfold analyze_travel_details. run. rewrite !route_sizes_frame.
  same_columns HC df'.
  destruct (has_column "Origin_Country" df); [ | reflexivity ].
  destruct (has_column "Destination_Country" df); [ | reflexivity ].
  run. same_columns HC df'.
  destruct (has_column "Journey_Type_ID" df); [ | reflexivity ].
  run. same_columns HC df'.
  destruct (has_column "booking_system_source_type" df); [ | reflexivity ].
  run. same_cells A df df'. reflexivity.
Qed.

Lemma analyze_financial_patterns_alike kind df df' :
  alike df df' ->
  fst (analyze_financial_patterns kind df) =
  fst (analyze_financial_patterns kind df').
Proof.
  intros A. pose proof (proj1 A) as HC.
  unfold analyze_financial_patterns. run. same_columns HC df'.
  destruct (has_column "Customer_Group_Type" df); [ | reflexivity ].
  run. same_columns HC df'.
  destruct (has_column "Revenue" df); [ | reflexivity ].
  run. same_cells A df df'. reflexivity.
Qed.

Lemma map_filter_pairs (A B C : Type) (w : A -> B) (Q : B -> bool) (P : B -> C) l :
  map P (filter Q (map w l)) =
  map snd (filter (fun p => fst p) (map (fun a => (Q (w a), P (w a))) l)).
Proof.
  induction l as [|a l IH]; [ reflexivity | ].
  cbn [map filter fst]. destruct (Q (w a)); cbn [map snd]; rewrite IH;
    reflexivity.
Qed.

(** The flagged rows show the same cells in tables that are alike. *)
Lemma alike_flagged (C : Type) (w : Row -> Row) (Q : Row -> bool)
  (P : Row -> C) df df' :
  (forall r, Q (w r) = Q (w (settle_row r))) ->
  (forall r, P (w r) = P (w (settle_row r))) ->
  alike df df' ->
  map P (filter Q (map w (rows df))) = map P (filter Q (map w (rows df'))).
Proof.
  intros HQ HP A.
  rewrite (map_filter_pairs _ _ _ w Q P (rows df)),
    (map_filter_pairs _ _ _ w Q P (rows df')).
  do 2 f_equal.
  apply (alike_map _ (fun a => (Q (w a), P (w a)))); [ | exact A ].
  intros r. rewrite <- HQ, <- HP. reflexivity.
Qed.

Lemma flagged_distribution_alike kind fl fl' label reason d d' :
  has_column label fl = has_column label fl' ->
  has_column "Origin_Country" fl = has_column "Origin_Country" fl' ->
  has_column "Destination_Country" fl = has_column "Destination_Country" fl' ->
  has_column "Journey_Type_ID" fl = has_column "Journey_Type_ID" fl' ->
  map reason (rows fl) = map reason (rows fl') ->
  map route_key (rows fl) = map route_key (rows fl') ->
  map Journey_Type_ID (rows fl) = map Journey_Type_ID (rows fl') ->
  fst (flagged_distribution kind fl label reason d) =
  fst (flagged_distribution kind fl' label reason d').
Proof.
  intros H0 H1 H2 H3 E1 E2 E3.
  assert (L : len fl = len fl').
  { unfold len. f_equal. apply (f_equal (@List.length _)) in E1.
    rewrite !length_map in E1. exact E1. }
  unfold flagged_distribution. run. rewrite <- H0.
  destruct (has_column label fl); [ | reflexivity ].
  run. rewrite !route_sizes_frame. rewrite <- H1, <- H2.
  destruct (has_column "Origin_Country" fl); [ | reflexivity ].
  destruct (has_column "Destination_Country" fl); [ | reflexivity ].
  run. rewrite <- H3.
  destruct (has_column "Journey_Type_ID" fl); [ | reflexivity ].
  run. rewrite <- E1, <- E2, <- E3, <- L. reflexivity.
Qed.

Lemma cancel_flag_settled r :
  Is_Canceled (if cancel_mask r then with_Is_Canceled 1 r else r) =
  Is_Canceled
    (if cancel_mask (settle_row r) then with_Is_Canceled 1 (settle_row r)
     else settle_row r).
Proof.
  rewrite settle_cancel_mask, settle_row_normal.
  destruct (cancel_mask r); reflexivity.
Qed.

Lemma change_flag_settled r :
  Is_Changed (if change_mask r then with_Is_Changed 1 r else r) =
  Is_Changed
    (if change_mask (settle_row r) then with_Is_Changed 1 (settle_row r)
     else settle_row r).
Proof.
  rewrite settle_change_mask, settle_row_normal.
  destruct (change_mask r); reflexivity.
Qed.

Ltac flagged_cell mask_settled :=
  let r := fresh "r" in
  intros r; rewrite mask_settled, settle_row_normal;
  match goal with
  | |- context [if ?c then _ else _] => destruct c
  end; reflexivity.

Lemma analyze_cancellations_alike kind df df' :
  alike df df' ->
  fst (analyze_cancellations kind df) = fst (analyze_cancellations kind df').
Proof.
  intros A. pose proof (proj1 A) as HC.
  unfold analyze_cancellations. run. same_columns HC df'.
  destruct (has_column "Is_Canceled" df); [ | reflexivity ].
  run. same_columns HC df'.
  destruct (has_column "cancel_reason" df); [ | reflexivity ].
  run.
  apply flagged_distribution_alike; norm_cols;
    try (apply HC; unfold analysis_labels; cbn [In]; tauto);
    unfold where_; cbn [rows]; apply alike_flagged; try exact A;
    try (intros r; f_equal; apply cancel_flag_settled);
    flagged_cell settle_cancel_mask.
Qed.

Lemma analyze_changes_alike kind df df' :
  alike df df' ->
  fst (analyze_changes kind df) = fst (analyze_changes kind df').
Proof.
  intros A. pose proof (proj1 A) as HC.
  unfold analyze_changes. run. same_columns HC df'.
  destruct (has_column "Is_Changed" df); [ | reflexivity ].
  run. same_columns HC df'.
  destruct (has_column "change_reason" df); [ | reflexivity ].
  run.
  apply flagged_distribution_alike; norm_cols;
    try (apply HC; unfold analysis_labels; cbn [In]; tauto);
    unfold where_; cbn [rows]; apply alike_flagged; try exact A;
    try (intros r; f_equal; apply change_flag_settled);
    flagged_cell settle_change_mask.
Qed.








(** ** How each method ends, by the labels that are present *)













Lemma has_column_after_cancel l df :
  has_column l (cancel_update df) = has_column l df.
Proof. reflexivity. Qed.

Lemma has_column_after_change l df :
  has_column l (change_update df) = has_column l df.
Proof. reflexivity. Qed.



Lemma analyses_dict kind df :
  build_dict (entries kind) df =
  match analyses kind df with
  | (inr a, df') => (inr (as_dict a), df')
  | (inl e, df') => (inl e, df')
  end.
Proof.
  unfold entries, analyses, as_dict. cbn [build_dict]. unfold fmap, bind, ret.
  destruct (analyze_contacts_per_order kind df) as [[?|a1] d1];
    [ reflexivity | ].
  destruct (analyze_errand_categories kind d1) as [[?|a2] d2];
    [ reflexivity | ].
  destruct (analyze_channel_distribution kind d2) as [[?|a3] d3];
    [ reflexivity | ].
  destruct (analyze_time_patterns kind d3) as [[?|a4] d4]; [ reflexivity | ].
  destruct (analyze_travel_details kind d4) as [[?|a5] d5]; [ reflexivity | ].
  destruct (analyze_cancellations kind d5) as [[?|a6] d6]; [ reflexivity | ].
  destruct (analyze_changes kind d6) as [[?|a7] d7]; [ reflexivity | ].
  destruct (analyze_financial_patterns kind d7) as [[?|a8] d8]; reflexivity.
Qed.

Lemma generate_all_analyses_typed kind df :
  generate_all_analyses kind df =
  match analyses kind df with
  | (inr a, df') =>
      {| returned := Some (as_dict a); printed := []; merged_df := df' |}
  | (inl e, df') =>
      {| returned := None;
         printed := ["Error generating analyses: " ++ Py.exn_str e];
         merged_df := df' |}
  end.
Proof.
  unfold generate_all_analyses. rewrite analyses_dict.
  destruct (analyses kind df) as [[e|a] d]; reflexivity.
Qed.





(** ** The methods do not depend on one another *)

Lemma analyze_errand_categories_leaves_alike kind df :
  alike df (snd (analyze_errand_categories kind df)).
Proof.
  pose proof (analyze_errand_categories_frame kind df) as F. cbv zeta in F.
  destruct (fst (analyze_errand_categories kind df)); rewrite F;
    [ apply alike_refl | apply alike_action_category_update ].
Qed.

Lemma analyze_time_patterns_leaves_alike kind df :
  alike df (snd (analyze_time_patterns kind df)).
Proof.
  pose proof (analyze_time_patterns_frame kind df) as F. cbv zeta in F.
  destruct (fst (analyze_time_patterns kind df)); rewrite F;
    [ apply alike_refl | apply alike_time_update ].
Qed.

Lemma analyze_cancellations_leaves_alike kind df :
  alike df (snd (analyze_cancellations kind df)).
Proof.
  destruct (proj1 (analyze_cancellations_frame kind df)) as [F | F];
    rewrite F; [ apply alike_cancel_update | apply alike_refl ].
Qed.

Lemma analyze_changes_leaves_alike kind df :
  alike df (snd (analyze_changes kind df)).
Proof.
  destruct (proj1 (analyze_changes_frame kind df)) as [F | F];
    rewrite F; [ apply alike_change_update | apply alike_refl ].
Qed.

Lemma as_dict_injective a b : as_dict a = as_dict b -> a = b.
Proof.
  destruct a, b. unfold as_dict. cbn. intros E. inversion E. reflexivity.
Qed.

Lemma returned_typed kind df a :
  returned (generate_all_analyses kind df) = Some (as_dict a) ->
  fst (analyses kind df) = inr a.
Proof.
  rewrite generate_all_analyses_typed.
  destruct (analyses kind df) as [[e|a'] d]; cbn [returned fst]; intros E;
    [ discriminate E | ].
  f_equal. apply as_dict_injective. congruence.
Qed.

(** X2.  The values of the dict do not depend on the calls made before
    them: each is what its method returns when called on its own, on the
    merged table as built or on any table that differs from it only in the
    cells that the methods write. *)
Theorem analyses_independent kind (df df' : DataFrame) (a : Analyses.t) :
  returned (generate_all_analyses kind df) = Some (as_dict a) ->
  alike df df' ->
  fst (analyze_contacts_per_order kind df') = inr (Analyses.avg_contacts a) /\
  fst (analyze_errand_categories kind df') = inr (Analyses.errand_dist a) /\
  fst (analyze_channel_distribution kind df') = inr (Analyses.channel_dist a) /\
  fst (analyze_time_patterns kind df') = inr (Analyses.time_patterns a) /\
  fst (analyze_travel_details kind df') = inr (Analyses.travel_details a) /\
  fst (analyze_cancellations kind df') = inr (Analyses.cancellation_dist a) /\
  fst (analyze_changes kind df') = inr (Analyses.change_dist a) /\
  fst (analyze_financial_patterns kind df') =
    inr (Analyses.financial_patterns a).
Proof.
  intros R L. apply returned_typed in R. unfold analyses, bind, ret in R.
  assert (L0 : alike df' df) by (apply alike_sym; exact L).
  pose proof (analyze_contacts_per_order_frame kind df) as F1.
  pose proof (analyze_contacts_per_order_alike kind df' df L0) as A1.
  destruct (analyze_contacts_per_order kind df) as [[?|a1] d1];
    [ discriminate R | ].
  cbn [snd] in F1. subst d1.
  pose proof (analyze_errand_categories_leaves_alike kind df) as F2.
  pose proof (analyze_errand_categories_alike kind df' df L0) as A2.
  destruct (analyze_errand_categories kind df) as [[?|a2] d2];
    [ discriminate R | ].
  cbn [snd] in F2.
  assert (L2 : alike df' d2) by (eapply alike_trans; eassumption).
  pose proof (analyze_channel_distribution_frame kind d2) as F3.
  pose proof (analyze_channel_distribution_alike kind df' d2 L2) as A3.
  destruct (analyze_channel_distribution kind d2) as [[?|a3] d3];
    [ discriminate R | ].
  cbn [snd] in F3. subst d3.
  pose proof (analyze_time_patterns_leaves_alike kind d2) as F4.
  pose proof (analyze_time_patterns_alike kind df' d2 L2) as A4.
  destruct (analyze_time_patterns kind d2) as [[?|a4] d4];
    [ discriminate R | ].
  cbn [snd] in F4.
  assert (L4 : alike df' d4) by (eapply alike_trans; eassumption).
  pose proof (analyze_travel_details_frame kind d4) as F5.
  pose proof (analyze_travel_details_alike kind df' d4 L4) as A5.
  destruct (analyze_travel_details kind d4) as [[?|a5] d5];
    [ discriminate R | ].
  cbn [snd] in F5. subst d5.
  pose proof (analyze_cancellations_leaves_alike kind d4) as F6.
  pose proof (analyze_cancellations_alike kind df' d4 L4) as A6.
  destruct (analyze_cancellations kind d4) as [[?|a6] d6];
    [ discriminate R | ].
  cbn [snd] in F6.
  assert (L6 : alike df' d6) by (eapply alike_trans; eassumption).
  pose proof (analyze_changes_leaves_alike kind d6) as F7.
  pose proof (analyze_changes_alike kind df' d6 L6) as A7.
  destruct (analyze_changes kind d6) as [[?|a7] d7]; [ discriminate R | ].
  cbn [snd] in F7.
  assert (L7 : alike df' d7) by (eapply alike_trans; eassumption).
  pose proof (analyze_financial_patterns_alike kind df' d7 L7) as A8.
  destruct (analyze_financial_patterns kind d7) as [[?|a8] d8];
    [ discriminate R | ].
  cbn [fst] in *. inversion R. subst a. cbn.
  repeat split; assumption.
Qed.

Lemma analyses_independent_witness :
  let df := merged_of scenario_errands scenario_orders in
  exists a,
    returned (generate_all_analyses insertion_kind df) = Some (as_dict a) /\
    alike df (reclassify df) /\
    fst (analyze_contacts_per_order insertion_kind (reclassify df)) =
      inr (Fin 3) /\
    Analyses.avg_contacts a = Fin 3.
Proof.
  cbv zeta.
  destruct (analyses insertion_kind (merged_of scenario_errands scenario_orders))
    as [[e|a] d] eqn:E; [ vm_compute in E; discriminate E | ].
  assert (R : returned (generate_all_analyses insertion_kind
                          (merged_of scenario_errands scenario_orders)) =
              Some (as_dict a)).
  { rewrite generate_all_analyses_typed, E. reflexivity. }
  assert (L : alike (merged_of scenario_errands scenario_orders)
                (reclassify (merged_of scenario_errands scenario_orders))).
  { rewrite reclassify_updates. eapply alike_trans;
      [ apply alike_cancel_update | apply alike_change_update ]. }
  exists a. split; [ exact R | ]. split; [ exact L | ].
  pose proof (proj1 (analyses_independent insertion_kind _ _ a R L)) as A.
  assert (C : fst (analyze_contacts_per_order insertion_kind
                     (reclassify (merged_of scenario_errands scenario_orders)))
              = inr (Fin 3)) by (vm_compute; reflexivity).
  split; [ exact C | congruence ].
Defined.

(** ** The constructor: decoding, derived columns and the join *)

Lemma str_injective n m : Py.str n = Py.str m -> n = m.
Proof.
  intros E. pose proof (str_reads_back n) as A. pose proof (str_reads_back m) as B.
  rewrite E in A. rewrite A in B. congruence.
Qed.

Lemma int36_error x e : Py.int36 x = inl e -> e = Py.invalid_literal x.
Proof.
  unfold Py.int36.
  destruct (Py.lstrip (list_ascii_of_string x)) as [|c r].
  - cbn. intros E. congruence.
  - destruct (Ascii.eqb c "+"), (Ascii.eqb c "-");
      match goal with
      | |- context [Py.starts_with_digit ?s] =>
          destruct (Py.starts_with_digit s); [ | congruence ];
          destruct (Py.scan_digits 0 false s) as [[v rest]|]; [ | congruence ];
          destruct (Py.lstrip rest); congruence
      end.
Qed.

Lemma decode_order_number_cases x :
  (exists n, Py.int36 x = inr n /\ decode_order_number x = inr (Py.str n)) \/
  (Py.int36 x = inl (Py.invalid_literal x) /\
   decode_order_number x = inl (Py.invalid_literal x)).
Proof.
  unfold decode_order_number. destruct (Py.int36 x) as [e|n] eqn:E.
  - right. rewrite (int36_error x e E). auto.
  - left. exists n. auto.
Qed.

(** The rows that [decode_rows] returns, and the token that makes it raise. *)
Lemma decode_rows_returns rs rs' :
  decode_rows rs = inr rs' <->
  Forall2 (fun r r' => exists n, Py.int36 (order_number r) = inr n /\
                                 r' = with_order_number (Py.str n) r) rs rs'.
Proof.
  revert rs'. induction rs as [|r rs IH]; intros rs'; cbn [decode_rows].
  - split; [ intros E; inversion E; constructor | intros F; inversion F; reflexivity ].
  - destruct (decode_order_number_cases (order_number r))
      as [[n [I D]] | [I D]]; rewrite D.
    + destruct (decode_rows rs) as [e|rest] eqn:R.
      * split; [ discriminate | ].
        intros F. inversion F as [|? r' ? rest' _ F']; subst.
        apply IH in F'. discriminate F'.
      * split.
        -- intros E. inversion E; subst. constructor; [ eauto | ].
           apply IH. reflexivity.
        -- intros F. inversion F as [|? r' ? rest' [n' [I' ->]] F']; subst.
           apply IH in F'. inversion F'; subst.
           rewrite I in I'. inversion I'; subst. reflexivity.
    + split; [ discriminate | ].
      intros F. inversion F as [|? r' ? rest' [n' [I' _]] _]; subst.
      rewrite I in I'. discriminate I'.
Qed.



Lemma has_column_columns label cols rs :
  has_column label {| columns := cols; rows := rs |} =
  existsb (fun c => String.eqb (fst c) label) cols.
Proof. reflexivity. Qed.

(** [_preprocess_data] as one case distinction. *)
Lemma preprocess_data_run errands_df orders_df :
  _preprocess_data errands_df orders_df =
  if has_column "order_number" errands_df then
    match decode_rows (rows errands_df) with
    | inl e => inl e
    | inr decoded =>
        if has_column "order_id" orders_df then
          if has_column "created" errands_df then
            if has_column "order_created_at" orders_df then
              inr (merge
                     (frame_set "day_of_week" object
                        (fun r =>
                           with_day_of_week (day_name (errand_created_at r)) r)
                        (frame_set "errand_created_at" datetime64
                           (fun r => with_errand_created_at (created r) r)
                           {| columns :=
                                set_dtype "order_number" object
                                  (columns errands_df);
                              rows := decoded |}))
                     (frame_set "order_id" object
                        (fun r => with_order_id (astype_str (order_id r)) r)
                        orders_df))
            else inl (Py.KeyError "order_created_at")
          else inl (Py.KeyError "created")
        else inl (Py.KeyError "order_id")
    end
  else inl (Py.KeyError "order_number").
Proof.
  unfold _preprocess_data.
  destruct (has_column "order_number" errands_df); [ | reflexivity ].
  cbn [negb]. destruct (decode_rows (rows errands_df)); [ reflexivity | ].
  destruct (has_column "order_id" orders_df); [ | reflexivity ].
  cbn [negb]. rewrite has_column_columns, has_column_set_other.
  change (String.eqb "order_number" "created") with false. cbn [orb].
  change (existsb (fun c => String.eqb (fst c) "created") (columns errands_df))
    with (has_column "created" errands_df).
  destruct (has_column "created" errands_df); [ | reflexivity ].
  cbn [negb]. rewrite has_column_frame_set.
  change (String.eqb "order_id" "order_created_at") with false. cbn [orb].
  destruct (has_column "order_created_at" orders_df); reflexivity.
Qed.





Lemma Forall2_in_right (A B : Type) (P : A -> B -> Prop) l l' b :
  Forall2 P l l' -> In b l' -> exists a, In a l /\ P a b.
Proof.
  induction 1 as [|x y l l' Pxy F IH]; cbn [In]; [ tauto | ].
  intros [<- | I]; [ eauto | ]. destruct (IH I) as [a [Ia Pa]]. eauto.
Qed.

Lemma Forall2_in_left (A B : Type) (P : A -> B -> Prop) l l' a :
  Forall2 P l l' -> In a l -> exists b, In b l' /\ P a b.
Proof.
  induction 1 as [|x y l l' Pxy F IH]; cbn [In]; [ tauto | ].
  intros [<- | I]; [ eauto | ]. destruct (IH I) as [b [Ib Pb]]. eauto.
Qed.

Lemma has_column_merge label left right :
  has_column label (merge left right) =
  has_column label left || has_column label right.
Proof. unfold has_column, merge. cbn [columns]. apply existsb_app. Qed.

Lemma has_column_set_present label label' dt df :
  has_column label df = true ->
  existsb (fun c => String.eqb (fst c) label')
    (set_dtype label dt (columns df)) = has_column label' df.
Proof.
  intros H. rewrite has_column_set_other.
  destruct (String.eqb label label') eqn:E; [ | reflexivity ].
  apply String.eqb_eq in E. subst label'. rewrite H. reflexivity.
Qed.

(** The labels of the merged table. *)
Lemma preprocess_data_labels errands_df orders_df df :
  _preprocess_data errands_df orders_df = inr df ->
  forall label,
    has_column label df =
    has_column label errands_df || String.eqb "errand_created_at" label
    || String.eqb "day_of_week" label || has_column label orders_df.
Proof.
  intros E. rewrite preprocess_data_run in E.
  destruct (has_column "order_number" errands_df) eqn:H1; [ | discriminate E ].
  destruct (decode_rows (rows errands_df)) as [e|decoded] eqn:R;
    [ discriminate E | ].
  destruct (has_column "order_id" orders_df) eqn:H2; [ | discriminate E ].
  destruct (has_column "created" errands_df) eqn:H3; [ | discriminate E ].
  destruct (has_column "order_created_at" orders_df) eqn:H4;
    [ | discriminate E ].
  injection E as <-. intros label. rewrite has_column_merge.
  rewrite !has_column_frame_set, has_column_columns.
  rewrite (has_column_set_present "order_number" label object errands_df H1).
  destruct (String.eqb "order_id" label) eqn:Eo.
  - apply String.eqb_eq in Eo. subst label. rewrite H2.
    rewrite !orb_true_r. reflexivity.
  - cbn [orb].
    destruct (has_column label errands_df),
      (String.eqb "errand_created_at" label),
      (String.eqb "day_of_week" label), (has_column label orders_df);
      reflexivity.
Qed.

(** X4.  The merged table that the constructor builds.  It has the labels
    of both frames and the two derived labels.  Its rows are the pairs of a
    contact and an order such that the order id, written as a string, is the
    decimal numeral of the number that the contact's token denotes; each row
    carries that numeral as [order_number] and as [order_id], the contact's
    [created] as [errand_created_at] and its day name as [day_of_week].  An
    order with an integer id is paired with the contacts whose token denotes
    that integer. *)
Theorem preprocess_data_rows (errands_df orders_df df : DataFrame) :
  _preprocess_data errands_df orders_df = inr df ->
  (forall label,
     has_column label df =
     has_column label errands_df || String.eqb "errand_created_at" label
     || String.eqb "day_of_week" label || has_column label orders_df) /\
  (forall m, In m (rows df) <->
     exists l r n,
       In l (rows errands_df) /\ In r (rows orders_df) /\
       Py.int36 (order_number l) = inr n /\
       astype_str (order_id r) = IdStr (Py.str n) /\
       m = merge_row
             (with_day_of_week (day_name (created l))
                (with_errand_created_at (created l)
                   (with_order_number (Py.str n) l)))
             (with_order_id (IdStr (Py.str n)) r)) /\
  Forall (fun m => order_id m = IdStr (order_number m) /\
                   errand_created_at m = created m /\
                   day_of_week m = day_name (created m)) (rows df) /\
  (forall r k n, order_id r = IdInt k ->
     (astype_str (order_id r) = IdStr (Py.str n) <-> k = n)).
Proof.
  intros E0. pose proof E0 as E. rewrite preprocess_data_run in E.
  destruct (has_column "order_number" errands_df) eqn:H1; [ | discriminate E ].
  destruct (decode_rows (rows errands_df)) as [e|decoded] eqn:R;
    [ discriminate E | ].
  destruct (has_column "order_id" orders_df) eqn:H2; [ | discriminate E ].
  destruct (has_column "created" errands_df) eqn:H3; [ | discriminate E ].
  destruct (has_column "order_created_at" orders_df) eqn:H4;
    [ | discriminate E ].
  injection E as E'. symmetry in E'. apply decode_rows_returns in R.
  assert (I : forall m, In m (rows df) <->
     exists l r n,
       In l (rows errands_df) /\ In r (rows orders_df) /\
       Py.int36 (order_number l) = inr n /\
       astype_str (order_id r) = IdStr (Py.str n) /\
       m = merge_row
             (with_day_of_week (day_name (created l))
                (with_errand_created_at (created l)
                   (with_order_number (Py.str n) l)))
             (with_order_id (IdStr (Py.str n)) r)).
  { intros m. subst df. unfold merge, frame_set. cbn [rows]. split.
    - intros Hm. apply in_flat_map in Hm. destruct Hm as (l' & Hl & Hm).
      apply in_map_iff in Hm. destruct Hm as (r' & <- & Hr).
      apply filter_In in Hr. destruct Hr as [Hr Hk].
      apply in_map_iff in Hl. destruct Hl as (l1 & <- & Hl).
      apply in_map_iff in Hl. destruct Hl as (l2 & <- & Hl).
      apply in_map_iff in Hr. destruct Hr as (r & <- & Hr).
      destruct (Forall2_in_right _ _ _ _ _ _ R Hl) as (l & Il & n & In36 & ->).
      unfold key_match in Hk. cbn in Hk.
      destruct (astype_str (order_id r)) as [|s] eqn:As; [ discriminate Hk | ].
      apply String.eqb_eq in Hk. subst s.
      exists l, r, n. repeat split; try assumption.
    - intros (l & r & n & Il & Ir & In36 & As & ->).
      destruct (Forall2_in_left _ _ _ _ _ _ R Il) as (l' & Il' & n' & In36' & ->).
      rewrite In36 in In36'. inversion In36'. subst n'.
      apply in_flat_map.
      exists (with_day_of_week (day_name (created l))
                (with_errand_created_at (created l)
                   (with_order_number (Py.str n) l))).
      split.
      + apply in_map_iff.
        exists (with_errand_created_at (created l)
                  (with_order_number (Py.str n) l)).
        split; [ reflexivity | ].
        apply in_map_iff. exists (with_order_number (Py.str n) l).
        split; [ reflexivity | exact Il' ].
      + apply in_map_iff. exists (with_order_id (astype_str (order_id r)) r).
        split; [ rewrite As; reflexivity | ].
        apply filter_In.
        split; [ apply (in_map (fun r => with_order_id (astype_str (order_id r)) r));
                 exact Ir | ].
        unfold key_match. cbn. rewrite As. apply String.eqb_refl. }
  split; [ | split; [ exact I | split ] ].
  - apply (preprocess_data_labels errands_df orders_df). exact E0.
  - apply Forall_forall. intros m Hm. apply I in Hm.
    destruct Hm as (l & r & n & _ & _ & _ & _ & ->). cbn. auto.
  - intros r k n Ek. rewrite Ek. cbn [astype_str]. split.
    + intros S. inversion S as [S']. apply str_injective. exact S'.
    + intros ->. reflexivity.
Qed.

Lemma preprocess_data_rows_witness :
  let df := merged_of scenario_errands scenario_orders in
  map order_number (rows df) = ["1001"; "1001"; "1001"] /\
  Forall (fun m => order_id m = IdStr (order_number m) /\
                   errand_created_at m = created m /\
                   day_of_week m = day_name (created m)) (rows df).
Proof.
  split; [ reflexivity | ].
  apply (proj1 (proj2 (proj2 (preprocess_data_rows scenario_errands
                                scenario_orders _ eq_refl)))).
Defined.

(** ** The join when the order ids are distinct *)

Lemma filter_at_most_one (A : Type) (f : A -> bool) l :
  (List.length (filter f l) <= 1)%nat ->
  filter f l = match find f l with Some a => [a] | None => [] end.
Proof.
  induction l as [|a l IH]; cbn [filter find]; [ reflexivity | ].
  destruct (f a).
  - cbn [List.length]. intros L.
    destruct (filter f l); [ reflexivity | cbn in L; lia ].
  - exact IH.
Qed.

(** X5.  When no two orders have the same id, the join is a lookup: the
    merged table lists the contacts that have an order, in their order in
    the errands frame and once each, every one extended with the cells of
    its order. *)
Theorem merge_unique_orders (left right : DataFrame) :
  NoDup (map order_id (rows right)) ->
  rows (merge left right) =
    flat_map (fun l => match find (key_match l) (rows right) with
                       | Some r => [merge_row l r]
                       | None => []
                       end) (rows left) /\
  map created (rows (merge left right)) =
    map created
      (filter (fun l => existsb (key_match l) (rows right)) (rows left)).
Proof.
  intros N. unfold merge. cbn [rows].
  assert (E : forall l, map (merge_row l) (filter (key_match l) (rows right)) =
                        match find (key_match l) (rows right) with
                        | Some r => [merge_row l r]
                        | None => []
                        end).
  { intros l.
    rewrite (filter_at_most_one _ _ _ (matches_at_most_one l (rows right) N)).
    destruct (find (key_match l) (rows right)); reflexivity. }
  split.
  - induction (rows left) as [|l ls IH]; [ reflexivity | ].
    cbn [flat_map]. rewrite E, IH. reflexivity.
  - induction (rows left) as [|l ls IH]; [ reflexivity | ].
    cbn [flat_map filter]. rewrite map_app, IH, E.
    destruct (find (key_match l) (rows right)) as [r|] eqn:F.
    + apply find_some in F. destruct F as [Ir K].
      assert (X : existsb (key_match l) (rows right) = true)
        by (apply existsb_exists; eauto).
      rewrite X. reflexivity.
    + assert (X : existsb (key_match l) (rows right) = false).
      { destruct (existsb (key_match l) (rows right)) eqn:X; [ | reflexivity ].
        apply existsb_exists in X. destruct X as [r [Ir K]].
        rewrite (find_none _ _ F r Ir) in K. discriminate K. }
      rewrite X. reflexivity.
Qed.

Lemma merge_unique_orders_witness :
  NoDup (map order_id (rows normalized_orders)) /\
  map created (rows (merge normalized_errands normalized_orders)) =
  map created (rows normalized_errands).
Proof.
  assert (N : NoDup (map order_id (rows normalized_orders))).
  { cbn. constructor; [ intros [] | constructor ]. }
  split; [ exact N | ].
  rewrite (proj2 (merge_unique_orders normalized_errands normalized_orders N)).
  reflexivity.
Defined.

(** ** Tokens that name the same order *)








(** ** Counting labels *)

Section Counting.

Context (K : Type) `{Key K}.

Lemma key_eqb_refl (k : K) : key_eqb k k = true.
Proof. apply key_eqb_eq. reflexivity. Qed.

Lemma key_eqb_sym (a b : K) : key_eqb a b = key_eqb b a.
Proof.
  destruct (key_eqb a b) eqn:E, (key_eqb b a) eqn:E'; try reflexivity.
  - apply key_eqb_eq in E. subst b. rewrite key_eqb_refl in E'. discriminate E'.
  - apply key_eqb_eq in E'. subst b. rewrite key_eqb_refl in E. discriminate E.
Qed.

Lemma lookup_bump (k k' : K) (acc : Series K Z) :
  lookup k' (bump k acc) =
  if key_eqb k' k
  then Some (match lookup k' acc with Some n => n + 1 | None => 1 end)
  else lookup k' acc.
Proof.
  induction acc as [|[a n] acc IH]; cbn [bump lookup].
  - destruct (key_eqb k' k); reflexivity.
  - destruct (key_eqb k a) eqn:E.
    + apply key_eqb_eq in E. subst a. cbn [lookup].
      destruct (key_eqb k' k); reflexivity.
    + cbn [lookup]. destruct (key_eqb k' a) eqn:E'; [ | exact IH ].
      apply key_eqb_eq in E'. subst a.
      rewrite key_eqb_sym, E. reflexivity.
Qed.

Lemma count_cons (k x : K) l :
  Z.of_nat (List.length (filter (key_eqb k) (x :: l))) =
  (if key_eqb k x then 1 else 0)
  + Z.of_nat (List.length (filter (key_eqb k) l)).
Proof.
  cbn [filter]. destruct (key_eqb k x); cbn [List.length]; lia.
Qed.

Lemma lookup_fold_bump l : forall (acc : Series K Z) (k : K),
  lookup k (fold_left (fun acc k => bump k acc) l acc) =
  match lookup k acc with
  | Some n => Some (n + Z.of_nat (List.length (filter (key_eqb k) l)))
  | None =>
      if Z.of_nat (List.length (filter (key_eqb k) l)) =? 0 then None
      else Some (Z.of_nat (List.length (filter (key_eqb k) l)))
  end.
Proof.
  induction l as [|x l IH]; intros acc k.
  - cbn [fold_left filter List.length]. change (Z.of_nat 0) with 0.
    destruct (lookup k acc) as [n|]; [ f_equal; lia | reflexivity ].
  - cbn [fold_left]. rewrite IH, lookup_bump, count_cons.
    assert (0 <= Z.of_nat (List.length (filter (key_eqb k) l))) by lia.
    destruct (key_eqb k x); destruct (lookup k acc) as [n|];
      try reflexivity; [ f_equal; lia | ].
    destruct (1 + Z.of_nat (List.length (filter (key_eqb k) l)) =? 0) eqn:Z0;
      [ apply Z.eqb_eq in Z0; lia | reflexivity ].
Qed.

Lemma lookup_count_keys (k : K) l :
  lookup k (count_keys l) =
  if Z.of_nat (List.length (filter (key_eqb k) l)) =? 0 then None
  else Some (Z.of_nat (List.length (filter (key_eqb k) l))).
Proof. unfold count_keys. rewrite lookup_fold_bump. reflexivity. Qed.

Lemma keys_bump (k k' : K) (acc : Series K Z) :
  In k' (map fst (bump k acc)) <-> k' = k \/ In k' (map fst acc).
Proof.
  induction acc as [|[a n] acc IH]; cbn [bump map fst In].
  - intuition.
  - destruct (key_eqb k a) eqn:E; cbn [map fst In].
    + apply key_eqb_eq in E. subst a. intuition.
    + rewrite IH. intuition.
Qed.

Lemma NoDup_bump (k : K) (acc : Series K Z) :
  NoDup (map fst acc) -> NoDup (map fst (bump k acc)).
Proof.
  induction acc as [|[a n] acc IH]; cbn [bump map fst]; intros N.
  - constructor; [ intros [] | constructor ].
  - inversion N as [|? ? Na N']; subst.
    destruct (key_eqb k a) eqn:E; cbn [map fst]; [ exact N | ].
    constructor; [ | apply IH; exact N' ].
    rewrite keys_bump. intros [-> | I]; [ | exact (Na I) ].
    rewrite key_eqb_refl in E. discriminate E.
Qed.

Lemma NoDup_count_keys l : NoDup (map fst (count_keys (K := K) l)).
Proof.
  unfold count_keys.
  assert (G : forall acc : Series K Z,
             NoDup (map fst acc) ->
             NoDup (map fst (fold_left (fun acc k => bump k acc) l acc))).
  { induction l as [|x l IH]; intros acc N; [ exact N | ].
    cbn [fold_left]. apply IH. apply NoDup_bump. exact N. }
  apply G. constructor.
Qed.

Lemma lookup_in (V : Type) (k : K) (v : V) (s : Series K V) :
  NoDup (map fst s) -> (In (k, v) s <-> lookup k s = Some v).
Proof.
  induction s as [|[a w] s IH]; cbn [map fst lookup In]; intros N.
  - split; [ tauto | discriminate ].
  - inversion N as [|? ? Na N']; subst.
    destruct (key_eqb k a) eqn:E.
    + apply key_eqb_eq in E. subst a. split.
      * intros [E | I]; [ congruence | ].
        destruct Na. apply (in_map fst) in I. exact I.
      * intros E. left. congruence.
    + rewrite <- (IH N'). split; [ | tauto ].
      intros [E' | I]; [ | exact I ].
      injection E' as -> _. rewrite key_eqb_refl in E. discriminate E.
Qed.

Lemma lookup_in_permuted (V : Type) (k : K) (v : V) (s s' : Series K V) :
  Permutation s' s -> NoDup (map fst s) ->
  (In (k, v) s' <-> lookup k s = Some v).
Proof.
  intros P N. rewrite <- (lookup_in _ k v s N).
  split; apply Permutation_in; [ exact P | apply Permutation_sym; exact P ].
Qed.

Lemma NoDup_keys_permuted (V : Type) (s s' : Series K V) :
  Permutation s' s -> NoDup (map fst s) -> NoDup (map fst s').
Proof.
  intros P N. eapply Permutation_NoDup; [ | exact N ].
  apply Permutation_map. apply Permutation_sym. exact P.
Qed.

Lemma count_positive (k : K) l :
  0 < Z.of_nat (List.length (filter (key_eqb k) l)) <-> In k l.
Proof.
  induction l as [|x l IH]; [ cbn; split; [ lia | tauto ] | ].
  rewrite count_cons. cbn [In]. destruct (key_eqb k x) eqn:E.
  - apply key_eqb_eq in E. subst x. split; [ auto | lia ].
  - rewrite Z.add_0_l, IH. split; [ auto | ].
    intros [-> | I]; [ | exact I ].
    rewrite key_eqb_refl in E. discriminate E.
Qed.

(** An entry of [value_counts]: a label that occurs, with the number of its
    occurrences. *)
Lemma value_counts_entry kind (cells : list (option K)) (k : K) (n : Z) :
  sort_contract kind ->
  (In (k, n) (value_counts kind cells) <->
   n = occurrences k cells /\ 0 < n).
Proof.
  intros Hk. unfold value_counts, occurrences.
  rewrite (lookup_in_permuted _ k n _ _
             (sort_values_desc_perm kind Hk _ _ _) (NoDup_count_keys _)).
  rewrite lookup_count_keys.
  destruct (Z.of_nat (List.length (filter (key_eqb k) (dropna cells))) =? 0) eqn:Z0.
  - apply Z.eqb_eq in Z0. split; [ discriminate | lia ].
  - apply Z.eqb_neq in Z0. split.
    + intros E. injection E as <-. lia.
    + intros [-> _]. reflexivity.
Qed.

Lemma value_counts_keys kind (cells : list (option K)) :
  sort_contract kind -> NoDup (map fst (value_counts kind cells)).
Proof.
  intros Hk. unfold value_counts.
  apply (NoDup_keys_permuted _ (count_keys (dropna cells)));
    [ apply sort_values_desc_perm; exact Hk | apply NoDup_count_keys ].
Qed.

(** An entry of [groupby(...).size()]. *)
Lemma group_sizes_entry (cells : list (option K)) (k : K) (n : Z) :
  In (k, n) (group_sizes cells) <-> n = occurrences k cells /\ 0 < n.
Proof.
  unfold group_sizes, sort_index, occurrences.
  rewrite (lookup_in_permuted _ k n _ _
             (sort_by_permutation _ _ _) (NoDup_count_keys _)).
  rewrite lookup_count_keys.
  destruct (Z.of_nat (List.length (filter (key_eqb k) (dropna cells))) =? 0) eqn:Z0.
  - apply Z.eqb_eq in Z0. split; [ discriminate | lia ].
  - apply Z.eqb_neq in Z0. split.
    + intros E. injection E as <-. lia.
    + intros [-> _]. reflexivity.
Qed.

Lemma group_sizes_keys (cells : list (option K)) :
  NoDup (map fst (group_sizes cells)).
Proof.
  unfold group_sizes, sort_index.
  apply (NoDup_keys_permuted _ (count_keys (dropna cells)));
    [ apply sort_by_permutation | apply NoDup_count_keys ].
Qed.

Lemma occurrences_positive (k : K) cells :
  0 < occurrences k cells <-> In (Some k) cells.
Proof.
  unfold occurrences. rewrite count_positive. unfold dropna.
  rewrite in_flat_map. split.
  - intros [[a|] [I A]]; cbn [In] in A; [ | tauto ].
    destruct A as [<- | []]. exact I.
  - intros I. exists (Some k). split; [ exact I | left; reflexivity ].
Qed.

Lemma occurrences_le (k : K) cells :
  occurrences k cells <= Z.of_nat (List.length cells).
Proof.
  unfold occurrences.
  assert (L : (List.length (dropna cells) <= List.length cells)%nat).
  { unfold dropna. induction cells as [|[a|] cells IH]; cbn; lia. }
  pose proof (filter_length_le (key_eqb k) (dropna cells)). lia.
Qed.

End Counting.

(** ** Percentages of counts, entry by entry *)

Lemma percent_of_keys (K : Type) (s : Series K Z) B :
  map fst (percent_of (to_float s) B) = map fst s.
Proof.
  unfold percent_of, to_float. rewrite !map_map. reflexivity.
Qed.

Lemma percent_of_entry (K : Type) (s : Series K Z) B (k : K) p :
  In (k, p) (percent_of (to_float s) B) <->
  exists n, In (k, n) s /\ p = pct (of_int n) B.
Proof.
  unfold percent_of, to_float. rewrite map_map. rewrite in_map_iff. split.
  - intros [[k' n] [E I]]. cbn [fst snd] in E. injection E as -> <-. eauto.
  - intros [n [I ->]]. exists (k, n). split; [ reflexivity | exact I ].
Qed.

Lemma round_2_keys (K : Type) (s : Series K float) :
  map fst (round_2 s) = map fst s.
Proof. unfold round_2. rewrite map_map. reflexivity. Qed.

Lemma round_2_entry (K : Type) (s : Series K float) (k : K) p :
  In (k, p) (round_2 s) <-> exists x, In (k, x) s /\ p = round2 x.
Proof.
  unfold round_2. rewrite in_map_iff. split.
  - intros [[k' x] [E I]]. cbn [fst snd] in E. injection E as -> <-. eauto.
  - intros [x [I ->]]. exists (k, x). split; [ reflexivity | exact I ].
Qed.

Lemma pct_monotone n m B :
  0 < B -> n <= m ->
  fleb (pct (of_int n) (of_int B)) (pct (of_int m) (of_int B)) = true.
Proof.
  intros HB L. rewrite !pct_of_int by lia. cbn [fleb].
  apply Qle_bool_iff. rewrite !exact_pct_eq.
  unfold Qdiv. apply Qmult_le_compat_r.
  - apply Qmult_le_compat_r; [ rewrite <- Zle_Qle; exact L | discriminate ].
  - apply Qinv_le_0_compat. change 0%Q with (inject_Z 0).
    rewrite <- Zle_Qle. lia.
Qed.

Lemma StronglySorted_map (A B : Type) (f : A -> B) (R : A -> A -> Prop)
  (S : B -> B -> Prop) l :
  (forall a b, In a l -> In b l -> R a b -> S (f a) (f b)) ->
  StronglySorted R l -> StronglySorted S (map f l).
Proof.
  intros M H. induction H as [|a l H IH F]; cbn [map]; constructor.
  - apply IH. intros x y Ix Iy. apply M; right; assumption.
  - apply Forall_forall. intros y Iy. apply in_map_iff in Iy.
    destruct Iy as [b [<- Ib]]. rewrite Forall_forall in F.
    apply M; [ left; reflexivity | right; exact Ib | apply F; exact Ib ].
Qed.

Lemma value_counts_descending kind (K : Type) `{Key K}
  (cells : list (option K)) :
  sort_contract kind ->
  StronglySorted (fun a b => snd b <= snd a) (value_counts kind cells).
Proof.
  intros Hk. unfold value_counts.
  pose proof (sort_values_desc_ranked kind Hk _ (fun p : K * Z => of_int (snd p))
                (count_keys (dropna cells))) as S.
  rewrite <- (map_id (sort_values_desc kind _ _)).
  eapply StronglySorted_map; [ | exact S ].
  intros a b _ _ [N | [_ L]]; [ discriminate N | ].
  cbn [fleb of_int] in L. apply Qle_bool_iff in L.
  rewrite <- Zle_Qle in L. exact L.
Qed.

(** The percentages of a [value_counts] in a positive base: one entry for
    each label that occurs, with its share of the base, larger shares
    first. *)
Lemma value_counts_percentages kind (K : Type) `{Key K}
  (cells : list (option K)) B :
  sort_contract kind -> 0 < B ->
  let s := percent_of (to_float (value_counts kind cells)) (of_int B) in
  NoDup (map fst s) /\
  (forall c p, In (c, p) s <->
     In (Some c) cells /\ p = pct (of_int (occurrences c cells)) (of_int B)) /\
  StronglySorted (fun a b => fleb (snd b) (snd a) = true) s.
Proof.
  intros Hk HB s. split; [ | split ].
  - unfold s. rewrite percent_of_keys. apply value_counts_keys. exact Hk.
  - intros c p. unfold s. rewrite percent_of_entry. split.
    + intros [n [I ->]].
      apply (value_counts_entry _ kind cells c n Hk) in I.
      destruct I as [-> P]. split; [ | reflexivity ].
      apply (proj1 (occurrences_positive _ c cells)). exact P.
    + intros [I ->]. exists (occurrences c cells). split; [ | reflexivity ].
      apply (value_counts_entry _ kind cells c _ Hk).
      split; [ reflexivity | ].
      apply (proj2 (occurrences_positive _ c cells)). exact I.
  - unfold s, percent_of, to_float. rewrite map_map.
    eapply StronglySorted_map; [ | apply value_counts_descending; exact Hk ].
    intros a b _ _ L. cbn [fst snd]. apply pct_monotone; assumption.
Qed.

Lemma len_positive df : rows df <> [] -> 0 < len df.
Proof. unfold len. destruct (rows df); [ congruence | cbn; lia ]. Qed.

Lemma value_counts_none kind (K : Type) `{Key K} (cells : list (option K)) :
  sort_contract kind ->
  (forall c, ~ In (Some c) cells) -> value_counts kind cells = [].
Proof.
  intros Hk N. destruct (value_counts kind cells) as [|[c n] s] eqn:E;
    [ reflexivity | ].
  assert (I : In (c, n) (value_counts kind cells)) by (rewrite E; left; reflexivity).
  apply (value_counts_entry _ kind cells c n Hk) in I. destruct I as [-> P].
  apply (proj1 (occurrences_positive _ c cells)) in P.
  destruct (N c P).
Qed.

(** X7.  The channel distribution and the category distribution, entry by
    entry.  There is one entry for each label that occurs in the column, no
    label twice; the entry of a channel is the number of rows with that
    channel as a percentage of all rows, the entry of a category is the
    number of rows with that category as a percentage of the rows that have
    a category; larger percentages come first. *)
Theorem distribution_entries kind (df : DataFrame) :
  sort_contract kind ->
  (forall s df',
     analyze_channel_distribution kind df = (inr s, df') ->
     let cells := map errand_channel (rows df) in
     NoDup (map fst s) /\
     (forall c p, In (c, p) s <->
        In (Some c) cells /\
        p = pct (of_int (occurrences c cells)) (of_int (len df))) /\
     StronglySorted (fun a b => fleb (snd b) (snd a) = true) s) /\
  (forall d df',
     analyze_errand_categories kind df = (inr d, df') ->
     let cells := map errand_category (rows df) in
     let s := Errands.category_dist d in
     NoDup (map fst s) /\
     (forall c p, In (c, p) s <->
        In (Some c) cells /\
        p = pct (of_int (occurrences c cells)) (of_int (present cells))) /\
     StronglySorted (fun a b => fleb (snd b) (snd a) = true) s).
Proof.
  intros Hk. split.
  - intros s df' E. apply analyze_channel_distribution_returns in E.
    cbv zeta. destruct (rows df) as [|r rs] eqn:R.
    + subst s. cbn [map]. rewrite (value_counts_none kind _ [] Hk) by (intros c []).
      cbn. split; [ constructor | ]. split; [ | constructor ].
      intros c p. tauto.
    + subst s. rewrite <- R.
      apply (value_counts_percentages kind _ (map errand_channel (rows df))
               (len df) Hk).
      apply len_positive. rewrite R. discriminate.
  - intros d df' E. apply analyze_errand_categories_returns in E.
    cbv zeta in E. destruct E as [E _]. cbv zeta. rewrite E.
    rewrite (total_value_counts kind _ _ Hk). fold (present (map errand_category (rows df))).
    destruct (Z.eq_dec (present (map errand_category (rows df))) 0) as [Z0 | NZ].
    + assert (N : forall c, ~ In (Some c) (map errand_category (rows df))).
      { intros c I. apply (proj2 (occurrences_positive _ c _)) in I.
        pose proof (occurrences_le _ c (map errand_category (rows df))) as L.
        unfold occurrences, present in *.
        pose proof (filter_length_le (key_eqb c)
                      (dropna (map errand_category (rows df)))). lia. }
      rewrite (value_counts_none kind _ _ Hk N). cbn.
      split; [ constructor | ]. split; [ | constructor ].
      intros c p. split; [ tauto | intros [I _]; exact (N c I) ].
    + apply (value_counts_percentages kind _ _ _ Hk).
      unfold present in *. lia.
Qed.

Lemma distribution_entries_witness :
  let df := merged_of scenario_errands scenario_orders in
  sort_contract insertion_kind /\
  fst (analyze_channel_distribution insertion_kind df) =
    inr [("chat", Fin (200 # 3)); ("email", Fin (100 # 3))] /\
  (forall s df',
     analyze_channel_distribution insertion_kind df = (inr s, df') ->
     NoDup (map fst s)).
Proof.
  split; [ exact insertion_kind_contract | ].
  split; [ vm_compute; reflexivity | ].
  intros s df' E.
  exact (proj1 (proj1 (distribution_entries insertion_kind _
                         insertion_kind_contract) s df' E)).
Defined.

(** ** Contacts per order *)

Lemma group_sizes_keys_in (K : Type) `{Key K} (l : list K) (k : K) :
  In k (map fst (group_sizes (map Some l))) <-> In k l.
Proof.
  rewrite in_map_iff. split.
  - intros [[k' n] [E I]]. cbn [fst] in E. subst k'.
    apply (group_sizes_entry _ (map Some l) k n) in I. destruct I as [-> P].
    apply (proj1 (occurrences_positive _ k _)) in P.
    apply in_map_iff in P. destruct P as [x [E I]]. congruence.
  - intros I. exists (k, occurrences k (map Some l)). split; [ reflexivity | ].
    apply (group_sizes_entry _ (map Some l) k _). split; [ reflexivity | ].
    apply (proj2 (occurrences_positive _ k _)). apply in_map. exact I.
Qed.

Lemma group_sizes_length (K : Type) `{Key K}
  (dec : forall x y : K, {x = y} + {x <> y}) (l : list K) :
  List.length (group_sizes (map Some l)) = List.length (nodup dec l).
Proof.
  rewrite <- (length_map fst).
  apply Permutation_length. apply NoDup_Permutation.
  - apply group_sizes_keys.
  - apply NoDup_nodup.
  - intros k. rewrite group_sizes_keys_in, nodup_In. reflexivity.
Qed.

(** X8.  On a merged table with rows, [analyze_contacts_per_order] returns
    the number of rows divided by the number of distinct order numbers; the
    average is at least 1 and at most the number of rows, and the table is
    left as it was. *)
Theorem average_contacts_per_order kind (df : DataFrame) :
  has_column "order_number" df = true -> rows df <> [] ->
  let orders := nodup string_dec (map order_number (rows df)) in
  exists q,
    analyze_contacts_per_order kind df = (inr (Fin q), df) /\
    (q == inject_Z (len df) / inject_Z (Z.of_nat (List.length orders)))%Q /\
    (1 <= q <= inject_Z (len df))%Q.
Proof.
  intros Hc Hr orders. unfold analyze_contacts_per_order. run. rewrite Hc. run.
  unfold mean, values.
  change (fold_right Z.add 0 (map snd ?s)) with (total s).
  rewrite total_group_sizes, dropna_map_Some, !length_map.
  rewrite (group_sizes_length _ string_dec). fold orders. fold (len df).
  assert (P : (0 < List.length orders)%nat).
  { unfold orders. destruct (rows df) as [|r rs]; [ congruence | ].
    assert (I : In (order_number r) (nodup string_dec (map order_number (r :: rs))))
      by (apply nodup_In; left; reflexivity).
    destruct (nodup string_dec (map order_number (r :: rs)));
      [ destruct I | cbn; lia ]. }
  assert (L : Z.of_nat (List.length orders) <= len df).
  { unfold len. rewrite <- (length_map order_number (rows df)).
    apply inj_le. apply NoDup_incl_length; [ apply NoDup_nodup | ].
    intros x I. apply nodup_In in I. exact I. }
  set (n := Z.of_nat (List.length orders)) in *.
  assert (Pn : 0 < n) by (unfold n; lia).
  unfold fdiv, of_int.
  assert (NZ : Qeq_bool (inject_Z n) 0 = false).
  { destruct (Qeq_bool (inject_Z n) 0) eqn:E; [ | reflexivity ].
    apply Qeq_bool_iff in E. unfold Qeq in E. cbn in E. lia. }
  rewrite NZ. eexists. split; [ reflexivity | ].
  assert (Qn : (0 < inject_Z n)%Q).
  { change 0%Q with (inject_Z 0). rewrite <- Zlt_Qlt. exact Pn. }
  split; [ apply Qred_correct | ]. rewrite Qred_correct. split.
  - apply Qle_shift_div_l; [ exact Qn | ].
    rewrite Qmult_1_l. rewrite <- Zle_Qle. exact L.
  - apply Qle_shift_div_r; [ exact Qn | ].
    rewrite <- inject_Z_mult. rewrite <- Zle_Qle. nia.
Qed.

Lemma average_contacts_per_order_witness :
  let df := merged_of scenario_errands scenario_orders in
  exists q,
    analyze_contacts_per_order insertion_kind df = (inr (Fin q), df) /\
    (q == 3)%Q.
Proof.
  cbv zeta.
  destruct (average_contacts_per_order insertion_kind
              (merged_of scenario_errands scenario_orders) eq_refl
              ltac:(discriminate)) as [q [E [V _]]].
  exists q. split; [ exact E | ]. rewrite V. reflexivity.
Defined.

(** ** Travel details *)

Lemma value_counts_rounded_entry kind (K : Type) `{Key K}
  (cells : list (option K)) B (c : K) p :
  sort_contract kind ->
  (In (c, p) (round_2 (percent_of (to_float (value_counts kind cells)) B)) <->
   In (Some c) cells /\ p = round2 (pct (of_int (occurrences c cells)) B)).
Proof.
  intros Hk. rewrite round_2_entry. split.
  - intros [x [I ->]]. apply percent_of_entry in I. destruct I as [n [I ->]].
    apply (value_counts_entry _ kind cells c n Hk) in I. destruct I as [-> P].
    split; [ | reflexivity ].
    apply (proj1 (occurrences_positive _ c cells)). exact P.
  - intros [I ->]. eexists. split; [ | reflexivity ].
    apply percent_of_entry. exists (occurrences c cells).
    split; [ | reflexivity ].
    apply (value_counts_entry _ kind cells c _ Hk). split; [ reflexivity | ].
    apply (proj2 (occurrences_positive _ c cells)). exact I.
Qed.

Lemma value_counts_rounded_keys kind (K : Type) `{Key K}
  (cells : list (option K)) B :
  sort_contract kind ->
  NoDup (map fst (round_2 (percent_of (to_float (value_counts kind cells)) B))).
Proof.
  intros Hk. rewrite round_2_keys, percent_of_keys.
  apply value_counts_keys. exact Hk.
Qed.

Lemma analyze_travel_details_routes kind df d df' :
  analyze_travel_details kind df = (inr d, df') ->
  let sizes := group_sizes (map route_key (rows df)) in
  Travel.top_routes d =
  head 10
    (sort_values_desc kind Travel.route_percentage
       (map (fun p =>
               {| Travel.Origin_Country := fst (fst p);
                  Travel.Destination_Country := snd (fst p);
                  Travel.route_count := snd p;
                  Travel.route_percentage :=
                    round2 (pct (of_int (snd p)) (of_int (total sizes))) |})
          sizes)).
Proof.
  unfold analyze_travel_details. run. rewrite route_sizes_frame.
  destruct (has_column "Origin_Country" df); [ | discriminate ].
  destruct (has_column "Destination_Country" df); [ | discriminate ].
  run. destruct (has_column "Journey_Type_ID" df); [ | discriminate ].
  run. destruct (has_column "booking_system_source_type" df);
    [ | discriminate ].
  run. unfold ret. intros E. injection E as <- _. reflexivity.
Qed.

Lemma present_length (A : Type) (cells : list (option A)) :
  present cells = Z.of_nat (List.length (dropna cells)).
Proof. reflexivity. Qed.

Lemma firstn_in (A : Type) n (l : list A) a : In a (firstn n l) -> In a l.
Proof.
  intros I. rewrite <- (firstn_skipn n l). apply in_or_app. left. exact I.
Qed.

Lemma NoDup_firstn (A : Type) n (l : list A) : NoDup l -> NoDup (firstn n l).
Proof.
  intros N. rewrite <- (firstn_skipn n l) in N.
  apply NoDup_app_remove_r in N. exact N.
Qed.

Lemma round2_finite x : is_nan x = false -> is_nan (round2 x) = false.
Proof. destruct x; cbn; auto. Qed.

Lemma pct_of_int_finite n B :
  B <> 0 -> is_nan (pct (of_int n) (of_int B)) = false.
Proof. intros NZ. rewrite pct_of_int by exact NZ. reflexivity. Qed.

(** X9.  The travel details, entry by entry.  [top_routes] has at most ten
    rows, one for each pair of an origin and a destination, no pair twice;
    [route_count] is the number of merged rows with that pair and
    [route_percentage] its rounded share of the rows in which both countries
    are present; rows of larger percentage come first.  The journey types
    and the booking sources have one entry for each value that occurs, with
    the rounded share of the rows in which the value is present. *)
Theorem travel_details_entries kind (df : DataFrame) (d : Travel.t)
  (df' : DataFrame) :
  sort_contract kind ->
  analyze_travel_details kind df = (inr d, df') ->
  let routes := map route_key (rows df) in
  let journeys := map Journey_Type_ID (rows df) in
  let sources := map booking_system_source_type (rows df) in
  (List.length (Travel.top_routes d) <= 10)%nat /\
  NoDup (map (fun t => (Travel.Origin_Country t, Travel.Destination_Country t))
           (Travel.top_routes d)) /\
  Forall (fun t =>
            let pair := (Travel.Origin_Country t, Travel.Destination_Country t) in
            In (Some pair) routes /\
            Travel.route_count t = occurrences pair routes /\
            Travel.route_percentage t =
              round2 (pct (of_int (occurrences pair routes))
                        (of_int (present routes))))
    (Travel.top_routes d) /\
  StronglySorted
    (fun a b =>
       fleb (Travel.route_percentage b) (Travel.route_percentage a) = true)
    (Travel.top_routes d) /\
  NoDup (map fst (Travel.journey_types d)) /\
  (forall c p, In (c, p) (Travel.journey_types d) <->
     In (Some c) journeys /\
     p = round2 (pct (of_int (occurrences c journeys))
                   (of_int (present journeys)))) /\
  NoDup (map fst (Travel.booking_sources d)) /\
  (forall c p, In (c, p) (Travel.booking_sources d) <->
     In (Some c) sources /\
     p = round2 (pct (of_int (occurrences c sources))
                   (of_int (present sources)))).
Proof.
  intros Hk E routes journeys sources.
  pose proof (analyze_travel_details_routes kind df d df' E) as R.
  pose proof (analyze_travel_details_returns kind df d df' E) as [J S].
  cbv zeta in R. rewrite total_group_sizes in R. fold routes in R.
  rewrite <- present_length in R.
  rewrite (total_value_counts kind _ _ Hk) in J.
  rewrite (total_value_counts kind _ _ Hk) in S.
  rewrite <- present_length in J, S. fold journeys in J. fold sources in S.
  set (row := fun p : string * string * Z =>
                {| Travel.Origin_Country := fst (fst p);
                   Travel.Destination_Country := snd (fst p);
                   Travel.route_count := snd p;
                   Travel.route_percentage :=
                     round2 (pct (of_int (snd p)) (of_int (present routes))) |})
    in *.
  set (ranked := sort_values_desc kind Travel.route_percentage
                   (map row (group_sizes routes))) in *.
  assert (P : Permutation ranked (map row (group_sizes routes)))
    by (apply sort_values_desc_perm; exact Hk).
  assert (Key_of : forall p,
             (Travel.Origin_Country (row p), Travel.Destination_Country (row p))
             = fst p).
  { intros [[o t] n]. reflexivity. }
  assert (ND : NoDup (map (fun t => (Travel.Origin_Country t,
                                     Travel.Destination_Country t)) ranked)).
  { eapply Permutation_NoDup;
      [ apply Permutation_map; apply Permutation_sym; exact P | ].
    rewrite map_map. rewrite (map_ext _ fst Key_of).
    apply group_sizes_keys. }
  assert (EN : forall t, In t ranked ->
             let pair := (Travel.Origin_Country t, Travel.Destination_Country t) in
             In (Some pair) routes /\
             Travel.route_count t = occurrences pair routes /\
             Travel.route_percentage t =
               round2 (pct (of_int (occurrences pair routes))
                         (of_int (present routes)))).
  { intros t I. apply (Permutation_in _ P) in I. apply in_map_iff in I.
    destruct I as [[[o c] n] [<- I]]. cbn [row fst snd Travel.Origin_Country
      Travel.Destination_Country Travel.route_count Travel.route_percentage].
    apply (group_sizes_entry _ routes (o, c) n) in I. destruct I as [-> Pn].
    split; [ apply (proj1 (occurrences_positive _ (o, c) routes)); exact Pn | ].
    split; reflexivity. }
  assert (SS : StronglySorted
                 (fun a b => fleb (Travel.route_percentage b)
                               (Travel.route_percentage a) = true) ranked).
  { pose proof (sort_values_desc_ranked kind Hk _ Travel.route_percentage
                  (map row (group_sizes routes))) as Rk. fold ranked in Rk.
    rewrite <- (map_id ranked).
    eapply StronglySorted_map; [ | exact Rk ].
    intros a b Ia Ib [N | [_ L]]; [ | exact L ].
    exfalso. destruct (EN b Ib) as [In_b [_ Eb]]. cbv zeta in In_b.
    rewrite Eb in N.
    assert (NZ : present routes <> 0).
    { apply (proj2 (occurrences_positive _ _ routes)) in In_b.
      pose proof (occurrences_le _ (Travel.Origin_Country b,
                                    Travel.Destination_Country b) routes).
      unfold occurrences, present in *.
      pose proof (filter_length_le
                    (key_eqb (Travel.Origin_Country b,
                              Travel.Destination_Country b)) (dropna routes)).
      lia. }
    rewrite round2_finite in N; [ discriminate N | ].
    apply pct_of_int_finite. exact NZ. }
  rewrite R. unfold head.
  split; [ apply firstn_le_length | ].
  split.
  { rewrite <- firstn_map. apply NoDup_firstn. exact ND. }
  split.
  { apply Forall_forall. intros t I. apply EN. eapply firstn_in. exact I. }
  split.
  { rewrite <- (firstn_skipn 10 ranked) in SS.
    apply StronglySorted_split in SS. exact (proj1 SS). }
  rewrite J, S.
  split; [ apply value_counts_rounded_keys; exact Hk | ].
  split; [ intros c p; apply value_counts_rounded_entry; exact Hk | ].
  split; [ apply value_counts_rounded_keys; exact Hk | ].
  intros c p. apply value_counts_rounded_entry. exact Hk.
Qed.

Lemma travel_details_entries_witness :
  let df := merged_of wider_errands wider_orders in
  sort_contract insertion_kind /\
  exists d df',
    analyze_travel_details insertion_kind df = (inr d, df') /\
    map (fun t => (Travel.Origin_Country t, Travel.route_count t,
                   Travel.route_percentage t)) (Travel.top_routes d) =
      [("SE", 3, Fin 100)] /\
    (List.length (Travel.top_routes d) <= 10)%nat.
Proof.
  split; [ exact insertion_kind_contract | ].
  destruct (analyze_travel_details insertion_kind
              (merged_of wider_errands wider_orders)) as [[e|d] df'] eqn:E;
    [ vm_compute in E; discriminate E | ].
  exists d, df'. split; [ reflexivity | ].
  split.
  - vm_compute in E. injection E as <- _. reflexivity.
  - exact (proj1 (travel_details_entries insertion_kind _ d df'
                    insertion_kind_contract E)).
Defined.

(** ** Financial patterns *)

Lemma in_permuted (A : Type) (a : A) l l' :
  Permutation l l' -> (In a l <-> In a l').
Proof.
  intros P. split; apply Permutation_in; [ exact P | apply Permutation_sym; exact P ].
Qed.

Lemma combine_maps (A B C : Type) (f : A -> B) (g : A -> C) l :
  combine (map f l) (map g l) = map (fun a => (f a, g a)) l.
Proof. induction l as [|a l IH]; cbn; [ reflexivity | rewrite IH; reflexivity ]. Qed.

Lemma filter_of_map (A B : Type) (h : A -> B) (P : B -> bool) l :
  filter P (map h l) = map h (filter (fun a => P (h a)) l).
Proof.
  induction l as [|a l IH]; cbn; [ reflexivity | ].
  destruct (P (h a)); cbn; rewrite IH; reflexivity.
Qed.

Lemma analyze_financial_patterns_revenue kind df d df' :
  analyze_financial_patterns kind df = (inr d, df') ->
  let by_group :=
    grouped_sum (combine (map Customer_Group_Type (rows df))
                   (map Revenue (rows df))) in
  Financial.revenue_dist d =
  sort_values_desc kind (fun p => snd p)
    (percent_of by_group (fsum (values by_group))).
Proof.
  unfold analyze_financial_patterns. run.
  destruct (has_column "Customer_Group_Type" df); [ | discriminate ].
  run. destruct (has_column "Revenue" df); [ | discriminate ].
  run. unfold ret. intros E. injection E as <- _. reflexivity.
Qed.

Lemma grouped_sum_rows (df : DataFrame) :
  grouped_sum (combine (map Customer_Group_Type (rows df))
                 (map Revenue (rows df))) =
  map (fun c =>
         (c, fsum (map Revenue
                     (filter (fun r => eq_str c (Customer_Group_Type r))
                        (rows df)))))
    (map fst (group_sizes (map Customer_Group_Type (rows df)))).
Proof.
  unfold grouped_sum. rewrite combine_maps.
  replace (map fst (map (fun a => (Customer_Group_Type a, Revenue a)) (rows df)))
    with (map Customer_Group_Type (rows df))
    by (rewrite map_map; reflexivity).
  apply map_ext. intros c. f_equal. f_equal.
  rewrite (filter_of_map _ _ (fun a => (Customer_Group_Type a, Revenue a))
             (fun p => eq_str c (fst p))).
  rewrite map_map. reflexivity.
Qed.

Lemma percent_of_float_keys (K : Type) (s : Series K float) B :
  map fst (percent_of s B) = map fst s.
Proof. unfold percent_of. rewrite map_map. reflexivity. Qed.

Lemma group_keys_present (K : Type) `{Key K} (cells : list (option K)) (c : K) :
  In c (map fst (group_sizes cells)) <-> In (Some c) cells.
Proof.
  rewrite in_map_iff. split.
  - intros [[k n] [E I]]. cbn [fst] in E. subst k.
    apply (group_sizes_entry _ cells c n) in I. destruct I as [-> P].
    apply (proj1 (occurrences_positive _ c cells)). exact P.
  - intros I. exists (c, occurrences c cells). split; [ reflexivity | ].
    apply (group_sizes_entry _ cells c _). split; [ reflexivity | ].
    apply (proj2 (occurrences_positive _ c cells)). exact I.
Qed.

Lemma value_counts_keys_present kind (K : Type) `{Key K}
  (cells : list (option K)) (c : K) :
  sort_contract kind ->
  (In c (map fst (value_counts kind cells)) <-> In (Some c) cells).
Proof.
  intros Hk. rewrite in_map_iff. split.
  - intros [[k n] [E I]]. cbn [fst] in E. subst k.
    apply (value_counts_entry _ kind cells c n Hk) in I. destruct I as [-> P].
    apply (proj1 (occurrences_positive _ c cells)). exact P.
  - intros I. exists (c, occurrences c cells). split; [ reflexivity | ].
    apply (value_counts_entry _ kind cells c _ Hk). split; [ reflexivity | ].
    apply (proj2 (occurrences_positive _ c cells)). exact I.
Qed.

(** X10.  The two distributions of [analyze_financial_patterns] report the
    same customer groups, each once: the groups that occur in the merged
    table.  The contact percentage of a group is its number of rows over the
    rows that have a group; its revenue percentage is the sum of its
    [Revenue] cells, missing cells skipped, over the sum of the group
    sums. *)
Theorem financial_groups kind (df : DataFrame) (d : Financial.t)
  (df' : DataFrame) :
  sort_contract kind ->
  analyze_financial_patterns kind df = (inr d, df') ->
  let groups := map Customer_Group_Type (rows df) in
  let by_group := grouped_sum (combine groups (map Revenue (rows df))) in
  NoDup (map fst (Financial.contact_dist d)) /\
  NoDup (map fst (Financial.revenue_dist d)) /\
  Permutation (map fst (Financial.revenue_dist d))
    (map fst (Financial.contact_dist d)) /\
  (forall c p, In (c, p) (Financial.contact_dist d) <->
     In (Some c) groups /\
     p = pct (of_int (occurrences c groups)) (of_int (present groups))) /\
  (forall c p, In (c, p) (Financial.revenue_dist d) <->
     In (Some c) groups /\
     p = pct (fsum (map Revenue
                      (filter (fun r => eq_str c (Customer_Group_Type r))
                         (rows df))))
           (fsum (values by_group))).
Proof.
  intros Hk E groups by_group.
  pose proof (analyze_financial_patterns_revenue kind df d df' E) as R.
  pose proof (analyze_financial_patterns_returns kind df d df' E) as C.
  cbv zeta in R, C. fold groups in R, C. fold by_group in R.
  rewrite (total_value_counts kind _ _ Hk) in C.
  rewrite <- present_length in C.
  assert (PC : Permutation (Financial.contact_dist d)
                 (percent_of (to_float (value_counts kind groups))
                    (of_int (present groups)))).
  { rewrite C. apply sort_values_desc_perm. exact Hk. }
  assert (PR : Permutation (Financial.revenue_dist d)
                 (percent_of by_group (fsum (values by_group)))).
  { rewrite R. apply sort_values_desc_perm. exact Hk. }
  assert (KC : NoDup (map fst (Financial.contact_dist d))).
  { eapply Permutation_NoDup;
      [ apply Permutation_map; apply Permutation_sym; exact PC | ].
    rewrite percent_of_keys. apply value_counts_keys. exact Hk. }
  assert (BG : map fst by_group = map fst (group_sizes groups)).
  { unfold by_group, groups. rewrite grouped_sum_rows, map_map. cbn [fst].
    rewrite map_id. reflexivity. }
  assert (KR : NoDup (map fst (Financial.revenue_dist d))).
  { eapply Permutation_NoDup;
      [ apply Permutation_map; apply Permutation_sym; exact PR | ].
    rewrite percent_of_float_keys, BG. apply group_sizes_keys. }
  split; [ exact KC | ]. split; [ exact KR | ]. split; [ | split ].
  - apply NoDup_Permutation; [ exact KR | exact KC | ].
    intros c.
    rewrite (in_permuted _ c _ _ (Permutation_map fst PR)).
    rewrite (in_permuted _ c _ _ (Permutation_map fst PC)).
    rewrite percent_of_float_keys, percent_of_keys, BG.
    rewrite group_keys_present, (value_counts_keys_present kind _ _ _ Hk).
    reflexivity.
  - intros c p.
    rewrite (in_permuted _ (c, p) _ _ PC).
    rewrite percent_of_entry. split.
    + intros [n [I ->]].
      apply (value_counts_entry _ kind groups c n Hk) in I.
      destruct I as [-> P]. split; [ | reflexivity ].
      apply (proj1 (occurrences_positive _ c groups)). exact P.
    + intros [I ->]. exists (occurrences c groups). split; [ | reflexivity ].
      apply (value_counts_entry _ kind groups c _ Hk). split; [ reflexivity | ].
      apply (proj2 (occurrences_positive _ c groups)). exact I.
  - intros c p.
    rewrite (in_permuted _ (c, p) _ _ PR).
    assert (IB : forall x, In (c, x) by_group <->
                 In (Some c) groups /\
                 x = fsum (map Revenue
                             (filter (fun r => eq_str c (Customer_Group_Type r))
                                (rows df)))).
    { intros x. unfold by_group, groups. rewrite grouped_sum_rows, in_map_iff.
      split.
      - intros [c' [Ec I]]. injection Ec as -> <-.
        split; [ apply (proj1 (group_keys_present _ _ c)); exact I
               | reflexivity ].
      - intros [I ->]. exists c. split; [ reflexivity | ].
        apply (proj2 (group_keys_present _ _ c)). exact I. }
    unfold percent_of. rewrite in_map_iff. split.
    + intros [[c' x] [Ep I]]. cbn [fst snd] in Ep. injection Ep as -> <-.
      apply IB in I. destruct I as [I ->]. split; [ exact I | reflexivity ].
    + intros [I ->]. eexists (c, _). split; [ reflexivity | ].
      apply IB. split; [ exact I | reflexivity ].
Qed.

Lemma financial_groups_witness :
  let df := merged_of wider_errands wider_orders in
  sort_contract insertion_kind /\
  exists d df',
    analyze_financial_patterns insertion_kind df = (inr d, df') /\
    Financial.revenue_dist d = [("STANDARD", Fin 100)] /\
    Permutation (map fst (Financial.revenue_dist d))
      (map fst (Financial.contact_dist d)).
Proof.
  split; [ exact insertion_kind_contract | ].
  destruct (analyze_financial_patterns insertion_kind
              (merged_of wider_errands wider_orders)) as [[e|d] df'] eqn:E;
    [ vm_compute in E; discriminate E | ].
  exists d, df'. split; [ reflexivity | ]. split.
  - vm_compute in E. injection E as <- _. reflexivity.
  - exact (proj1 (proj2 (proj2 (financial_groups insertion_kind _ d df'
                                  insertion_kind_contract E)))).
Defined.

(** ** Revenue percentages *)








(** ** Time patterns *)

Lemma analyze_time_patterns_result kind df d df' :
  analyze_time_patterns kind df = (inr d, df') ->
  let stamps := map errand_created_at (rows df) in
  let daily := resample_daily stamps in
  let days := day_sizes (map day_name stamps) in
  let hours := group_sizes (map (fun t => Some (hour t)) stamps) in
  Time.daily_trend d = percent_of (to_float daily) (of_int (total daily)) /\
  Time.day_of_week d =
    round_2 (percent_of (to_float days) (of_int (total days))) /\
  Time.hour_of_day d =
    round_2 (percent_of (to_float hours) (of_int (total hours))) /\
  Time.top_days d = top_n kind 2 (Time.daily_trend d) /\
  Time.top_weekdays d = top_n kind 2 (Time.day_of_week d) /\
  Time.top_hours d = top_n kind 5 (Time.hour_of_day d).
Proof.
  unfold analyze_time_patterns. run.
  destruct (has_column "errand_created_at" df); [ | run; discriminate ].
  steps. unfold ret. intros E. injection E as <- _.
  cbn [Time.daily_trend Time.day_of_week Time.hour_of_day Time.top_days
       Time.top_weekdays Time.top_hours rows frame_set].
  rewrite !map_map. cbn. repeat split.
Qed.

Lemma fold_min_in d ds : In (fold_right Z.min d ds) (d :: ds).
Proof.
  induction ds as [|x ds IH]; cbn [fold_right]; [ left; reflexivity | ].
  destruct (Z.min_spec x (fold_right Z.min d ds)) as [[_ E] | [_ E]];
    rewrite E.
  - right. left. reflexivity.
  - destruct IH as [I | I]; [ left; exact I | right; right; exact I ].
Qed.

Lemma fold_max_in d ds : In (fold_right Z.max d ds) (d :: ds).
Proof.
  induction ds as [|x ds IH]; cbn [fold_right]; [ left; reflexivity | ].
  destruct (Z.max_spec x (fold_right Z.max d ds)) as [[_ E] | [_ E]];
    rewrite E.
  - destruct IH as [I | I]; [ left; exact I | right; right; exact I ].
  - right. left. reflexivity.
Qed.

Lemma fold_min_lower d ds :
  Forall (fun x => fold_right Z.min d ds <= x) (d :: ds).
Proof.
  induction ds as [|x ds IH]; cbn [fold_right].
  - constructor; [ lia | constructor ].
  - inversion IH as [|? ? Hd Hds]; subst.
    constructor; [ lia | ]. constructor; [ lia | ].
    eapply Forall_impl; [ | exact Hds ]. cbv beta. intros a Ha. lia.
Qed.

Lemma fold_max_upper d ds :
  Forall (fun x => x <= fold_right Z.max d ds) (d :: ds).
Proof.
  induction ds as [|x ds IH]; cbn [fold_right].
  - constructor; [ lia | constructor ].
  - inversion IH as [|? ? Hd Hds]; subst.
    constructor; [ lia | ]. constructor; [ lia | ].
    eapply Forall_impl; [ | exact Hds ]. cbv beta. intros a Ha. lia.
Qed.

Lemma range_in lo hi x : In x (range lo hi) <-> lo <= x <= hi.
Proof.
  unfold range. rewrite in_map_iff. split.
  - intros [i [<- I]]. apply in_seq in I. lia.
  - intros B. exists (Z.to_nat (x - lo)). split; [ lia | ].
    apply in_seq. lia.
Qed.

Lemma range_NoDup lo hi : NoDup (range lo hi).
Proof.
  unfold range.
  generalize (Z.to_nat (hi - lo + 1)) as n. intros n.
  generalize 0%nat as s. induction n as [|n IH]; intros s; cbn [seq map].
  - constructor.
  - constructor; [ | apply IH ].
    rewrite in_map_iff. intros [i [E I]]. apply in_seq in I. lia.
Qed.

Lemma range_length lo hi : List.length (range lo hi) = Z.to_nat (hi - lo + 1).
Proof. unfold range. rewrite length_map, length_seq. reflexivity. Qed.

Lemma count_of_cons x d l :
  count_of x (d :: l) = (if x =? d then 1 else 0) + count_of x l.
Proof.
  unfold count_of. cbn [filter]. destruct (x =? d); cbn [List.length]; lia.
Qed.

Lemma indicator_sum d l :
  NoDup l -> In d l ->
  fold_right Z.add 0 (map (fun x => if x =? d then 1 else 0) l) = 1.
Proof.
  induction 1 as [|a l Na N IH]; cbn [In map fold_right]; [ tauto | ].
  intros [-> | I].
  - rewrite Z.eqb_refl.
    assert (Z0 : fold_right Z.add 0
                   (map (fun x => if x =? d then 1 else 0) l) = 0).
    { clear IH N. induction l as [|b l IHl]; [ reflexivity | ].
      cbn [map fold_right].
      destruct (b =? d) eqn:E;
        [ apply Z.eqb_eq in E; subst b; destruct Na; left; reflexivity | ].
      rewrite IHl; [ reflexivity | ]. intros I. apply Na. right. exact I. }
    rewrite Z0. reflexivity.
  - destruct (a =? d) eqn:E;
      [ apply Z.eqb_eq in E; subst a; destruct (Na I) | ].
    rewrite (IH I). reflexivity.
Qed.

Lemma total_counts_in_range keys l :
  NoDup keys -> Forall (fun d => In d keys) l ->
  total (map (fun x => (x, count_of x l)) keys) = Z.of_nat (List.length l).
Proof.
  intros N F. unfold total. rewrite map_map. cbn [snd].
  induction F as [|d l Hd F IH].
  - cbn [List.length]. induction keys as [|k keys IHk]; [ reflexivity | ].
    cbn [map fold_right]. inversion N; subst. rewrite IHk by assumption.
    reflexivity.
  - rewrite (map_ext _ (fun x => (if x =? d then 1 else 0) + count_of x l)
               (fun x => count_of_cons x d l)).
    assert (S : forall (f g : Z -> Z) ks,
               fold_right Z.add 0 (map (fun x => f x + g x) ks) =
               fold_right Z.add 0 (map f ks) + fold_right Z.add 0 (map g ks)).
    { intros f g ks. induction ks as [|k ks IHk]; [ reflexivity | ].
      cbn [map fold_right]. rewrite IHk. lia. }
    rewrite S, IH, (indicator_sum d keys N Hd). cbn [List.length]. lia.
Qed.

Lemma resample_daily_spec ts :
  ts <> [] ->
  let days := map day_number ts in
  exists lo hi,
    In lo days /\ In hi days /\ Forall (fun x => lo <= x <= hi) days /\
    resample_daily ts = map (fun x => (x, count_of x days)) (range lo hi) /\
    total (resample_daily ts) = Z.of_nat (List.length ts).
Proof.
  intros Hne. cbv zeta. unfold resample_daily.
  destruct (map day_number ts) as [|d ds] eqn:E.
  - destruct ts; [ congruence | discriminate E ].
  - exists (fold_right Z.min d ds), (fold_right Z.max d ds).
    pose proof (fold_min_lower d ds) as L. pose proof (fold_max_upper d ds) as U.
    assert (B : Forall (fun x => fold_right Z.min d ds <= x
                                <= fold_right Z.max d ds) (d :: ds)).
    { rewrite Forall_forall in *. intros x I. split; [ apply L | apply U ];
        exact I. }
    split; [ apply fold_min_in | ]. split; [ apply fold_max_in | ].
    split; [ exact B | ]. split; [ reflexivity | ].
    rewrite total_counts_in_range.
    + rewrite <- E, length_map. reflexivity.
    + apply range_NoDup.
    + eapply Forall_impl; [ | exact B ]. cbv beta. intros x Hx.
      apply range_in. exact Hx.
Qed.

(** X12.  The daily trend covers the calendar: it has one entry for every
    day from the day of the first contact to the day of the last one, in
    order and without gaps, so a day without contacts is listed with 0.  The
    entry of a day is the number of contacts of that day as a percentage of
    all rows. *)
Theorem daily_trend_calendar kind (df : DataFrame) (d : Time.t)
  (df' : DataFrame) :
  analyze_time_patterns kind df = (inr d, df') ->
  rows df <> [] ->
  let days := map (fun r => day_number (errand_created_at r)) (rows df) in
  exists lo hi,
    In lo days /\ In hi days /\ Forall (fun x => lo <= x <= hi) days /\
    map fst (Time.daily_trend d) = range lo hi /\
    List.length (Time.daily_trend d) = Z.to_nat (hi - lo + 1) /\
    (forall x p, In (x, p) (Time.daily_trend d) <->
       lo <= x <= hi /\
       p = pct (of_int (count_of x days)) (of_int (len df))) /\
    (forall x, lo <= x <= hi -> ~ In x days ->
       In (x, Fin 0) (Time.daily_trend d)).
Proof.
  intros E Hr days.
  destruct (analyze_time_patterns_result kind df d df' E) as [D _].
  assert (Hne : map errand_created_at (rows df) <> []).
  { destruct (rows df); [ congruence | discriminate ]. }
  destruct (resample_daily_spec _ Hne) as (lo & hi & Ilo & Ihi & B & R & T).
  cbv zeta in Ilo, Ihi, B, R. rewrite map_map in Ilo, Ihi, B, R.
  fold days in Ilo, Ihi, B, R.
  rewrite T, length_map in D. fold (len df) in D. rewrite R in D.
  assert (IN : forall x p, In (x, p) (Time.daily_trend d) <->
                 lo <= x <= hi /\
                 p = pct (of_int (count_of x days)) (of_int (len df))).
  { intros x p. rewrite D, percent_of_entry. split.
    - intros [n [I ->]]. apply in_map_iff in I.
      destruct I as [y [Ey Iy]]. injection Ey as -> <-.
      split; [ apply range_in; exact Iy | reflexivity ].
    - intros [Bx ->]. eexists. split; [ | reflexivity ].
      apply in_map_iff. exists x. split; [ reflexivity | ].
      apply range_in. exact Bx. }
  exists lo, hi. split; [ exact Ilo | ]. split; [ exact Ihi | ].
  split; [ exact B | ].
  split; [ rewrite D, percent_of_keys, map_map; cbn [fst]; apply map_id | ].
  split.
  { rewrite D. unfold percent_of, to_float. rewrite !length_map.
    apply range_length. }
  split; [ exact IN | ].
  intros x Bx Nx. apply IN. split; [ exact Bx | ].
  assert (Z0 : count_of x days = 0).
  { unfold count_of.
    assert (F : filter (Z.eqb x) days = []).
    { destruct (filter (Z.eqb x) days) as [|y l] eqn:Fl; [ reflexivity | ].
      assert (I : In y (filter (Z.eqb x) days)) by (rewrite Fl; left; reflexivity).
      apply filter_In in I. destruct I as [I Ex]. apply Z.eqb_eq in Ex.
      subst y. destruct (Nx I). }
    rewrite F. reflexivity. }
  rewrite Z0. rewrite pct_of_int by (apply len_nonzero; exact Hr).
  reflexivity.
Qed.

Lemma daily_trend_calendar_witness :
  let df := merged_of scenario_errands scenario_orders in
  exists d df',
    analyze_time_patterns insertion_kind df = (inr d, df') /\
    rows df <> [] /\
    Time.daily_trend d =
      [ (19723, Fin (100 # 3)); (19724, Fin 0); (19725, Fin (200 # 3)) ] /\
    List.length (Time.daily_trend d) = 3%nat.
Proof.
  cbv zeta.
  destruct (analyze_time_patterns insertion_kind
              (merged_of scenario_errands scenario_orders))
    as [[e|d] df'] eqn:E; [ vm_compute in E; discriminate E | ].
  assert (Hr : rows (merged_of scenario_errands scenario_orders) <> [])
    by discriminate.
  exists d, df'. split; [ reflexivity | ]. split; [ exact Hr | ].
  destruct (daily_trend_calendar insertion_kind _ d df' E Hr)
    as (lo & hi & _ & _ & _ & _ & L & _).
  vm_compute in E. injection E as <- _.
  split; reflexivity.
Defined.

(** ** The shape of the time patterns *)

Section SortTotal.

Variables (A : Type) (le : A -> A -> bool).
Hypothesis le_total : forall a b, le a b = true \/ le b a = true.
Hypothesis le_trans :
  forall a b c, le a b = true -> le b c = true -> le a c = true.

Lemma insert_by_sorted_total x l :
  StronglySorted (fun a b => le a b = true) l ->
  StronglySorted (fun a b => le a b = true) (insert_by le x l).
Proof.
  induction 1 as [|y r S IH F]; cbn [insert_by].
  - constructor; constructor.
  - destruct (le x y) eqn:E.
    + constructor; [ constructor; assumption | ].
      constructor; [ exact E | ].
      eapply Forall_impl; [ | exact F ]. cbv beta. intros z Hz.
      eapply le_trans; eassumption.
    + constructor; [ exact IH | ].
      apply Forall_forall. intros z Iz.
      apply (Permutation_in _ (insert_by_permutation _ le x r)) in Iz.
      destruct Iz as [<- | Iz].
      * destruct (le_total x y) as [T | T]; [ congruence | exact T ].
      * rewrite Forall_forall in F. apply F. exact Iz.
Qed.

Lemma sort_by_sorted_total l :
  StronglySorted (fun a b => le a b = true) (sort_by le l).
Proof.
  induction l as [|x l IH]; cbn [sort_by fold_right]; [ constructor | ].
  apply insert_by_sorted_total. exact IH.
Qed.

End SortTotal.

Lemma group_sizes_ascending (cells : list (option Z)) :
  StronglySorted Z.lt (map fst (group_sizes cells)).
Proof.
  pose proof (group_sizes_keys _ cells) as N.
  assert (S : StronglySorted Z.le (map fst (group_sizes cells))).
  { unfold group_sizes, sort_index.
    eapply StronglySorted_map;
      [ | apply (sort_by_sorted_total (Z * Z)
                   (fun p q => key_leb (fst p) (fst q))) ].
    - intros a b _ _ L. cbn in L. apply Z.leb_le. exact L.
    - intros a b. cbn. rewrite !Z.leb_le. lia.
    - intros a b c. cbn. rewrite !Z.leb_le. lia. }
  revert N S. generalize (map fst (group_sizes cells)) as ks.
  induction ks as [|k ks IH]; intros N S; [ constructor | ].
  inversion N as [|? ? Nk N']; inversion S as [|? ? S' F]; subst.
  constructor; [ apply IH; assumption | ].
  apply Forall_forall. intros x Ix. rewrite Forall_forall in F.
  specialize (F x Ix).
  assert (x <> k) by (intros ->; exact (Nk Ix)). lia.
Qed.

Lemma hour_range t : 0 <= hour t <= 23.
Proof.
  unfold hour. pose proof (Z.mod_pos_bound t 86400 ltac:(lia)) as B.
  split.
  - apply Z.div_pos; lia.
  - assert (t mod 86400 / 3600 < 24); [ | lia ].
    apply Z.div_lt_upper_bound; lia.
Qed.

Lemma top_n_included kind (K : Type) n (s : Series K float) :
  sort_contract kind -> incl (top_n kind n s) s.
Proof.
  intros Hk p I. unfold top_n, head in I. apply firstn_in in I.
  apply (Permutation_in _
           (sort_values_desc_perm kind Hk _ (fun p => snd p) s)). exact I.
Qed.

Lemma top_n_length kind (K : Type) n (s : Series K float) :
  sort_contract kind ->
  List.length (top_n kind n s) = Nat.min n (List.length s).
Proof.
  intros Hk. unfold top_n, head. rewrite length_firstn.
  rewrite (Permutation_length
             (sort_values_desc_perm kind Hk _ (fun p => snd p) s)).
  reflexivity.
Qed.

Lemma day_sizes_entry l x n :
  In (x, n) (day_sizes l) <->
  n = Z.of_nat (List.length (filter (key_eqb x) l)).
Proof.
  unfold day_sizes. rewrite in_map_iff. split.
  - intros [y [E _]]. injection E as -> <-. reflexivity.
  - intros ->. exists x. split; [ reflexivity | ].
    destruct x; cbn; tauto.
Qed.

(** X13.  The shape of the time patterns.  The day-of-week distribution
    always has the seven days from Monday to Sunday, observed or not, so the
    top weekdays are always two; the entry of a day is the rounded share of
    the rows created on that day of the week.  The hour distribution lists
    the hours that occur, in strictly ascending order and between 0 and 23,
    each with the rounded share of its rows.  Each top list is taken from
    its distribution and has at most 2, 2 and 5 entries. *)
Theorem time_patterns_shape kind (df : DataFrame) (d : Time.t)
  (df' : DataFrame) :
  sort_contract kind ->
  analyze_time_patterns kind df = (inr d, df') ->
  let stamps := map errand_created_at (rows df) in
  map fst (Time.day_of_week d) = day_order /\
  (forall x p, In (x, p) (Time.day_of_week d) <->
     p = round2 (pct (of_int (Z.of_nat
                                (List.length
                                   (filter (key_eqb x) (map day_name stamps)))))
                   (of_int (len df)))) /\
  StronglySorted Z.lt (map fst (Time.hour_of_day d)) /\
  Forall (fun h => 0 <= h <= 23) (map fst (Time.hour_of_day d)) /\
  (forall h p, In (h, p) (Time.hour_of_day d) <->
     In h (map hour stamps) /\
     p = round2 (pct (of_int (count_of h (map hour stamps)))
                   (of_int (len df)))) /\
  List.length (Time.top_weekdays d) = 2%nat /\
  (List.length (Time.top_days d) <= 2)%nat /\
  (List.length (Time.top_hours d) <= 5)%nat /\
  incl (Time.top_days d) (Time.daily_trend d) /\
  incl (Time.top_weekdays d) (Time.day_of_week d) /\
  incl (Time.top_hours d) (Time.hour_of_day d).
Proof.
  intros Hk E stamps.
  destruct (analyze_time_patterns_result kind df d df' E)
    as (_ & W & H & TD & TW & TH).
  cbv zeta in W, H. fold stamps in W, H.
  rewrite total_day_sizes, length_map in W.
  rewrite total_group_sizes, dropna_map_present, length_map in H.
  unfold stamps in W at 2. unfold stamps in H at 2.
  rewrite length_map in W, H. fold (len df) in W, H.
  assert (KW : map fst (Time.day_of_week d) = day_order).
  { rewrite W, round_2_keys, percent_of_keys. unfold day_sizes.
    rewrite map_map. cbn [fst]. apply map_id. }
  assert (HK : map fst (Time.hour_of_day d) =
               map fst (group_sizes (map (fun t => Some (hour t)) stamps))).
  { rewrite H, round_2_keys, percent_of_keys. reflexivity. }
  split; [ exact KW | ]. split.
  { intros x p. rewrite W, round_2_entry. split.
    - intros [y [I ->]]. apply percent_of_entry in I.
      destruct I as [n [I ->]]. apply day_sizes_entry in I. subst n.
      reflexivity.
    - intros ->. eexists. split; [ | reflexivity ].
      apply percent_of_entry. eexists. split; [ | reflexivity ].
      apply day_sizes_entry. reflexivity. }
  split; [ rewrite HK; apply group_sizes_ascending | ].
  assert (IH : forall h p, In (h, p) (Time.hour_of_day d) <->
                 In h (map hour stamps) /\
                 p = round2 (pct (of_int (count_of h (map hour stamps)))
                               (of_int (len df)))).
  { intros h p. rewrite H, round_2_entry.
    assert (O : occurrences h (map (fun t => Some (hour t)) stamps) =
                count_of h (map hour stamps)).
    { unfold occurrences, count_of. rewrite dropna_map_present. reflexivity. }
    assert (I_iff : In (Some h) (map (fun t => Some (hour t)) stamps) <->
                    In h (map hour stamps)).
    { rewrite !in_map_iff. split; intros [t [Et It]]; exists t;
        (split; [ congruence | exact It ]). }
    split.
    - intros [y [I ->]]. apply percent_of_entry in I.
      destruct I as [n [I ->]].
      apply (group_sizes_entry _ _ h n) in I. destruct I as [-> P].
      apply (proj1 (occurrences_positive _ h _)) in P.
      rewrite O. split; [ apply I_iff; exact P | reflexivity ].
    - intros [I ->]. eexists. split; [ | reflexivity ].
      apply percent_of_entry. exists (count_of h (map hour stamps)).
      split; [ | reflexivity ].
      apply (group_sizes_entry _ _ h _). rewrite O.
      split; [ reflexivity | ].
      rewrite <- O. apply (proj2 (occurrences_positive _ h _)).
      apply I_iff. exact I. }
  split.
  { apply Forall_forall. intros h Ih. apply in_map_iff in Ih.
    destruct Ih as [[h' p] [<- I]]. cbn [fst]. apply IH in I.
    destruct I as [I _]. apply in_map_iff in I. destruct I as [t [<- _]].
    apply hour_range. }
  split; [ exact IH | ].
  split.
  { rewrite TW, (top_n_length kind _ _ _ Hk).
    rewrite <- (length_map fst), KW. reflexivity. }
  split; [ rewrite TD, (top_n_length kind _ _ _ Hk); lia | ].
  split; [ rewrite TH, (top_n_length kind _ _ _ Hk); lia | ].
  split; [ rewrite TD; apply top_n_included; exact Hk | ].
  split; [ rewrite TW; apply top_n_included; exact Hk | ].
  rewrite TH. apply top_n_included. exact Hk.
Qed.

Lemma time_patterns_shape_witness :
  let df := merged_of scenario_errands scenario_orders in
  sort_contract insertion_kind /\
  exists d df',
    analyze_time_patterns insertion_kind df = (inr d, df') /\
    map fst (Time.hour_of_day d) = [9; 14; 15] /\
    map fst (Time.day_of_week d) = day_order.
Proof.
  split; [ exact insertion_kind_contract | ].
  destruct (analyze_time_patterns insertion_kind
              (merged_of scenario_errands scenario_orders))
    as [[e|d] df'] eqn:E; [ vm_compute in E; discriminate E | ].
  exists d, df'. split; [ reflexivity | ].
  split.
  - vm_compute in E. injection E as <- _. reflexivity.
  - exact (proj1 (time_patterns_shape insertion_kind _ d df'
                    insertion_kind_contract E)).
Defined.

(** ** Cancellations and changes *)

Lemma analyze_cancellations_leaves kind df :
  snd (analyze_cancellations kind df) =
  if has_column "Is_Canceled" df && has_column "cancel_reason" df
  then cancel_update df else df.
Proof.
  unfold analyze_cancellations. run.
  destruct (has_column "Is_Canceled" df); [ | reflexivity ].
  run. destruct (has_column "cancel_reason" df); [ | reflexivity ].
  run. rewrite flagged_distribution_frame. reflexivity.
Qed.

Lemma analyze_changes_leaves kind df :
  snd (analyze_changes kind df) =
  if has_column "Is_Changed" df && has_column "change_reason" df
  then change_update df else df.
Proof.
  unfold analyze_changes. run.
  destruct (has_column "Is_Changed" df); [ | reflexivity ].
  run. destruct (has_column "change_reason" df); [ | reflexivity ].
  run. rewrite flagged_distribution_frame. reflexivity.
Qed.

Lemma updates_commute df :
  cancel_update (change_update df) = change_update (cancel_update df).
Proof.
  unfold cancel_update, change_update. cbn [columns rows]. f_equal.
  rewrite !map_map. apply map_ext. intros r.
  destruct (change_mask r) eqn:C, (cancel_mask r) eqn:K;
    cbn [cancel_mask change_mask with_Is_Canceled with_Is_Changed
         Is_Canceled Is_Changed cancel_reason change_reason];
    unfold cancel_mask, change_mask in *; cbn in *; rewrite ?C, ?K;
    reflexivity.
Qed.

(** X14.  The two flag analyses commute.  Each returns the same result
    whether or not the other has run before it, and the table that both
    leave does not depend on which runs first. *)
Theorem flag_analyses_commute kind (df : DataFrame) :
  fst (analyze_cancellations kind (snd (analyze_changes kind df))) =
    fst (analyze_cancellations kind df) /\
  fst (analyze_changes kind (snd (analyze_cancellations kind df))) =
    fst (analyze_changes kind df) /\
  snd (analyze_changes kind (snd (analyze_cancellations kind df))) =
    snd (analyze_cancellations kind (snd (analyze_changes kind df))).
Proof.
  split; [ | split ].
  - symmetry. apply analyze_cancellations_alike.
    apply analyze_changes_leaves_alike.
  - symmetry. apply analyze_changes_alike.
    apply analyze_cancellations_leaves_alike.
  - rewrite !analyze_cancellations_leaves, !analyze_changes_leaves.
    destruct (has_column "Is_Canceled" df) eqn:H1,
             (has_column "cancel_reason" df) eqn:H2,
             (has_column "Is_Changed" df) eqn:H3,
             (has_column "change_reason" df) eqn:H4;
      cbn [andb];
      rewrite ?has_column_after_cancel, ?has_column_after_change,
        ?H1, ?H2, ?H3, ?H4; cbn [andb];
      try reflexivity.
    symmetry. apply updates_commute.
Qed.

Lemma flagged_distribution_result kind flagged label reason df d df' :
  flagged_distribution kind flagged label reason df = (inr d, df') ->
  let base := of_int (len flagged) in
  Flagged.reasons d =
    round_2 (percent_of (to_float (value_counts kind (map reason (rows flagged))))
               base) /\
  Flagged.top_routes d =
    head 3 (sort_values_desc kind (fun p => snd p)
              (round_2 (percent_of
                          (to_float (group_sizes (map route_key (rows flagged))))
                          base))) /\
  Flagged.top_journey_types d =
    head 2 (sort_values_desc kind (fun p => snd p)
              (round_2 (percent_of
                          (to_float
                             (group_sizes (map Journey_Type_ID (rows flagged))))
                          base))).
Proof.
  unfold flagged_distribution. run.
  destruct (has_column label flagged); [ | discriminate ].
  run. rewrite route_sizes_frame.
  destruct (has_column "Origin_Country" flagged); [ | discriminate ].
  destruct (has_column "Destination_Country" flagged); [ | discriminate ].
  run. destruct (has_column "Journey_Type_ID" flagged); [ | discriminate ].
  run. unfold ret. intros E. injection E as <- _. repeat split.
Qed.








Lemma analyze_cancellations_flagged kind df d df' :
  analyze_cancellations kind df = (inr d, df') ->
  flagged_distribution kind
    (where_ (cancel_update df) (fun r => Is_Canceled r =? 1))
    "cancel_reason" cancel_reason (cancel_update df) = (inr d, df').
Proof.
  unfold analyze_cancellations. run.
  destruct (has_column "Is_Canceled" df); [ | discriminate ].
  run. destruct (has_column "cancel_reason" df); [ | discriminate ].
  run. intros E. exact E.
Qed.

Lemma analyze_changes_flagged kind df d df' :
  analyze_changes kind df = (inr d, df') ->
  flagged_distribution kind
    (where_ (change_update df) (fun r => Is_Changed r =? 1))
    "change_reason" change_reason (change_update df) = (inr d, df').
Proof.
  unfold analyze_changes. run.
  destruct (has_column "Is_Changed" df); [ | discriminate ].
  run. destruct (has_column "change_reason" df); [ | discriminate ].
  run. intros E. exact E.
Qed.



(** ** The action category of an action *)

Lemma before_split sep s :
  exists rest, s = before sep s ++ rest /\
               (rest = "" \/ exists r, rest = String sep r).
Proof.
  induction s as [|c s (rest & E & R)]; cbn [before].
  - exists "". split; [ reflexivity | left; reflexivity ].
  - destruct (Ascii.eqb c sep) eqn:C.
    + apply Ascii.eqb_eq in C. subst c. exists (String sep s).
      split; [ reflexivity | right; eauto ].
    + exists rest. split; [ cbn [append]; rewrite <- E; reflexivity | exact R ].
Qed.

Lemma before_free sep s : ~ In sep (list_ascii_of_string (before sep s)).
Proof.
  induction s as [|c s IH]; cbn [before]; [ intros [] | ].
  destruct (Ascii.eqb c sep) eqn:C; [ intros [] | ].
  cbn [list_ascii_of_string In]. intros [-> | I]; [ | exact (IH I) ].
  rewrite Ascii.eqb_refl in C. discriminate C.
Qed.

Lemma before_fixed sep s :
  ~ In sep (list_ascii_of_string s) -> before sep s = s.
Proof.
  induction s as [|c s IH]; cbn [before list_ascii_of_string In];
    [ reflexivity | ].
  intros N. destruct (Ascii.eqb c sep) eqn:C.
  - apply Ascii.eqb_eq in C. subst c. destruct N. left. reflexivity.
  - rewrite IH; [ reflexivity | ]. intros I. apply N. right. exact I.
Qed.

Lemma before_chars sep s c :
  In c (list_ascii_of_string (before sep s)) -> In c (list_ascii_of_string s).
Proof.
  induction s as [|x s IH]; cbn [before]; [ tauto | ].
  destruct (Ascii.eqb x sep); [ intros [] | ].
  cbn [list_ascii_of_string In]. intros [E | I]; [ left; exact E | ].
  right. apply IH. exact I.
Qed.

Lemma append_associative (a b c : string) : (a ++ b) ++ c = a ++ (b ++ c).
Proof.
  induction a as [|x a IH]; cbn [append]; [ reflexivity | ].
  rewrite IH. reflexivity.
Qed.

(** X16.  The action category of an action [a] is a prefix of [a] that
    contains neither [:] nor [.]; it is the longest such prefix, since what
    follows it in [a] is nothing or starts with one of the two delimiters;
    and it is its own category. *)
Theorem categorize_errand_action_properties (a : string) :
  exists c rest,
    categorize_errand_action (Some a) = Some c /\
    a = c ++ rest /\
    (rest = "" \/
     exists r, rest = String ":"%char r \/ rest = String "."%char r) /\
    ~ In ":"%char (list_ascii_of_string c) /\
    ~ In "."%char (list_ascii_of_string c) /\
    categorize_errand_action (Some c) = Some c.
Proof.
  destruct (before_split ":"%char a) as (r1 & E1 & R1).
  destruct (before_split "."%char (before ":"%char a)) as (r2 & E2 & R2).
  set (c := before "."%char (before ":"%char a)) in *.
  assert (Nc : ~ In ":"%char (list_ascii_of_string c)).
  { intros I. apply before_chars in I. exact (before_free _ _ I). }
  assert (Nd : ~ In "."%char (list_ascii_of_string c))
    by apply before_free.
  exists c, (r2 ++ r1). split; [ apply categorize_errand_action_prefix | ].
  split; [ rewrite <- append_associative, <- E2; exact E1 | ].
  split.
  - destruct R2 as [-> | [r ->]].
    + destruct R1 as [-> | [r ->]];
        [ left; reflexivity | right; exists r; left; reflexivity ].
    + right. exists (r ++ r1). right. reflexivity.
  - split; [ exact Nc | ]. split; [ exact Nd | ].
    rewrite categorize_errand_action_prefix.
    rewrite (before_fixed ":"%char c Nc), (before_fixed "."%char c Nd).
    reflexivity.
Qed.

(** ** Percentages stay between 0 and 100 *)

Lemma pct_percentage n B :
  0 <= n <= B -> 0 < B -> is_percentage (pct (of_int n) (of_int B)).
Proof.
  intros Hn HB. rewrite pct_of_int by lia. exists (exact_pct n B).
  split; [ reflexivity | ]. rewrite exact_pct_eq.
  assert (QB : (0 < inject_Z B)%Q).
  { change 0%Q with (inject_Z 0). rewrite <- Zlt_Qlt. exact HB. }
  split.
  - apply Qle_shift_div_l; [ exact QB | ]. rewrite Qmult_0_l.
    change 0%Q with (inject_Z 0 * 100)%Q.
    apply Qmult_le_compat_r; [ rewrite <- Zle_Qle; lia | discriminate ].
  - apply Qle_shift_div_r; [ exact QB | ].
    rewrite (Qmult_comm 100). apply Qmult_le_compat_r;
      [ rewrite <- Zle_Qle; lia | discriminate ].
Qed.

Lemma round2_percentage x : is_percentage x -> is_percentage (round2 x).
Proof.
  intros [q [-> [L U]]]. cbn [round2]. eexists. split; [ reflexivity | ].
  rewrite Qred_correct.
  pose proof (rint_bound (q * 100)) as B. apply Qabs_Qle_condition in B.
  destruct B as [B1 B2].
  assert (R0 : 0 <= rint (q * 100)).
  { assert (I : (- (1 # 2) <= inject_Z (rint (q * 100)))%Q).
    { apply Qle_trans with (q * 100 - (1 # 2))%Q.
      - apply Qle_trans with (0 * 100 - (1 # 2))%Q; [ discriminate | ].
        apply Qplus_le_compat; [ | apply Qle_refl ].
        apply Qmult_le_compat_r; [ exact L | discriminate ].
      - apply (Qplus_le_r _ _ (- (q * 100))).
        ring_simplify. ring_simplify in B1.
        eapply Qle_trans; [ | eapply Qle_trans; [ exact B1 | ] ];
          [ apply Qle_refl | ].
        ring_simplify. apply Qle_refl. }
    unfold Qle in I. cbn in I. lia. }
  assert (R1 : rint (q * 100) <= 10000).
  { assert (I : (inject_Z (rint (q * 100)) <= 10000 + (1 # 2))%Q).
    { apply Qle_trans with (q * 100 + (1 # 2))%Q.
      - apply (Qplus_le_r _ _ (- (q * 100))).
        ring_simplify. ring_simplify in B2.
        eapply Qle_trans; [ | eapply Qle_trans; [ exact B2 | ] ];
          [ ring_simplify; apply Qle_refl | apply Qle_refl ].
      - apply Qplus_le_compat; [ | apply Qle_refl ].
        change 10000%Q with (100 * 100)%Q.
        apply Qmult_le_compat_r; [ exact U | discriminate ]. }
    unfold Qle in I. cbn in I. lia. }
  split.
  - apply Qle_shift_div_l; [ reflexivity | ]. rewrite Qmult_0_l.
    change 0%Q with (inject_Z 0). rewrite <- Zle_Qle. exact R0.
  - apply Qle_shift_div_r; [ reflexivity | ].
    change (100 * 100)%Q with (inject_Z 10000). rewrite <- Zle_Qle. exact R1.
Qed.

Lemma percent_of_range (K : Type) (s : Series K Z) B :
  0 < B -> Forall (fun p => 0 <= snd p <= B) s ->
  Forall (fun p => is_percentage (snd p)) (percent_of (to_float s) (of_int B)).
Proof.
  intros HB F. unfold percent_of, to_float. rewrite map_map.
  apply Forall_forall. intros p I. apply in_map_iff in I.
  destruct I as [[k n] [<- I]]. cbn [fst snd].
  rewrite Forall_forall in F. apply pct_percentage; [ | exact HB ].
  exact (F _ I).
Qed.

Lemma round_2_range (K : Type) (s : Series K float) :
  Forall (fun p => is_percentage (snd p)) s ->
  Forall (fun p => is_percentage (snd p)) (round_2 s).
Proof.
  intros F. unfold round_2. apply Forall_forall. intros p I.
  apply in_map_iff in I. destruct I as [[k x] [<- I]]. cbn [fst snd].
  rewrite Forall_forall in F. apply round2_percentage. exact (F _ I).
Qed.

Lemma sorted_range kind (A : Type) (val : A -> float) (P : A -> Prop) l :
  sort_contract kind -> Forall P l -> Forall P (sort_values_desc kind val l).
Proof.
  intros Hk F. rewrite Forall_forall in *. intros a I. apply F.
  apply (Permutation_in _ (sort_values_desc_perm kind Hk _ val l)). exact I.
Qed.

Lemma head_range (A : Type) (P : A -> Prop) n l :
  Forall P l -> Forall P (head n l).
Proof.
  intros F. rewrite Forall_forall in *. intros a I. apply F.
  unfold head in I. eapply firstn_in. exact I.
Qed.

Lemma top_n_range kind (K : Type) n (s : Series K float) :
  sort_contract kind ->
  Forall (fun p => is_percentage (snd p)) s ->
  Forall (fun p => is_percentage (snd p)) (top_n kind n s).
Proof.
  intros Hk F. unfold top_n. apply head_range. apply sorted_range; assumption.
Qed.

(** Counts over their own total. *)
Lemma own_total_range (K : Type) (s : Series K Z) :
  Forall (fun p => 0 <= snd p) s -> 0 < total s ->
  Forall (fun p => is_percentage (snd p))
    (percent_of (to_float s) (of_int (total s))).
Proof.
  intros F T. apply percent_of_range; [ exact T | ].
  apply Forall_forall. intros p I. split.
  - rewrite Forall_forall in F. exact (F p I).
  - apply total_ge_entry; assumption.
Qed.

Lemma positive_own_total_range (K : Type) (s : Series K Z) :
  Forall (fun p => 0 < snd p) s ->
  Forall (fun p => is_percentage (snd p))
    (percent_of (to_float s) (of_int (total s))).
Proof.
  intros F. destruct s as [|p s]; [ constructor | ].
  apply own_total_range.
  - eapply Forall_impl; [ | exact F ]. cbv beta. intros; lia.
  - apply total_positive; [ exact F | discriminate ].
Qed.

(** Counts of the cells of a column over the number of cells. *)
Lemma value_counts_range kind (K : Type) `{Key K} (cells : list (option K)) :
  sort_contract kind ->
  Forall (fun p => is_percentage (snd p))
    (percent_of (to_float (value_counts kind cells))
       (of_int (Z.of_nat (List.length cells)))).
Proof.
  intros Hk. destruct (value_counts kind cells) as [|p s] eqn:E;
    [ constructor | ]. rewrite <- E.
  assert (B : forall q, In q (value_counts kind cells) ->
                0 <= snd q <= Z.of_nat (List.length cells)).
  { intros [k n] I. apply (value_counts_entry _ kind cells k n Hk) in I.
    destruct I as [-> P]. cbn [snd].
    pose proof (occurrences_le _ k cells). lia. }
  apply percent_of_range; [ | apply Forall_forall; exact B ].
  assert (I : In p (value_counts kind cells)) by (rewrite E; left; reflexivity).
  destruct p as [k n]. pose proof (B _ I) as Bp.
  apply (value_counts_entry _ kind cells k n Hk) in I. cbn [snd] in Bp. lia.
Qed.

Lemma group_sizes_range (K : Type) `{Key K} (cells : list (option K)) :
  Forall (fun p => is_percentage (snd p))
    (percent_of (to_float (group_sizes cells))
       (of_int (Z.of_nat (List.length cells)))).
Proof.
  destruct (group_sizes cells) as [|p s] eqn:E; [ constructor | ].
  rewrite <- E.
  assert (B : forall q, In q (group_sizes cells) ->
                0 <= snd q <= Z.of_nat (List.length cells)).
  { intros [k n] I. apply (group_sizes_entry _ cells k n) in I.
    destruct I as [-> P]. cbn [snd].
    pose proof (occurrences_le _ k cells). lia. }
  apply percent_of_range; [ | apply Forall_forall; exact B ].
  assert (I : In p (group_sizes cells)) by (rewrite E; left; reflexivity).
  destruct p as [k n]. pose proof (B _ I) as Bp.
  apply (group_sizes_entry _ cells k n) in I. cbn [snd] in Bp. lia.
Qed.

Lemma resample_daily_nonnegative ts :
  Forall (fun p => 0 <= snd p) (resample_daily ts).
Proof.
  unfold resample_daily. destruct (map day_number ts) as [|d ds];
    [ constructor | ].
  apply Forall_forall. intros p I. apply in_map_iff in I.
  destruct I as [x [<- _]]. cbn [snd]. unfold count_of. lia.
Qed.

Lemma day_sizes_nonnegative l : Forall (fun p => 0 <= snd p) (day_sizes l).
Proof.
  unfold day_sizes. apply Forall_forall. intros p I. apply in_map_iff in I.
  destruct I as [x [<- _]]. cbn [snd]. lia.
Qed.

Lemma flagged_distribution_range kind flagged label reason df d df' :
  sort_contract kind ->
  flagged_distribution kind flagged label reason df = (inr d, df') ->
  Forall (fun p => is_percentage (snd p)) (Flagged.reasons d) /\
  Forall (fun p => is_percentage (snd p)) (Flagged.top_routes d) /\
  Forall (fun p => is_percentage (snd p)) (Flagged.top_journey_types d).
Proof.
  intros Hk E.
  destruct (flagged_distribution_result kind flagged label reason df d df' E)
    as (R & T & J). cbv zeta in R, T, J. unfold len in R, T, J.
  split; [ | split ].
  - rewrite R. apply round_2_range.
    rewrite <- (length_map reason (rows flagged)).
    apply value_counts_range. exact Hk.
  - rewrite T. apply head_range. apply sorted_range; [ exact Hk | ].
    apply round_2_range. rewrite <- (length_map route_key (rows flagged)).
    apply group_sizes_range.
  - rewrite J. apply head_range. apply sorted_range; [ exact Hk | ].
    apply round_2_range.
    rewrite <- (length_map Journey_Type_ID (rows flagged)).
    apply group_sizes_range.
Qed.

(** X17.  Every percentage that is computed from counts is a finite number
    between 0 and 100: the channel, category, type and action
    distributions, the daily trend and the hour distribution with their top
    lists, the route percentages, the journey types and booking sources,
    the three series of the cancellation and of the change analysis, and the
    contact distribution by customer group.  The day-of-week distribution is
    so when the table has a row.  (The revenue distribution is not a share
    of counts and is not bounded.) *)
Theorem percentages_in_range kind (df : DataFrame) :
  sort_contract kind ->
  (forall s df',
     analyze_channel_distribution kind df = (inr s, df') ->
     Forall (fun p => is_percentage (snd p)) s) /\
  (forall d df',
     analyze_errand_categories kind df = (inr d, df') ->
     Forall (fun p => is_percentage (snd p)) (Errands.category_dist d) /\
     Forall (fun p => is_percentage (snd p)) (Errands.type_dist d) /\
     Forall (fun p => is_percentage (snd p)) (Errands.action_dist d)) /\
  (forall d df',
     analyze_time_patterns kind df = (inr d, df') ->
     Forall (fun p => is_percentage (snd p)) (Time.daily_trend d) /\
     Forall (fun p => is_percentage (snd p)) (Time.hour_of_day d) /\
     Forall (fun p => is_percentage (snd p)) (Time.top_days d) /\
     Forall (fun p => is_percentage (snd p)) (Time.top_hours d) /\
     (rows df <> [] ->
      Forall (fun p => is_percentage (snd p)) (Time.day_of_week d) /\
      Forall (fun p => is_percentage (snd p)) (Time.top_weekdays d))) /\
  (forall d df',
     analyze_travel_details kind df = (inr d, df') ->
     Forall (fun t => is_percentage (Travel.route_percentage t))
       (Travel.top_routes d) /\
     Forall (fun p => is_percentage (snd p)) (Travel.journey_types d) /\
     Forall (fun p => is_percentage (snd p)) (Travel.booking_sources d)) /\
  (forall d df',
     analyze_cancellations kind df = (inr d, df') ->
     Forall (fun p => is_percentage (snd p)) (Flagged.reasons d) /\
     Forall (fun p => is_percentage (snd p)) (Flagged.top_routes d) /\
     Forall (fun p => is_percentage (snd p)) (Flagged.top_journey_types d)) /\
  (forall d df',
     analyze_changes kind df = (inr d, df') ->
     Forall (fun p => is_percentage (snd p)) (Flagged.reasons d) /\
     Forall (fun p => is_percentage (snd p)) (Flagged.top_routes d) /\
     Forall (fun p => is_percentage (snd p)) (Flagged.top_journey_types d)) /\
  (forall d df',
     analyze_financial_patterns kind df = (inr d, df') ->
     Forall (fun p => is_percentage (snd p)) (Financial.contact_dist d)).
Proof.
  intros Hk.
  split; [ | split; [ | split; [ | split; [ | split; [ | split ] ] ] ] ].
  - intros s df' E. apply analyze_channel_distribution_returns in E. subst s.
    unfold len. rewrite <- (length_map errand_channel (rows df)).
    apply value_counts_range. exact Hk.
  - intros d df' E.
    pose proof (analyze_errand_categories_returns kind df d df' E) as [C T].
    pose proof (analyze_errand_categories_action kind df d df' E) as [_ A].
    split; [ | split ].
    + rewrite C. apply positive_own_total_range.
      apply value_counts_positive. exact Hk.
    + rewrite T. apply positive_own_total_range.
      apply grouped_value_counts_positive.
    + rewrite A. apply round_2_range. unfold len.
      rewrite <- (length_map
                    (fun r => categorize_errand_action (errand_action r))
                    (rows df)).
      apply value_counts_range. exact Hk.
  - intros d df' E.
    destruct (analyze_time_patterns_result kind df d df' E)
      as (D & W & H & TD & TW & TH). cbv zeta in D, W, H.
    assert (RD : Forall (fun p => is_percentage (snd p)) (Time.daily_trend d)).
    { rewrite D. destruct (rows df) as [|r rs] eqn:R; [ constructor | ].
      apply own_total_range; [ apply resample_daily_nonnegative | ].
      apply total_resample_daily. discriminate. }
    assert (RH : Forall (fun p => is_percentage (snd p)) (Time.hour_of_day d)).
    { rewrite H. apply round_2_range. apply positive_own_total_range.
      apply group_sizes_positive. }
    split; [ exact RD | ]. split; [ exact RH | ].
    split; [ rewrite TD; apply top_n_range; assumption | ].
    split; [ rewrite TH; apply top_n_range; assumption | ].
    intros Hr.
    assert (RW : Forall (fun p => is_percentage (snd p)) (Time.day_of_week d)).
    { rewrite W. apply round_2_range.
      apply own_total_range; [ apply day_sizes_nonnegative | ].
      rewrite total_day_sizes, !length_map.
      destruct (rows df); [ congruence | cbn; lia ]. }
    split; [ exact RW | rewrite TW; apply top_n_range; assumption ].
  - intros d df' E.
    pose proof (analyze_travel_details_routes kind df d df' E) as R.
    pose proof (analyze_travel_details_returns kind df d df' E) as [J S].
    cbv zeta in R. split; [ | split ].
    + rewrite R. apply head_range. apply sorted_range; [ exact Hk | ].
      apply Forall_forall. intros t I. apply in_map_iff in I.
      destruct I as [[k n] [<- I]]. cbn [Travel.route_percentage snd].
      apply round2_percentage.
      pose proof (group_sizes_positive _ (map route_key (rows df))) as P.
      assert (T : 0 < total (group_sizes (map route_key (rows df)))).
      { apply total_positive; [ exact P | ]. intros Z0. rewrite Z0 in I.
        destruct I. }
      apply pct_percentage; [ | exact T ].
      rewrite Forall_forall in P. pose proof (P _ I) as Pn. cbn [snd] in Pn.
      split; [ lia | ].
      apply (total_ge_entry _ _ (k, n)); [ | exact I ].
      eapply Forall_impl; [ | exact (proj2 (Forall_forall _ _) P) ].
      cbv beta. intros; lia.
    + rewrite J. apply round_2_range. apply positive_own_total_range.
      apply value_counts_positive. exact Hk.
    + rewrite S. apply round_2_range. apply positive_own_total_range.
      apply value_counts_positive. exact Hk.
  - intros d df' E. apply analyze_cancellations_flagged in E.
    exact (flagged_distribution_range kind _ _ _ _ d df' Hk E).
  - intros d df' E. apply analyze_changes_flagged in E.
    exact (flagged_distribution_range kind _ _ _ _ d df' Hk E).
  - intros d df' E. apply analyze_financial_patterns_returns in E.
    cbv zeta in E. rewrite E. apply sorted_range; [ exact Hk | ].
    apply positive_own_total_range. apply value_counts_positive. exact Hk.
Qed.

Lemma percentages_in_range_witness :
  let df := merged_of scenario_errands scenario_orders in
  sort_contract insertion_kind /\
  exists s df',
    analyze_channel_distribution insertion_kind df = (inr s, df') /\
    s = [("chat", Fin (200 # 3)); ("email", Fin (100 # 3))] /\
    Forall (fun p => is_percentage (snd p)) s.
Proof.
  split; [ exact insertion_kind_contract | ].
  destruct (analyze_channel_distribution insertion_kind
              (merged_of scenario_errands scenario_orders))
    as [[e|s] df'] eqn:E; [ vm_compute in E; discriminate E | ].
  exists s, df'. split; [ reflexivity | ]. split.
  - vm_compute in E. injection E as <- _. reflexivity.
  - exact (proj1 (percentages_in_range insertion_kind _
                    insertion_kind_contract) s df' E).
Defined.

(** ** The statistics of the daily trend *)








(** ** The type distribution *)

Lemma eq_str_key c (o : option string) :
  eq_str c o = match o with Some x => key_eqb c x | None => false end.
Proof. destruct o as [x|]; cbn; [ apply String.eqb_sym | reflexivity ]. Qed.

(** The types met in one category, counted. *)
Lemma members_occurrences (rs : list Row) c t :
  occurrences t
    (map snd (filter (fun p => eq_str c (fst p))
                (map (fun r => (errand_category r, errand_type r)) rs))) =
  Z.of_nat (List.length
              (filter (fun r => eq_str c (errand_category r)
                                && eq_str t (errand_type r)) rs)).
Proof.
  unfold occurrences. f_equal.
  induction rs as [|r rs IH]; [ reflexivity | ].
  cbn [map filter fst]. destruct (eq_str c (errand_category r)); cbn [andb];
    [ | exact IH ].
  cbn [map snd dropna flat_map]. fold (dropna (A := string)).
  change (flat_map (fun o : option string =>
                      match o with Some a => [a] | None => [] end))
    with (dropna (A := string)).
  rewrite eq_str_key. destruct (errand_type r) as [x|]; cbn [app filter].
  - destruct (key_eqb t x); cbn [List.length]; rewrite IH; reflexivity.
  - exact IH.
Qed.

Lemma members_present (rs : list Row) c :
  List.length
    (dropna (map snd (filter (fun p => eq_str c (fst p))
                        (map (fun r => (errand_category r, errand_type r)) rs))))
  = List.length
      (filter (fun r => eq_str c (errand_category r)
                        && match errand_type r with
                           | Some _ => true
                           | None => false
                           end) rs).
Proof.
  induction rs as [|r rs IH]; [ reflexivity | ].
  cbn [map filter fst]. destruct (eq_str c (errand_category r));
    cbn [andb]; [ | exact IH ].
  cbn [map snd dropna flat_map].
  change (flat_map (fun o : option string =>
                      match o with Some a => [a] | None => [] end))
    with (dropna (A := string)).
  destruct (errand_type r); cbn [app List.length]; rewrite IH; reflexivity.
Qed.

Lemma sum_zero (A : Type) (f : A -> Z) keys :
  (forall k, f k = 0) -> fold_right Z.add 0 (map f keys) = 0.
Proof.
  intros Z0. induction keys as [|k keys IH]; [ reflexivity | ].
  cbn [map fold_right]. rewrite IH, Z0. reflexivity.
Qed.

Lemma indicator_over_keys (keys : list string) (o : option string) :
  NoDup keys -> (forall c, o = Some c -> In c keys) ->
  fold_right Z.add 0 (map (fun c => if eq_str c o then 1 else 0) keys) =
  match o with Some _ => 1 | None => 0 end.
Proof.
  intros N. destruct o as [x|]; cbn [eq_str].
  - intros I. specialize (I x eq_refl).
    induction N as [|k keys Nk N IH]; [ destruct I | ].
    cbn [map fold_right]. destruct I as [-> | I].
    + rewrite String.eqb_refl.
      assert (Z0 : fold_right Z.add 0
                     (map (fun c => if String.eqb x c then 1 else 0) keys) = 0).
      { clear IH N. induction keys as [|k keys IHk]; [ reflexivity | ].
        cbn [map fold_right].
        destruct (String.eqb x k) eqn:E;
          [ apply String.eqb_eq in E; subst k; destruct Nk; left; reflexivity | ].
        rewrite IHk; [ reflexivity | ]. intros I. apply Nk. right. exact I. }
      rewrite Z0. reflexivity.
    + destruct (String.eqb x k) eqn:E;
        [ apply String.eqb_eq in E; subst k; destruct (Nk I) | ].
      rewrite (IH I). reflexivity.
  - intros _. apply sum_zero. reflexivity.
Qed.

Lemma sum_over_keys (keys : list string) (key : Row -> option string)
  (P : Row -> bool) rs :
  NoDup keys ->
  (forall r c, In r rs -> key r = Some c -> In c keys) ->
  fold_right Z.add 0
    (map (fun c => Z.of_nat (List.length
                               (filter (fun r => eq_str c (key r) && P r) rs)))
       keys) =
  Z.of_nat (List.length
              (filter (fun r => match key r with
                                | Some _ => P r
                                | None => false
                                end) rs)).
Proof.
  intros N. induction rs as [|r rs IH]; intros I.
  - cbn [filter List.length]. apply sum_zero. reflexivity.
  - assert (S : forall (f g : string -> Z) ks,
               fold_right Z.add 0 (map (fun x => f x + g x) ks) =
               fold_right Z.add 0 (map f ks) + fold_right Z.add 0 (map g ks)).
    { intros f g ks. induction ks as [|k ks IHk]; [ reflexivity | ].
      cbn [map fold_right]. rewrite IHk. lia. }
    rewrite (map_ext _
               (fun c => (if eq_str c (key r) then (if P r then 1 else 0) else 0)
                         + Z.of_nat (List.length
                                       (filter (fun r => eq_str c (key r) && P r)
                                          rs)))).
    2:{ intros c. cbn [filter].
        destruct (eq_str c (key r)), (P r); cbn [andb List.length]; lia. }
    rewrite S, IH by (intros r' c Ir; apply I; right; exact Ir).
    cbn [filter]. destruct (P r) eqn:Pr.
    + rewrite (indicator_over_keys keys (key r) N
                 (fun c => I r c (or_introl eq_refl))).
      destruct (key r); cbn [List.length]; lia.
    + assert (Z0 : fold_right Z.add 0
                     (map (fun c => if eq_str c (key r) then 0 else 0) keys) = 0).
      { apply sum_zero. intros k. destruct (eq_str k (key r)); reflexivity. }
      rewrite Z0. destruct (key r); reflexivity.
Qed.

Lemma total_flat_map (A K : Type) (f : A -> Series K Z) l :
  total (flat_map f l) = fold_right Z.add 0 (map (fun a => total (f a)) l).
Proof.
  induction l as [|a l IH]; [ reflexivity | ].
  cbn [flat_map map fold_right]. rewrite total_app, IH. reflexivity.
Qed.

Lemma total_relabel (K L : Type) (g : K * Z -> L) (s : Series K Z) :
  total (map (fun p => (g p, snd p)) s) = total s.
Proof. unfold total. rewrite map_map. reflexivity. Qed.

(** X19.  The type distribution, entry by entry.  There is one entry for
    each pair of a category and a type that occurs in a row, no pair twice;
    its value is the number of rows with that pair as a percentage of the
    rows in which both the category and the type are present. *)
Theorem type_distribution_entries kind (df : DataFrame) (d : Errands.t)
  (df' : DataFrame) :
  analyze_errand_categories kind df = (inr d, df') ->
  let both := fun r => match errand_category r, errand_type r with
                       | Some _, Some _ => true
                       | _, _ => false
                       end in
  let base := Z.of_nat (List.length (filter both (rows df))) in
  NoDup (map fst (Errands.type_dist d)) /\
  (forall c t p, In ((c, t), p) (Errands.type_dist d) <->
     let n := Z.of_nat (List.length
                          (filter (fun r => eq_str c (errand_category r)
                                            && eq_str t (errand_type r))
                             (rows df))) in
     0 < n /\ p = pct (of_int n) (of_int base)).
Proof.
  intros E both base.
  pose proof (analyze_errand_categories_returns kind df d df' E) as [_ T].
  cbv zeta in T. rewrite combine_maps in T.
  set (l := map (fun r => (errand_category r, errand_type r)) (rows df)) in *.
  set (keys := map fst (group_sizes (map fst l))) in *.
  assert (NK : NoDup keys) by apply group_sizes_keys.
  assert (IK : forall c, In c keys <-> In (Some c) (map errand_category (rows df))).
  { intros c. unfold keys. rewrite group_keys_present. unfold l.
    rewrite map_map. reflexivity. }
  assert (G : forall c t n,
             In ((c, t), n) (grouped_value_counts l) <->
             n = Z.of_nat (List.length
                             (filter (fun r => eq_str c (errand_category r)
                                               && eq_str t (errand_type r))
                                (rows df))) /\ 0 < n).
  { intros c t n. unfold grouped_value_counts. fold keys.
    rewrite in_flat_map. split.
    - intros [c' [Ic I]]. apply in_map_iff in I.
      destruct I as [[t' n'] [Ep I]]. cbn [fst snd] in Ep.
      injection Ep as -> -> ->.
      apply (Permutation_in _ (sort_by_permutation _ _ _)) in I.
      apply (group_sizes_entry _ _ t n) in I. unfold l in I.
      rewrite members_occurrences in I. exact I.
    - intros [-> P]. exists c. split.
      + apply IK.
        destruct (filter (fun r => eq_str c (errand_category r)
                                   && eq_str t (errand_type r)) (rows df))
          as [|r rs] eqn:F; [ cbn in P; lia | ].
        assert (I : In r (filter (fun r => eq_str c (errand_category r)
                                           && eq_str t (errand_type r))
                            (rows df))) by (rewrite F; left; reflexivity).
        apply filter_In in I. destruct I as [I B].
        apply andb_prop in B. destruct B as [B _].
        apply in_map_iff. exists r. split; [ | exact I ].
        destruct (errand_category r) as [x|]; [ | discriminate B ].
        cbn in B. apply String.eqb_eq in B. congruence.
      + apply in_map_iff. eexists (t, _). split; [ reflexivity | ].
        apply (Permutation_in _ (Permutation_sym (sort_by_permutation _ _ _))).
        apply (group_sizes_entry _ _ t _). unfold l.
        rewrite members_occurrences. split; [ reflexivity | exact P ]. }
  assert (B : total (grouped_value_counts l) = base).
  { unfold grouped_value_counts. fold keys. rewrite total_flat_map.
    rewrite (map_ext _
               (fun c => Z.of_nat
                           (List.length
                              (filter (fun r => eq_str c (errand_category r)
                                                && match errand_type r with
                                                   | Some _ => true
                                                   | None => false
                                                   end) (rows df))))).
    2:{ intros c. rewrite (total_relabel _ _ (fun p => (c, fst p))).
        rewrite (total_perm _ _ _ (sort_by_permutation _ _ _)).
        rewrite total_group_sizes. unfold l. f_equal.
        apply members_present. }
    rewrite (sum_over_keys keys errand_category
               (fun r => match errand_type r with
                         | Some _ => true
                         | None => false
                         end) (rows df) NK).
    - reflexivity.
    - intros r c Ir Ec. apply IK. apply in_map_iff. exists r. auto. }
  rewrite T, B. split.
  - rewrite percent_of_keys.
    assert (ND : forall s : Series (string * string) Z,
               (forall k n m, In (k, n) s -> In (k, m) s -> n = m) ->
               NoDup s -> NoDup (map fst s)).
    { intros s U N. induction N as [|[k n] s Ns N IH]; [ constructor | ].
      cbn [map fst]. constructor.
      - intros I. apply in_map_iff in I. destruct I as [[k' m] [Ek I]].
        cbn [fst] in Ek. subst k'.
        assert (n = m) by (apply (U k); [ left; reflexivity | right; exact I ]).
        subst m. exact (Ns I).
      - apply IH. intros k' a b Ia Ib. apply (U k'); right; assumption. }
    apply ND.
    + intros [c t] n m In Im. apply G in In, Im. destruct In, Im. congruence.
    + unfold grouped_value_counts. fold keys. clear G B T IK.
      assert (NG : forall c,
                 NoDup (map (fun p : string * Z => ((c, fst p), snd p))
                          (sort_by (fun p q => snd q <=? snd p)
                             (group_sizes
                                (map snd (filter (fun p => eq_str c (fst p)) l)))))).
      { intros c.
        assert (NS : NoDup (sort_by (fun p q : string * Z => snd q <=? snd p)
                              (group_sizes
                                 (map snd (filter (fun p => eq_str c (fst p)) l))))).
        { eapply Permutation_NoDup;
            [ apply Permutation_sym; apply sort_by_permutation | ].
          apply (NoDup_map_inv fst). apply group_sizes_keys. }
        revert NS. generalize (sort_by (fun p q : string * Z => snd q <=? snd p)
                                 (group_sizes
                                    (map snd (filter (fun p => eq_str c (fst p)) l)))).
        intros s NS. induction NS as [|[t n] s Ns NS IH]; [ constructor | ].
        cbn [map]. constructor; [ | exact IH ].
        intros I. apply in_map_iff in I. destruct I as [[t' n'] [Ep I]].
        cbn [fst snd] in Ep. injection Ep as -> ->. exact (Ns I). }
      induction NK as [|k keys Nk NK IH]; [ constructor | ].
      cbn [flat_map]. apply NoDup_app; [ apply NG | exact IH | ].
      intros [[c t] n] I1 I2. apply in_map_iff in I1.
      destruct I1 as [[t' n'] [Ep _]]. cbn [fst snd] in Ep.
      injection Ep as <- _ _. apply in_flat_map in I2.
      destruct I2 as [c' [Ic I2]]. apply in_map_iff in I2.
      destruct I2 as [[t'' n''] [Ep _]]. cbn [fst snd] in Ep.
      injection Ep as -> _ _. exact (Nk Ic).
  - intros c t p. cbv zeta. rewrite percent_of_entry. split.
    + intros [n [I ->]]. apply G in I. destruct I as [-> P].
      split; [ exact P | reflexivity ].
    + intros [P ->]. eexists. split; [ | reflexivity ].
      apply G. split; [ reflexivity | exact P ].
Qed.

Lemma type_distribution_entries_witness :
  let df := merged_of scenario_errands scenario_orders in
  exists d df',
    analyze_errand_categories insertion_kind df = (inr d, df') /\
    Errands.type_dist d =
      [ ("booking", "cancel", Fin (100 # 3));
        ("booking", "change", Fin (100 # 3));
        ("payment", "refund", Fin (100 # 3)) ] /\
    NoDup (map fst (Errands.type_dist d)).
Proof.
  cbv zeta.
  destruct (analyze_errand_categories insertion_kind
              (merged_of scenario_errands scenario_orders))
    as [[e|d] df'] eqn:E; [ vm_compute in E; discriminate E | ].
  exists d, df'. split; [ reflexivity | ]. split.
  - vm_compute in E. injection E as <- _. reflexivity.
  - exact (proj1 (type_distribution_entries insertion_kind _ d df' E)).
Defined.

(** ** When the script succeeds *)



